(** * deepin-auto-translation: [toproduct/translate_languages.py]

    A shallow embedding of the translation script and the proofs of the
    properties its specification states about it.

    Python values are modelled as follows.
    - [str] is a sequence of Unicode code points, [list Z].
    - [bytes] (file contents) is a sequence of octets, [list Z].
    - [int] is [Z].
    - [None] where a string is expected is [option str].
    - the dictionaries of [language_codes.py] are [gmap str str].
    - console, clock, file system and remote client are fields of an
      explicit [World] threaded through a state-and-exception monad. *)

From Stdlib Require Import ZArith String Ascii.
From stdpp Require Import base option list gmap pretty.

Local Open Scope Z_scope.

(** ** Text *)

Abbreviation str := (list Z) (only parsing).
Abbreviation bytes := (list Z) (only parsing).

Module Utf8.

Definition is_cont (b : Z) : bool := (0x80 <=? b) && (b <=? 0xBF).

Definition is_surrogate (c : Z) : bool := (0xD800 <=? c) && (c <=? 0xDFFF).

(** A Unicode scalar value: what a decoded file can contain and what the
    utf-8 codec can encode. *)
Definition is_scalar (c : Z) : bool :=
  (0 <=? c) && (c <=? 0x10FFFF) && negb (is_surrogate c).

(** [bytes.decode('utf-8')] with [errors='strict']: overlong forms,
    surrogates, values above U+10FFFF and truncated sequences are decode
    errors ([None]). *)
Fixpoint decode (bs : bytes) : option str :=
  match bs with
  | [] => Some []
  | b0 :: r0 =>
    if (0 <=? b0) && (b0 <? 0x80) then cons b0 <$> decode r0
    else if (0xC2 <=? b0) && (b0 <=? 0xDF) then
      match r0 with
      | b1 :: r1 =>
        if is_cont b1
        then cons ((b0 - 0xC0) * 64 + (b1 - 0x80)) <$> decode r1
        else None
      | _ => None
      end
    else if (0xE0 <=? b0) && (b0 <=? 0xEF) then
      match r0 with
      | b1 :: b2 :: r2 =>
        let c := (b0 - 0xE0) * 4096 + (b1 - 0x80) * 64 + (b2 - 0x80) in
        if is_cont b1 && is_cont b2 && (0x800 <=? c) && negb (is_surrogate c)
        then cons c <$> decode r2
        else None
      | _ => None
      end
    else if (0xF0 <=? b0) && (b0 <=? 0xF4) then
      match r0 with
      | b1 :: b2 :: b3 :: r3 =>
        let c := (b0 - 0xF0) * 262144 + (b1 - 0x80) * 4096
                 + (b2 - 0x80) * 64 + (b3 - 0x80) in
        if is_cont b1 && is_cont b2 && is_cont b3
           && (0x10000 <=? c) && (c <=? 0x10FFFF)
        then cons c <$> decode r3
        else None
      | _ => None
      end
    else None
  end.

(** The octets of one code point, [None] where the codec raises
    [UnicodeEncodeError]. *)
Definition encode_char (c : Z) : option bytes :=
  if negb (is_scalar c) then None
  else if c <? 0x80 then Some [c]
  else if c <? 0x800 then Some [0xC0 + c / 64; 0x80 + c mod 64]
  else if c <? 0x10000 then
    Some [0xE0 + c / 4096; 0x80 + (c / 64) mod 64; 0x80 + c mod 64]
  else
    Some [0xF0 + c / 262144; 0x80 + (c / 4096) mod 64;
          0x80 + (c / 64) mod 64; 0x80 + c mod 64].

(** [str.encode('utf-8')]. *)
Fixpoint encode (s : str) : option bytes :=
  match s with
  | [] => Some []
  | c :: s' =>
    match encode_char c, encode s' with
    | Some b, Some bs => Some (b ++ bs)
    | _, _ => None
    end
  end.

(** A string of Unicode scalar values. *)
Definition valid (s : str) : bool := forallb is_scalar s.

End Utf8.

(** Source literals: the code points of a literal of the (utf-8 encoded)
    source file. *)
Definition octets (s : string) : bytes :=
  (fun b => Z.of_N (Byte.to_N b)) <$> list_byte_of_string s.

Definition u (s : string) : str := default [] (Utf8.decode (octets s)).
Arguments u : simpl never.

(** ** The [str] methods the script calls *)

Module Py.

(** [str.isspace] on one character, which is also the set [str.strip]
    removes: U+0009..000D, U+001C..0020, U+0085, U+00A0, U+1680,
    U+2000..200A, U+2028, U+2029, U+202F, U+205F, U+3000. *)
Definition isspace (c : Z) : bool :=
  ((0x09 <=? c) && (c <=? 0x0D)) || ((0x1C <=? c) && (c <=? 0x20))
  || (c =? 0x85) || (c =? 0xA0) || (c =? 0x1680)
  || ((0x2000 <=? c) && (c <=? 0x200A))
  || (c =? 0x2028) || (c =? 0x2029) || (c =? 0x202F) || (c =? 0x205F)
  || (c =? 0x3000).

Fixpoint lstrip (s : str) : str :=
  match s with
  | [] => []
  | c :: s' => if isspace c then lstrip s' else s
  end.

Definition rstrip (s : str) : str := reverse (lstrip (reverse s)).

(** [s.strip()] *)
Definition strip (s : str) : str := rstrip (lstrip s).

(** [str.lower] of one character.  ASCII letters are mapped exactly.
    Outside ASCII only U+0130 and U+212A have a lowercase form that
    contains an ASCII character, and they are mapped as Python maps them;
    every other character is left as it is, its Unicode lowercase form is
    again outside ASCII (the tables are not reproduced), so that equality
    of a lowercased string with an ASCII literal is decided as Python
    decides it. *)
Definition lower_char (c : Z) : str :=
  if (0x41 <=? c) && (c <=? 0x5A) then [c + 32]
  else if c =? 0x130 then [0x69; 0x307]
  else if c =? 0x212A then [0x6B]
  else [c].

(** [s.lower()] *)
Definition lower (s : str) : str := s ≫= lower_char.

Definition eqb (s t : str) : bool := bool_decide (s = t).

(** [s.endswith(t)] *)
Definition endswith (s t : str) : bool :=
  (length t <=? length s)%nat && eqb (drop (length s - length t) s) t.

(** [s[:-1]] *)
Definition drop_last (s : str) : str := take (length s - 1) s.

(** [s.replace(old, new)] for a pattern [old] of one character. *)
Definition replace (old : Z) (new : str) (s : str) : str :=
  s ≫= (fun c => if c =? old then new else [c]).

(** [c in t] for a character [c]. *)
Definition contains (t : str) (c : Z) : bool := bool_decide (c ∈ t).

(** Truth value of a string: [if s:] *)
Definition truthy (s : str) : bool :=
  match s with [] => false | _ => true end.

(** [s.strip(chars)] *)
Fixpoint lstrip_chars (chars s : str) : str :=
  match s with
  | [] => []
  | c :: s' => if contains chars c then lstrip_chars chars s' else s
  end.

Definition strip_chars (chars s : str) : str :=
  reverse (lstrip_chars chars (reverse (lstrip_chars chars s))).

(** [str(n)] for an [int]. *)
Definition str_of_int (n : Z) : str := u (pretty n).

End Py.

(** ** Exceptions, effects and the world *)

(** The exceptions the script can meet; all of them are subclasses of
    Python's [Exception].  [APIError] stands for whatever the remote client
    raises (connection, timeout, authentication, status errors). *)
Inductive exn :=
| KeyError (key : str)
| EOFError
| FileNotFoundError (path : str)
| UnicodeDecodeError
| UnicodeEncodeError
| IndexError
| AttributeError
| APIError (detail : str).

Inductive res (A : Type) :=
| Ok (a : A)
| Raise (e : exn).
Arguments Ok {A} a.
Arguments Raise {A} e.

Inductive encoding := utf_8 | gbk.
Inductive mode := mode_r | mode_w.

(** The request of [client.chat.completions.create] and what it returns. *)
Record Msg := { msg_role : str; msg_content : str }.
Record Request := { model : str; messages : list Msg }.
Record ChatMessage := { content : option str }.
Record Choice := { message : ChatMessage }.
Record Response := { choices : list Choice }.

Inductive event :=
| Print (text : str)
| Input (prompt : str)
| Sleep (seconds : Z)
| Create (request : Request) (outcome : res Response)
| Open (path : str) (m : mode) (enc : encoding).

(** The world the script runs in: the files (path to contents), the lines
    the operator will type, the state of the remote service as seen through
    the client, and what has been done so far (oldest first). *)
Record World (C : Type) := {
  files : gmap (list Z) (list Z);
  stdin : list str;
  client : C;
  trace : list event
}.
Arguments files {C} w.
Arguments stdin {C} w.
Arguments client {C} w.
Arguments trace {C} w.

Definition log {C} (e : event) (w : World C) : World C :=
  {| files := files w; stdin := stdin w; client := client w;
     trace := trace w ++ [e] |}.

Definition set_stdin {C} (l : list str) (w : World C) : World C :=
  {| files := files w; stdin := l; client := client w; trace := trace w |}.

Definition set_client {C} (c : C) (w : World C) : World C :=
  {| files := files w; stdin := stdin w; client := c; trace := trace w |}.

Definition set_file {C} (path : str) (b : bytes) (w : World C) : World C :=
  {| files := <[path := b]> (files w); stdin := stdin w; client := client w;
     trace := trace w |}.

(** The world with more done. *)
Definition extend {C} (evs : list event) (w : World C) : World C :=
  {| files := files w; stdin := stdin w; client := client w;
     trace := trace w ++ evs |}.

(** Computations: state passing over the world, with exceptions.  The world
    is returned also when an exception is raised, effects are not undone. *)
Definition M (C A : Type) : Type := World C -> res A * World C.

Definition ret {C A} (a : A) : M C A := fun w => (Ok a, w).

Definition raise {C A} (e : exn) : M C A := fun w => (Raise e, w).

Definition bind {C A B} (m : M C A) (k : A -> M C B) : M C B :=
  fun w =>
    match m w with
    | (Ok a, w') => k a w'
    | (Raise e, w') => (Raise e, w')
    end.

(** [try: m  except <class> as e: h e], the class given by [caught]. *)
Definition try_except {C A} (m : M C A) (caught : exn -> bool)
    (h : exn -> M C A) : M C A :=
  fun w =>
    match m w with
    | (Ok a, w') => (Ok a, w')
    | (Raise e, w') => if caught e then h e w' else (Raise e, w')
    end.

Notation "'let*' x ':=' m 'in' k" := (bind m (fun x => k))
  (at level 10, x pattern, m at level 100, k at level 200).
Notation "m '>>' k" := (bind m (fun _ => k))
  (at level 95, right associativity).

Definition emit {C} (e : event) : M C unit := fun w => (Ok tt, log e w).

(** [print(text, end=e)] and [print(text)]. *)
Definition print_end {C} (text e : str) : M C unit := emit (Print (text ++ e)).
Definition print {C} (text : str) : M C unit := print_end text [10].

(** [time.sleep(seconds)] *)
Definition sleep {C} (seconds : Z) : M C unit := emit (Sleep seconds).

(** [input(prompt)] when a line is there: the prompt is shown and the line
    is consumed; and at the end of the input: [EOFError]. *)
Definition input_line {C} (prompt : str) (rest : list str) : M C unit :=
  fun w => (Ok tt, set_stdin rest (log (Input prompt) w)).
Definition input_eof {C A} (prompt : str) : M C A :=
  fun w => (Raise EOFError, log (Input prompt) w).
Definition input {C} (prompt : str) : M C str :=
  fun w =>
    match stdin w with
    | [] => input_eof prompt w
    | line :: rest => (input_line prompt rest >> ret line) w
    end.

Definition is_unicode_decode_error (e : exn) : bool :=
  match e with UnicodeDecodeError => true | _ => false end.

(** [except Exception]: every exception of the model. *)
Definition is_exception (e : exn) : bool := true.

(** ** Files *)

(** [f.readlines()] on decoded text, in universal-newlines mode (the
    default of [open]): a line ends at LF, CR LF or a lone CR, and keeps a
    single LF as its end; the last line may have none. *)
Fixpoint split_lines (cur text : str) : list str :=
  match text with
  | [] => match cur with [] => [] | _ => [cur] end
  | c :: rest =>
    if c =? 10 then (cur ++ [10]) :: split_lines [] rest
    else if c =? 13 then
      match rest with
      | d :: rest' =>
        if d =? 10 then (cur ++ [10]) :: split_lines [] rest'
        else (cur ++ [10]) :: split_lines [] rest
      | [] => (cur ++ [10]) :: split_lines [] rest
      end
    else split_lines (cur ++ [c]) rest
  end.

(** ** The csv writer *)

Module Csv.

(** A cell handed to [writerow]: a string, or [None], written as the empty
    string. *)
Definition cell_text (c : option str) : str := default [] c.

(** The default dialect (excel): the delimiter is the comma, the quote
    character the double quote, quoting is [QUOTE_MINIMAL] with
    [doublequote], the line terminator is CR LF. *)
Definition comma : Z := 44.
Definition quote : Z := 34.

Definition needs_quoting (s : str) : bool :=
  existsb (fun c => (c =? comma) || (c =? quote) || (c =? 13) || (c =? 10)) s.

Definition field (s : str) : str :=
  if needs_quoting s
  then [quote] ++ Py.replace quote [quote; quote] s ++ [quote]
  else s.

Fixpoint join (fields : list str) : str :=
  match fields with
  | [] => []
  | [f] => f
  | f :: fs => f ++ [comma] ++ join fs
  end.

(** The text one [writerow] hands to the file.  A row made of a single
    empty field is written quoted. *)
Definition row (cells : list (option str)) : str :=
  match cells with
  | [c] => match cell_text c with
           | [] => [quote; quote]
           | s => field s
           end
  | _ => join (field ∘ cell_text <$> cells)
  end ++ [13; 10].

End Csv.

(** ** Reading a trace *)

(** How an attempt of the translation client ends, given what the call to
    the service gave: the call may raise, the response may have no choice
    or no text in its first choice. *)
Definition first_text (o : res Response) : res str :=
  match o with
  | Raise e => Raise e
  | Ok response =>
    match choices response with
    | [] => Raise IndexError
    | choice :: _ =>
      match content (message choice) with
      | None => Raise AttributeError
      | Some s => Ok s
      end
    end
  end.

Definition failed (o : res Response) : bool :=
  match first_text o with Raise _ => true | Ok _ => false end.

(** The calls to the service in a trace, what they gave, and the waits. *)
Definition calls (t : list event) : list (res Response) :=
  omap (fun ev => match ev with Create _ o => Some o | _ => None end) t.

Definition waits (t : list event) : list Z :=
  omap (fun ev => match ev with Sleep n => Some n | _ => None end) t.

Definition prompts (t : list event) : list str :=
  omap (fun ev => match ev with Input p => Some p | _ => None end) t.

Definition opened (t : list event) : list encoding :=
  omap (fun ev => match ev with Open _ _ enc => Some enc | _ => None end) t.

(** What a computation added to the trace. *)
Definition events_since {C} (w w' : World C) : list event :=
  drop (length (trace w)) (trace w').

(** ** The script *)

Section Script.

(** What the script takes from outside this file:
    - the remote completion service behind [client.chat.completions.create],
      a transition function on its state [C], returning a response or raising;
    - the [gbk] codec of the Python runtime;
    - [str(e)], the text of an exception, which the runtime and the client
      library produce;
    - the two dictionaries of [language_codes.py]. *)
Context {C : Type}.
Variable create : C -> Request -> res Response * C.
Variable gbk_decode : bytes -> option str.
Variable exn_text : exn -> str.
Variable LANGUAGE_CODES : gmap (list Z) (list Z).
Variable REVERSE_LANGUAGE_CODES : gmap (list Z) (list Z).

Definition nl : str := [10].

(** What [print(text)] writes. *)
Definition printed (text : str) : event := Print (text ++ nl).

Fixpoint for_each {A} (l : list A) (body : A -> M C unit) : M C unit :=
  match l with
  | [] => ret tt
  | x :: l' => body x >> for_each l' body
  end.

(** [d[k]] *)
Definition subscript (d : gmap (list Z) (list Z)) (k : str) : M C str :=
  match d !! k with
  | Some v => ret v
  | None => raise (KeyError k)
  end.

(** [len(l)] *)
Definition len {A} (l : list A) : Z := Z.of_nat (length l).

Definition nonempty {A} (l : list A) : bool :=
  match l with [] => false | _ => true end.

Definition common_langs : list (str * str) :=
  [(u "zh", u "中文"); (u "en", u "英文"); (u "ja", u "日语");
   (u "ko", u "韩语"); (u "fr", u "法语"); (u "de", u "德语");
   (u "es", u "西班牙语"); (u "ru", u "俄语"); (u "ar", u "阿拉伯语")].

Definition show_common_languages : M C unit :=
  print (nl ++ u "常用语言示例：") >>
  for_each common_langs
    (fun '(code, name) =>
       print_end (name ++ u "(" ++ code ++ u ")") (u "  ")) >>
  print nl.

(** The [while True:] loop of [get_target_language].  Every iteration
    consumes one line of input, so the recursion is on the lines still to
    come, which [get_target_language] takes from the world. *)
Fixpoint target_loop (pending : list str) : M C (str * str) :=
  match pending with
  | [] => input_eof (u "请输入目标语言: ")
  | line :: rest =>
    input_line (u "请输入目标语言: ") rest >>
    let target_language := Py.strip line in
    match LANGUAGE_CODES !! target_language with
    | Some name => ret (target_language, name)
    | None =>
      match REVERSE_LANGUAGE_CODES !! target_language with
      | Some code => ret (code, target_language)
      | None =>
        print (u "不支持的语言，请重新输入或查看 language_codes.py 获取支持的语言列表") >>
        target_loop rest
      end
    end
  end.

Definition get_target_language : M C (str * str) :=
  print (nl ++ u "请选择目标语言（支持中文名称或英文缩写）") >>
  print (u "提示：您可以查看 language_codes.py 文件获取完整的语言代码列表") >>
  show_common_languages >>
  fun w => target_loop (stdin w) w.

Fixpoint source_loop (pending : list str) : M C (str * str) :=
  match pending with
  | [] => input_eof (u "请输入源语言: ")
  | line :: rest =>
    input_line (u "请输入源语言: ") rest >>
    let source_language := Py.strip line in
    match LANGUAGE_CODES !! source_language with
    | Some name => ret (source_language, name)
    | None =>
      match REVERSE_LANGUAGE_CODES !! source_language with
      | Some code => ret (code, source_language)
      | None =>
        print (u "不支持的语言，请重新输入或查看 language_codes.py 获取支持的语言列表") >>
        source_loop rest
      end
    end
  end.

Definition get_source_language : M C (str * str) :=
  print (nl ++ u "请选择源语言（支持中文名称或英文缩写）") >>
  print (u "提示：您可以查看 language_codes.py 文件获取完整的语言代码列表") >>
  show_common_languages >>
  fun w => source_loop (stdin w) w.

(** *** [translate_to_language] *)

(** [client.chat.completions.create(model=..., messages=...)] *)
Definition chat_completions_create (request : Request) : M C Response :=
  fun w =>
    let (outcome, c) := create (client w) request in
    (outcome, set_client c (log (Create request outcome) w)).

Definition system_prompt_of (source_name target_language : str) : str :=
  nl ++ u "将输入的" ++ source_name ++ u "文本翻译成" ++ target_language
     ++ u "，遵循以下规则：" ++ nl
  ++ u "1. 不要判断文本类型" ++ nl
  ++ u "2. 不要解释" ++ nl
  ++ u "3. 不要加标点符号" ++ nl
  ++ u "4. 只返回翻译结果" ++ nl
  ++ u "5. 如果输入已经是" ++ target_language ++ u "就返回原文" ++ nl
  ++ u "6. 保持文本的本意，确保准确翻译" ++ nl.

Definition request_of (system_prompt prompt : str) : Request :=
  {| model := u "doubao-1-5-pro-32k-250115";
     messages := [ {| msg_role := u "system"; msg_content := system_prompt |};
                   {| msg_role := u "user"; msg_content := prompt |} ] |}.

Definition punctuation : str := u ".,!?;:，。！？；：".

(** [response.choices[0].message.content]: [IndexError] without a choice,
    and [AttributeError] at the following [.strip()] when the content is
    [None]. *)
Definition first_content (response : Response) : M C str :=
  match choices response with
  | [] => raise IndexError
  | choice :: _ =>
    match content (message choice) with
    | None => raise AttributeError
    | Some s => ret s
    end
  end.

(** Lines 92 to 94, from the content of the first choice to the value
    returned. *)
Definition clean_result (s : str) : str :=
  let result := Py.strip s in
  let result := Py.strip (Py.replace 39 [] (Py.replace 34 [] result)) in
  filter (fun char => ~ char ∈ punctuation) result.

(** The body of the [try:]. *)
Definition attempt_once (request : Request) : M C str :=
  let* response := chat_completions_create request in
  let* s := first_content response in
  ret (clean_result s).

(** The texts of lines 99 and 102. *)
Definition retry_message (text : str) (e : exn) (wait_time : Z) : str :=
  u "翻译出错 (" ++ text ++ u "): " ++ exn_text e ++ u "，等待 "
  ++ Py.str_of_int wait_time ++ u " 秒后重试...".

Definition giveup_message (text : str) (e : exn) : str :=
  u "翻译出错 (" ++ text ++ u "): " ++ exn_text e ++ u "，已达到最大重试次数".

(** [for attempt in range(max_retries):]; falling out of the loop the
    function returns [None]. *)
Fixpoint attempt_loop (text : str) (request : Request) (max_retries : Z)
    (range : list Z) : M C (option str) :=
  match range with
  | [] => ret None
  | attempt :: range' =>
    try_except
      (let* result := attempt_once request in ret (Some result))
      is_exception
      (fun e =>
         if attempt <? max_retries - 1 then
           let wait_time := (attempt + 1) * 2 in
           print (retry_message text e wait_time) >>
           sleep wait_time >>
           attempt_loop text request max_retries range'
         else
           print (giveup_message text e) >>
           ret (Some text))
  end.

Definition translate_to_language (text source_language_code target_language : str)
    (max_retries : Z) : M C (option str) :=
  if negb (Py.truthy text) || Py.eqb (Py.strip text) [] then ret (Some text)
  else
    let* source_name := subscript LANGUAGE_CODES source_language_code in
    let system_prompt := system_prompt_of source_name target_language in
    let prompt := text in
    attempt_loop text (request_of system_prompt prompt) max_retries
      (seqZ 0 max_retries).

(** *** [read_source_file] *)

Definition decode (enc : encoding) (b : bytes) : option str :=
  match enc with
  | utf_8 => Utf8.decode b
  | gbk => gbk_decode b
  end.

(** [open(path, 'r', encoding=enc)]: the file object, here its octets. *)
Definition open_r (path : str) (enc : encoding) : M C bytes :=
  fun w =>
    match files w !! path with
    | Some b => (Ok b, log (Open path mode_r enc) w)
    | None => (Raise (FileNotFoundError path), log (Open path mode_r enc) w)
    end.

(** [f.readlines()] of a file opened with encoding [enc]. *)
Definition readlines (enc : encoding) (f : bytes) : M C (list str) :=
  match decode enc f with
  | Some text => ret (split_lines [] text)
  | None => raise UnicodeDecodeError
  end.

(** One iteration of the loop of lines 116 to 126, as a function of the
    list built so far. *)
Definition try_loop_body (processed_lines : list str) (line : str) : list str :=
  if Py.eqb (Py.lower (Py.strip line)) (u "source language,")
  then processed_lines
  else
    let cleaned_line := Py.strip line in
    let cleaned_line :=
      if Py.endswith cleaned_line (u ",") then Py.drop_last cleaned_line
      else cleaned_line in
    if Py.truthy cleaned_line then processed_lines ++ [cleaned_line]
    else processed_lines.

(** One iteration of the loop of lines 133 to 140. *)
Definition except_loop_body (processed_lines : list str) (line : str) : list str :=
  if Py.eqb (Py.lower (Py.strip line)) (u "source language,")
  then processed_lines
  else
    let cleaned_line := Py.strip line in
    let cleaned_line :=
      if Py.endswith cleaned_line (u ",") then Py.drop_last cleaned_line
      else cleaned_line in
    if Py.truthy cleaned_line then processed_lines ++ [cleaned_line]
    else processed_lines.

Definition read_source_file (file_path : str) : M C (list str) :=
  let* languages :=
    try_except
      (let* f := open_r file_path utf_8 in
       let* lines := readlines utf_8 f in
       let processed_lines := foldl try_loop_body [] lines in
       ret processed_lines)
      is_unicode_decode_error
      (fun _ =>
       let* f := open_r file_path gbk in
       let* lines := readlines gbk f in
       let processed_lines := foldl except_loop_body [] lines in
       ret processed_lines) in
  if negb (nonempty languages) then ret []
  else
    print (nl ++ u "总共读取到 " ++ Py.str_of_int (len languages)
           ++ u " 个待翻译文本") >>
    print [] >>
    ret languages.

(** *** [write_translated_file] *)

(** [open(path, 'w', encoding='utf-8', newline='')]: the file is created
    or truncated. *)
Definition open_w (path : str) : M C unit :=
  fun w => (Ok tt, set_file path [] (log (Open path mode_w utf_8) w)).

(** [writer.writerow(cells)] on the file at [path]: the row is encoded and
    appended, or [UnicodeEncodeError] is raised and nothing of the row is
    written. *)
Definition writerow (path : str) (cells : list (option str)) : M C unit :=
  fun w =>
    match Utf8.encode (Csv.row cells) with
    | Some b => (Ok tt, set_file path (default [] (files w !! path) ++ b) w)
    | None => (Raise UnicodeEncodeError, w)
    end.

Definition write_translated_file (file_path : str)
    (original_languages : list str) (translated_languages : list (option str))
    (source_language : str) : M C unit :=
  open_w file_path >>
  writerow file_path [Some (u "Original Text"); Some (u "Source Language");
                      Some (u "Translated Text")] >>
  for_each (zip original_languages translated_languages)
    (fun '(orig, trans) =>
       writerow file_path [Some orig; Some source_language; trans]).

(** *** [main] *)

(** [f"{x}"] for a value that is a string or [None]. *)
Definition format (x : option str) : str := default (u "None") x.

(** The loop of lines 186 to 195; [i] is the index [enumerate] gives to the
    first of [texts], [n] is [len(source_languages)]. *)
Fixpoint main_loop (n : Z) (source_code target_language : str) (i : Z)
    (texts : list str) (translated_languages : list (option str))
    : M C (list (option str)) :=
  match texts with
  | [] => ret translated_languages
  | text :: texts' =>
    print (nl ++ u "正在翻译第 " ++ Py.str_of_int i ++ u "/" ++ Py.str_of_int n
           ++ u " 个文本:") >>
    print (u "源文本: " ++ text) >>
    let* translated :=
      translate_to_language text source_code target_language 3 in
    print (u "译文: " ++ format translated) >>
    let translated_languages := translated_languages ++ [translated] in
    (if i mod 5 =? 0 then sleep 1 else ret tt) >>
    main_loop n source_code target_language (i + 1) texts' translated_languages
  end.

(** The body of the [try:] of [main].  The client object is built before
    it without any request to the service; it is the [client] of the
    world. *)
Definition main_body : M C unit :=
  let* source_languages := read_source_file (u "language.csv") in
  if negb (nonempty source_languages) then
    print (u "错误：源文件为空或未找到有效的文本")
  else
    print (u "从language.csv中读取到 " ++ Py.str_of_int (len source_languages)
           ++ u " 个待翻译文本") >>
    print (u "请指定源语言，所有文本将被视为同一种语言进行翻译" ++ nl) >>
    let* (source_code, source_language) := get_source_language in
    let* (target_code, target_language) := get_target_language in
    print (nl ++ u "开始将" ++ source_language ++ u "翻译为" ++ target_language
           ++ u "...") >>
    let* translated_languages :=
      main_loop (len source_languages) source_code target_language 1
        source_languages [] in
    let output_file :=
      u "translated_" ++ source_code ++ u "_to_" ++ target_code ++ u ".csv" in
    write_translated_file output_file source_languages translated_languages
      source_language >>
    print (nl ++ u "翻译完成！结果已保存到 " ++ output_file) >>
    input (nl ++ u "按任意键退出...") >>
    ret tt.

Definition main : M C unit :=
  try_except main_body is_exception
    (fun e =>
       print (u "发生错误: " ++ exn_text e) >>
       input (nl ++ u "按任意键退出...") >>
       ret tt).

(** *** Names for what the statements below speak of *)

(** The two selectors and their prompts. *)
Inductive which := source | target.

Definition selector (k : which) : M C (str * str) :=
  match k with
  | source => get_source_language
  | target => get_target_language
  end.

Definition selector_loop (k : which) : list str -> M C (str * str) :=
  match k with
  | source => source_loop
  | target => target_loop
  end.

Definition prompt_of (k : which) : str :=
  match k with
  | source => u "请输入源语言: "
  | target => u "请输入目标语言: "
  end.

(** An answer is rejected when, trimmed, it is in neither dictionary. *)
Definition rejected (line : str) : Prop :=
  LANGUAGE_CODES !! Py.strip line = None
  /\ REVERSE_LANGUAGE_CODES !! Py.strip line = None.

Definition rejection : str :=
  u "不支持的语言，请重新输入或查看 language_codes.py 获取支持的语言列表".

(** The world after the answers [bad] were typed at [prompt] and rejected,
    with [pending] still to be read. *)
Definition after_rejected (prompt : str) (bad pending : list str)
    (w : World C) : World C :=
  set_stdin pending
    (extend (bad ≫= fun _ => [Input prompt; printed rejection]) w).

(** What a selector prints before it asks. *)
Definition banner : list event :=
  printed (nl ++ u "常用语言示例：")
  :: ((fun '(code, name) => Print ((name ++ u "(" ++ code ++ u ")") ++ u "  "))
        <$> common_langs)
  ++ [printed nl].

Definition heading (k : which) : str :=
  match k with
  | source => u "请选择源语言（支持中文名称或英文缩写）"
  | target => u "请选择目标语言（支持中文名称或英文缩写）"
  end.

Definition intro (k : which) : list event :=
  [ printed (nl ++ heading k);
    printed (u "提示：您可以查看 language_codes.py 文件获取完整的语言代码列表") ]
  ++ banner.

(** What [read_source_file] prints once the lines are cleaned. *)
Definition report (languages : list str) : list event :=
  match languages with
  | [] => []
  | _ => [ printed (nl ++ u "总共读取到 " ++ Py.str_of_int (len languages)
                    ++ u " 个待翻译文本");
           printed [] ]
  end.

(** The text of the output file: the header row, and the row of an
    original with its translation. *)
Definition header_row : str :=
  u "Original Text,Source Language,Translated Text" ++ [13; 10].

Definition data_row (source_language orig : str) (trans : option str) : str :=
  Csv.field orig ++ [44] ++ Csv.field source_language ++ [44]
  ++ Csv.field (Csv.cell_text trans) ++ [13; 10].




(** The text of the whole output file. *)
Definition output_text (source_language : str) (originals : list str)
    (translated : list (option str)) : str :=
  header_row ++ mjoin (zip_with (data_row source_language) originals translated).

End Script.

(** ** The wording of the specification, where it is compared with the code *)

Module Spec.

(** The cleaning of a completion in the words of the specification:
    surrounding whitespace trimmed, enclosing quote characters stripped,
    the punctuation marks removed. *)
Definition clean_result (s : str) : str :=
  filter (fun char => ~ char ∈ punctuation)
    (Py.strip_chars [34; 39] (Py.strip s)).

(** The line policy of the source reader: the header line is dropped, one
    trailing comma is removed, a line left empty is dropped. *)
Definition is_header (line : str) : bool :=
  Py.eqb (Py.lower (Py.strip line)) (u "source language,").

Definition clean_line (line : str) : option str :=
  if is_header line then None
  else
    let cleaned := Py.strip line in
    let cleaned :=
      if Py.endswith cleaned (u ",") then Py.drop_last cleaned else cleaned in
    if Py.truthy cleaned then Some cleaned else None.

Definition clean_lines (lines : list str) : list str := omap clean_line lines.

(** The text of a file under the encoding policy: utf-8, and GBK when the
    octets are not utf-8. *)
Definition decoded (gbk_decode : bytes -> option str) (b : bytes) : option str :=
  match Utf8.decode b with
  | Some text => Some text
  | None => gbk_decode b
  end.

End Spec.

(** ** Concrete surroundings, for running the script *)

Module Sample.

(** A directory with two languages and its inverse. *)
Definition codes : gmap (list Z) (list Z) :=
  {[ u "en" := u "英文"; u "zh" := u "中文" ]}.
Definition names : gmap (list Z) (list Z) :=
  {[ u "英文" := u "en"; u "中文" := u "zh" ]}.

Definition exn_text (e : exn) : str :=
  match e with
  | KeyError k => u "'" ++ k ++ u "'"
  | EOFError => u "EOF when reading a line"
  | FileNotFoundError p => u "No such file or directory: " ++ p
  | UnicodeDecodeError => u "codec can't decode"
  | UnicodeEncodeError => u "codec can't encode"
  | IndexError => u "list index out of range"
  | AttributeError => u "'NoneType' object has no attribute 'strip'"
  | APIError d => d
  end.

(** A piece of GBK: ASCII, and the two-octet codes of two characters. *)
Fixpoint gbk_decode (b : bytes) : option str :=
  match b with
  | [] => Some []
  | x :: r =>
    if (0 <=? x) && (x <? 0x80) then cons x <$> gbk_decode r
    else
      match r with
      | y :: r' =>
        if (x =? 0xC4) && (y =? 0xE3) then cons 0x4F60 <$> gbk_decode r'
        else if (x =? 0xBA) && (y =? 0xC3) then cons 0x597D <$> gbk_decode r'
        else None
      | [] => None
      end
  end.

(** A service that is down: every call raises; the state counts calls. *)
Definition down (n : nat) (_ : Request) : res Response * nat :=
  (Raise (APIError (u "Connection error.")), S n).

(** A service that plays a script of outcomes, one per call, and is down
    when the script is over. *)
Definition scripted (l : list (res Response)) (_ : Request)
    : res Response * list (res Response) :=
  match l with
  | [] => (Raise (APIError (u "Connection error.")), [])
  | o :: l' => (o, l')
  end.

Definition completion (s : str) : res Response :=
  Ok {| choices := [ {| message := {| content := Some s |} |} ] |}.

Definition world {C : Type} (fs : gmap (list Z) (list Z)) (typed : list str)
    (c : C) : World C :=
  {| files := fs; stdin := typed; client := c; trace := [] |}.

End Sample.

(** ** Names for the statements about the rest of the script *)

Section Service.

Context {C : Type}.
Variable create : C -> Request -> res Response * C.

(** What the service gives to [n] calls made one after the other with the
    same request, from the state [c]; and the state these calls leave. *)
Fixpoint outcomes (request : Request) (n : nat) (c : C) : list (res Response) :=
  match n with
  | O => []
  | S n' => (create c request).1 :: outcomes request n' (create c request).2
  end.

Fixpoint after_calls (request : Request) (n : nat) (c : C) : C :=
  match n with
  | O => c
  | S n' => after_calls request n' (create c request).2
  end.

End Service.

(** The waits of line 98 after the attempts 0, ..., [k - 1] have failed:
    2, 4, ..., 2k seconds. *)
Definition backoff (k : nat) : list Z :=
  (fun attempt => (attempt + 1) * 2) <$> seqZ 0 (Z.of_nat k).

(** The requests sent in a trace. *)
Definition requests (t : list event) : list Request :=
  omap (fun ev => match ev with Create r _ => Some r | _ => None end) t.

(** The reverse dictionary holds only pairs of the dictionary. *)
Definition inverse_of (CODES REV : gmap (list Z) (list Z)) : Prop :=
  map_Forall (fun name code => CODES !! code = Some name) REV.

(** A character that ends a line of a text file. *)
Definition line_break (c : Z) : bool := (c =? 10) || (c =? 13).

(** The pauses of line 195 in a trace: the sleeps of one second. *)
Definition pauses (t : list event) : nat :=
  length (filter (fun seconds => seconds = 1) (waits t)).

(** ** One more service, for running the script *)

Module Demo.

(** A service that answers every call with the same text; its state counts
    the calls. *)
Definition answering (s : list Z) (n : nat) (_ : Request)
    : res Response * nat :=
  (Sample.completion s, S n).

End Demo.

(** * Properties *)

(** ** Worlds and computations *)

Section Worlds.

Context {C : Type}.

Lemma extend_nil (w : World C) : extend [] w = w.
Proof. destruct w. unfold extend. simpl. by rewrite app_nil_r. Qed.

Lemma extend_extend a b (w : World C) :
  extend b (extend a w) = extend (a ++ b) w.
Proof. unfold extend. simpl. by rewrite app_assoc. Qed.

Lemma log_extend e (w : World C) : log e w = extend [e] w.
Proof. reflexivity. Qed.

Lemma events_since_extend evs (w : World C) :
  events_since w (extend evs w) = evs.
Proof. unfold events_since, extend. simpl. by rewrite drop_app_length. Qed.

Lemma events_since_app (w w' : World C) evs :
  trace w' = trace w ++ evs -> events_since w w' = evs.
Proof. unfold events_since. intros ->. by rewrite drop_app_length. Qed.

Lemma bind_ok {A B} (m : M C A) (k : A -> M C B) w a w1 :
  m w = (Ok a, w1) -> bind m k w = k a w1.
Proof. unfold bind. by intros ->. Qed.

Lemma bind_raise {A B} (m : M C A) (k : A -> M C B) w e w1 :
  m w = (Raise e, w1) -> bind m k w = (Raise e, w1).
Proof. unfold bind. by intros ->. Qed.


Lemma print_run text (w : World C) :
  print text w = (Ok tt, extend [printed text] w).
Proof. reflexivity. Qed.

Lemma sleep_run n (w : World C) : sleep n w = (Ok tt, extend [Sleep n] w).
Proof. reflexivity. Qed.

Lemma for_each_emit {A} (f : A -> event) (body : A -> M C unit) l
    (w : World C) :
  (forall x, body x = emit (f x)) ->
  for_each l body w = (Ok tt, extend (f <$> l) w).
Proof.
  intros Hb. revert w. induction l as [|x l IH]; intros w; simpl.
  - by rewrite extend_nil.
  - rewrite (bind_ok _ _ _ tt (extend [f x] w)) by (by rewrite Hb).
    by rewrite IH, extend_extend.
Qed.

Lemma show_common_languages_run (w : World C) :
  show_common_languages w = (Ok tt, extend banner w).
Proof.
  unfold show_common_languages.
  erewrite bind_ok by apply print_run.
  erewrite bind_ok
    by (apply (for_each_emit
                 (fun '(code, name) =>
                    Print ((name ++ u "(" ++ code ++ u ")") ++ u "  ")));
        by intros [code name]).
  rewrite print_run, !extend_extend. reflexivity.
Qed.

End Worlds.

(** ** Text *)

Lemma lstrip_nil_iff (s : list Z) :
  Py.lstrip s = [] <-> Forall (fun c => Py.isspace c = true) s.
Proof.
  induction s as [|c s IH]; simpl.
  - split; [constructor | reflexivity].
  - destruct (Py.isspace c) eqn:Hc.
    + rewrite IH. split; [by constructor | by inversion 1].
    + split; [discriminate |]. inversion 1; congruence.
Qed.

Lemma lstrip_head (s : list Z) c r :
  Py.lstrip s = c :: r -> Py.isspace c = false.
Proof.
  induction s as [|d s IH]; simpl; [discriminate |].
  destruct (Py.isspace d) eqn:Hd; [exact IH |].
  intros [= -> _]. exact Hd.
Qed.

Lemma lstrip_suffix (s : list Z) : Py.lstrip s `suffix_of` s.
Proof.
  induction s as [|d s IH]; simpl; [done |].
  destruct (Py.isspace d); [by apply suffix_cons_r | done].
Qed.

Lemma lstrip_snoc (s : list Z) c :
  Py.isspace c = false -> exists s', Py.lstrip (s ++ [c]) = s' ++ [c].
Proof.
  intros Hc. induction s as [|d s IH]; simpl.
  - rewrite Hc. by exists [].
  - destruct (Py.isspace d); [exact IH |]. by exists (d :: s).
Qed.

Lemma strip_nil_iff (s : list Z) :
  Py.strip s = [] <-> Forall (fun c => Py.isspace c = true) s.
Proof.
  unfold Py.strip, Py.rstrip. rewrite <- lstrip_nil_iff.
  split.
  - intros H. apply (f_equal reverse) in H. rewrite reverse_involutive in H.
    rewrite reverse_nil in H. apply lstrip_nil_iff in H.
    destruct (Py.lstrip s) as [|c r] eqn:Hs; [done |].
    pose proof (lstrip_head _ _ _ Hs) as Hc.
    rewrite Forall_reverse in H. inversion H; congruence.
  - intros ->. reflexivity.
Qed.

Lemma strip_head (s : list Z) c r :
  Py.strip s = c :: r -> Py.isspace c = false.
Proof.
  unfold Py.strip, Py.rstrip. intros H.
  destruct (Py.lstrip s) as [|d t] eqn:Hs; [discriminate |].
  pose proof (lstrip_head _ _ _ Hs) as Hd.
  rewrite reverse_cons in H. destruct (lstrip_snoc (reverse t) d Hd) as [s' Hs'].
  rewrite Hs', reverse_app in H. simpl in H.
  by injection H as <- _.
Qed.
Lemma endswith_snoc (s : list Z) c : Py.endswith (s ++ [c]) [c] = true.
Proof.
  unfold Py.endswith, Py.eqb. rewrite length_app.
  change (length [c]) with 1%nat.
  replace (length s + 1 - 1)%nat with (length s) by lia.
  rewrite drop_app_length. rewrite bool_decide_eq_true_2 by done.
  rewrite andb_true_r. apply Nat.leb_le. lia.
Qed.

Lemma endswith_inv (s : list Z) c :
  Py.endswith s [c] = true -> exists s', s = s' ++ [c].
Proof.
  unfold Py.endswith, Py.eqb. intros [_ H%bool_decide_eq_true]%andb_prop.
  exists (take (length s - length [c]) s).
  rewrite <- (take_drop (length s - length [c]) s) at 1. by rewrite H.
Qed.

Lemma drop_last_snoc (s : list Z) c : Py.drop_last (s ++ [c]) = s.
Proof.
  unfold Py.drop_last. rewrite length_app. change (length [c]) with 1%nat.
  replace (length s + 1 - 1)%nat with (length s) by lia.
  by rewrite take_app_length.
Qed.

Lemma lower_snoc (s : list Z) c :
  Py.lower (s ++ [c]) = Py.lower s ++ Py.lower_char c.
Proof. unfold Py.lower. rewrite bind_app. simpl. by rewrite app_nil_r. Qed.

Lemma lower_char_last c x :
  last (Py.lower_char c) = Some x -> x = 44 -> c = 44.
Proof.
  unfold Py.lower_char.
  destruct (_ && _) eqn:Hr; [| destruct (c =? 0x130); [| destruct (c =? 0x212A)]];
    simpl; intros [= <-] ?; lia.
Qed.

Lemma lower_char_nonempty c : Py.lower_char c <> [].
Proof.
  unfold Py.lower_char.
  by destruct (_ && _); [| destruct (c =? 0x130); [| destruct (c =? 0x212A)]].
Qed.

(** A string whose lowercase form is the header ends with a comma. *)
Lemma lower_header_last (s : list Z) :
  Py.lower s = u "source language," -> exists s', s = s' ++ [44].
Proof.
  destruct s as [|c s _] using rev_ind; [by vm_compute |].
  rewrite lower_snoc. intros H. exists s. do 2 f_equal.
  apply (f_equal last) in H.
  destruct (Py.lower_char c) as [|y l _] eqn:E using rev_ind;
    [by destruct (lower_char_nonempty c) |].
  rewrite app_assoc, last_snoc in H.
  apply (lower_char_last c y); [by rewrite E, last_snoc |].
  vm_compute in H. congruence.
Qed.

Lemma is_header_endswith (line : list Z) :
  Spec.is_header line = true -> Py.endswith (Py.strip line) (u ",") = true.
Proof.
  unfold Spec.is_header, Py.eqb. intros H%bool_decide_eq_true.
  destruct (lower_header_last _ H) as [s' ->]. apply endswith_snoc.
Qed.

Lemma clean_line_comma (line body : list Z) :
  Py.strip line = body ++ u "," -> body <> [] -> Spec.is_header line = false ->
  Spec.clean_line line = Some body.
Proof.
  intros Hs Hb Hh. unfold Spec.clean_line. rewrite Hh, Hs.
  change (u ",") with [44]. rewrite endswith_snoc, drop_last_snoc.
  by destruct body.
Qed.

Lemma clean_line_blank (line : list Z) :
  Py.strip line = [] -> Spec.clean_line line = None.
Proof.
  intros Hs. unfold Spec.clean_line, Spec.is_header. rewrite Hs.
  by vm_compute.
Qed.

Lemma clean_line_plain (line : list Z) :
  Py.strip line <> [] -> Py.endswith (Py.strip line) (u ",") = false ->
  Spec.clean_line line = Some (Py.strip line).
Proof.
  intros Hs He. unfold Spec.clean_line.
  destruct (Spec.is_header line) eqn:Hh;
    [apply is_header_endswith in Hh; congruence |].
  rewrite He. by destruct (Py.strip line).
Qed.

Lemma clean_line_header (line : list Z) :
  Spec.is_header line = true -> Spec.clean_line line = None.
Proof. intros H. unfold Spec.clean_line. by rewrite H. Qed.

(** The only lines that are cleaned to the text of the header. *)
Lemma clean_line_gives_header (line : list Z) :
  Spec.clean_line line = Some (u "source language,")
  <-> Py.strip line = u "source language,,".
Proof.
  unfold Spec.clean_line. split.
  - destruct (Spec.is_header line); [discriminate |]. cbv zeta.
    destruct (Py.endswith _ _) eqn:He.
    + change (u ",") with [44] in He.
      destruct (endswith_inv _ _ He) as [s' Hs]. rewrite Hs, drop_last_snoc.
      destruct (Py.truthy s'); [| discriminate]. by intros [= ->].
    + destruct (Py.truthy _); [| discriminate]. intros [= H].
      rewrite H in He. by vm_compute in He.
  - intros Hs. unfold Spec.is_header. rewrite Hs. by vm_compute.
Qed.

(** ** The codec: what is encoded is decoded to itself *)

Module Utf8Facts.

Ltac arith := Z.to_euclidean_division_equations; lia.

Ltac decide_test :=
  match goal with
  | |- context [?a <=? ?b] =>
    first [ rewrite (proj2 (Z.leb_le a b)) by arith
          | rewrite (proj2 (Z.leb_gt a b)) by arith ]
  | |- context [?a <? ?b] =>
    first [ rewrite (proj2 (Z.ltb_lt a b)) by arith
          | rewrite (proj2 (Z.ltb_ge a b)) by arith ]
  end.

Lemma decode_encode_char c b rest :
  Utf8.encode_char c = Some b ->
  Utf8.decode (b ++ rest) = cons c <$> Utf8.decode rest.
Proof.
  unfold Utf8.encode_char, Utf8.is_scalar, Utf8.is_surrogate.
  destruct (Z.leb_spec 0 c); [| done].
  destruct (Z.leb_spec c 0x10FFFF); [| done].
  destruct (Z.leb_spec 0xD800 c); destruct (Z.leb_spec c 0xDFFF);
    cbn [andb negb]; try done;
    destruct (Z.ltb_spec c 0x80); try (exfalso; lia);
    try destruct (Z.ltb_spec c 0x800); try (exfalso; lia);
    try destruct (Z.ltb_spec c 0x10000); try (exfalso; lia);
    intros [= <-]; cbn [app Utf8.decode];
    unfold Utf8.is_cont, Utf8.is_surrogate;
    repeat decide_test; cbn [andb negb];
    do 2 f_equal; arith.
Qed.

Lemma decode_encode s b :
  Utf8.encode s = Some b -> Utf8.decode b = Some s.
Proof.
  revert b. induction s as [|c s IH]; intros b; simpl.
  - by intros [= <-].
  - destruct (Utf8.encode_char c) as [x|] eqn:Hc; [| done].
    destruct (Utf8.encode s) as [y|]; [| done].
    intros [= <-]. rewrite (decode_encode_char _ _ _ Hc), (IH y) by done.
    reflexivity.
Qed.

End Utf8Facts.

(** ** The translation client *)

Section TranslationClient.

Context {C : Type}.
Variable create : C -> Request -> res Response * C.
Variable exn_text : exn -> list Z.
Variable LANGUAGE_CODES : gmap (list Z) (list Z).

Local Arguments u : simpl never.
Local Arguments retry_message : simpl never.
Local Arguments giveup_message : simpl never.

(** One turn of the retry loop: the call is made and recorded; a text in
    the first choice ends the loop, anything else is an exception, after
    which the loop waits and goes on, or gives up at the last turn. *)
Lemma attempt_loop_cons text request m a rest (w : World C) o c :
  create (client w) request = (o, c) ->
  attempt_loop create exn_text text request m (a :: rest) w =
  let w1 := set_client c (log (Create request o) w) in
  match first_text o with
  | Ok s => (Ok (Some (clean_result s)), w1)
  | Raise e =>
    if a <? m - 1 then
      attempt_loop create exn_text text request m rest
        (log (Sleep ((a + 1) * 2))
           (log (Print (retry_message exn_text text e ((a + 1) * 2) ++ [10])) w1))
    else
      (Ok (Some text), log (Print (giveup_message exn_text text e ++ [10])) w1)
  end.
Proof.
  intros Hc. simpl.
  unfold try_except, bind, attempt_once, bind, chat_completions_create.
  rewrite Hc. unfold first_text, first_content.
  destruct o as [response|e]; simpl.
  - destruct (choices response) as [|choice ?]; simpl.
    + destruct (a <? m - 1); reflexivity.
    + destruct (content (message choice)); simpl; [reflexivity |].
      destruct (a <? m - 1); reflexivity.
  - destruct (a <? m - 1); reflexivity.
Qed.

Lemma not_blank_truthy (text : list Z) :
  Py.strip text <> [] ->
  negb (Py.truthy text) || Py.eqb (Py.strip text) [] = false.
Proof.
  intros H. destruct text as [|c t]; [done |]. simpl.
  unfold Py.eqb. by rewrite bool_decide_eq_false.
Qed.

(** Past the guard of lines 69 and 70 and the look-up of line 73. *)
Lemma translate_to_language_loop text src tgt name m (w : World C) :
  Py.strip text <> [] ->
  LANGUAGE_CODES !! src = Some name ->
  translate_to_language create exn_text LANGUAGE_CODES text src tgt m w =
  attempt_loop create exn_text text (request_of (system_prompt_of name tgt) text)
    m (seqZ 0 m) w.
Proof.
  intros Hb Hn. unfold translate_to_language.
  rewrite (not_blank_truthy _ Hb). unfold bind, subscript. by rewrite Hn.
Qed.

(** A code that is not in the directory: the prompt cannot be built, the
    [KeyError] of line 73 leaves the function before any attempt. *)
Lemma translate_to_language_unknown_code text src tgt m (w : World C) :
  Py.strip text <> [] ->
  LANGUAGE_CODES !! src = None ->
  translate_to_language create exn_text LANGUAGE_CODES text src tgt m w =
  (Raise (KeyError src), w).
Proof.
  intros Hb Hn. unfold translate_to_language.
  rewrite (not_blank_truthy _ Hb). unfold bind, subscript. by rewrite Hn.
Qed.

(** C2.  A text that is empty or made of whitespace only is returned as it
    is, and the world is left as it was: nothing is sent to the service,
    nothing is printed, whatever the codes and the number of retries. *)
Theorem translate_to_language_blank text src tgt m (w : World C) :
  Forall (fun c => Py.isspace c = true) text ->
  translate_to_language create exn_text LANGUAGE_CODES text src tgt m w =
  (Ok (Some text), w).
Proof.
  intros H. apply strip_nil_iff in H. unfold translate_to_language.
  rewrite H. by rewrite orb_true_r.
Qed.

(** The four ways a call with three attempts can go. *)
Lemma translate_to_language_cases text src tgt name (w w' : World C) r :
  Py.strip text <> [] ->
  LANGUAGE_CODES !! src = Some name ->
  translate_to_language create exn_text LANGUAGE_CODES text src tgt 3 w = (r, w') ->
  let request := request_of (system_prompt_of name tgt) text in
  exists evs, trace w' = trace w ++ evs /\
  ( (exists o1 s,
       first_text o1 = Ok s /\ r = Ok (Some (clean_result s))
       /\ evs = [Create request o1])
  \/ (exists o1 e1 o2 s,
       first_text o1 = Raise e1 /\ first_text o2 = Ok s
       /\ r = Ok (Some (clean_result s))
       /\ evs = [Create request o1; printed (retry_message exn_text text e1 2);
                 Sleep 2; Create request o2])
  \/ (exists o1 e1 o2 e2 o3 s,
       first_text o1 = Raise e1 /\ first_text o2 = Raise e2
       /\ first_text o3 = Ok s /\ r = Ok (Some (clean_result s))
       /\ evs = [Create request o1; printed (retry_message exn_text text e1 2);
                 Sleep 2;
                 Create request o2; printed (retry_message exn_text text e2 4);
                 Sleep 4; Create request o3])
  \/ (exists o1 e1 o2 e2 o3 e3,
       first_text o1 = Raise e1 /\ first_text o2 = Raise e2
       /\ first_text o3 = Raise e3 /\ r = Ok (Some text)
       /\ evs = [Create request o1; printed (retry_message exn_text text e1 2);
                 Sleep 2;
                 Create request o2; printed (retry_message exn_text text e2 4);
                 Sleep 4;
                 Create request o3; printed (giveup_message exn_text text e3)]) ).
Proof.
  intros Hb Hn Hrun request.
  rewrite (translate_to_language_loop _ _ _ _ _ _ Hb Hn) in Hrun.
  change (seqZ 0 3) with [0; 1; 2] in Hrun. fold request in Hrun.
  destruct (create (client w) request) as [o1 c1] eqn:H1.
  rewrite (attempt_loop_cons _ _ _ _ _ _ _ _ H1) in Hrun. cbv zeta in Hrun.
  destruct (first_text o1) as [s1|e1] eqn:F1.
  { apply pair_equal_spec in Hrun as [<- <-].
    exists [Create request o1]. split; [done |]. left. by exists o1, s1. }
  change (0 <? 3 - 1) with true in Hrun. cbv iota in Hrun.
  set (w1 := log _ (log _ (set_client c1 _))) in Hrun.
  destruct (create (client w1) request) as [o2 c2] eqn:H2.
  rewrite (attempt_loop_cons _ _ _ _ _ _ _ _ H2) in Hrun. cbv zeta in Hrun.
  destruct (first_text o2) as [s2|e2] eqn:F2.
  { apply pair_equal_spec in Hrun as [<- <-].
    exists [Create request o1; printed (retry_message exn_text text e1 2);
            Sleep 2; Create request o2].
    split; [| right; left; exists o1, e1, o2, s2; repeat split; done].
    subst w1. cbn [trace log set_client]. by rewrite <- !app_assoc. }
  change (1 <? 3 - 1) with true in Hrun. cbv iota in Hrun.
  set (w2 := log _ (log _ (set_client c2 _))) in Hrun.
  destruct (create (client w2) request) as [o3 c3] eqn:H3.
  rewrite (attempt_loop_cons _ _ _ _ _ _ _ _ H3) in Hrun. cbv zeta in Hrun.
  destruct (first_text o3) as [s3|e3] eqn:F3.
  { apply pair_equal_spec in Hrun as [<- <-].
    exists [Create request o1; printed (retry_message exn_text text e1 2);
            Sleep 2;
            Create request o2; printed (retry_message exn_text text e2 4);
            Sleep 4; Create request o3].
    split;
      [| right; right; left; exists o1, e1, o2, e2, o3, s3; repeat split; done].
    subst w2 w1. cbn [trace log set_client]. by rewrite <- !app_assoc. }
  change (2 <? 3 - 1) with false in Hrun. cbv iota in Hrun.
  apply pair_equal_spec in Hrun as [<- <-].
  exists [Create request o1; printed (retry_message exn_text text e1 2);
          Sleep 2;
          Create request o2; printed (retry_message exn_text text e2 4);
          Sleep 4;
          Create request o3; printed (giveup_message exn_text text e3)].
  split;
    [| right; right; right; exists o1, e1, o2, e2, o3, e3; repeat split; done].
  subst w2 w1. cbn [trace log set_client]. by rewrite <- !app_assoc.
Qed.



(** C1, as the code has it.  For a text that is not blank and a source code
    of the directory (the name of the source language is looked up at line
    73, before the [try]; without it see the counterexample below):
    when every call the client makes in the run fails, the client has made
    three calls, has waited 2 seconds after the first failure and 4 seconds
    after the second, and after the third failure it returns the text it was
    given; no exception leaves it. *)
Theorem translate_to_language_all_attempts_fail text src tgt name
    (w w' : World C) r :
  Py.strip text <> [] ->
  LANGUAGE_CODES !! src = Some name ->
  translate_to_language create exn_text LANGUAGE_CODES text src tgt 3 w = (r, w') ->
  forallb failed (calls (events_since w w')) = true ->
  let request := request_of (system_prompt_of name tgt) text in
  exists o1 o2 o3 e1 e2 e3,
    first_text o1 = Raise e1 /\ first_text o2 = Raise e2 /\
    first_text o3 = Raise e3 /\
    r = Ok (Some text) /\
    trace w' = trace w ++
      [ Create request o1; printed (retry_message exn_text text e1 2);
        Sleep 2;
        Create request o2; printed (retry_message exn_text text e2 4);
        Sleep 4;
        Create request o3; printed (giveup_message exn_text text e3) ] /\
    length (calls (events_since w w')) = 3%nat /\
    waits (events_since w w') = [2; 4].
Proof.
  intros Hb Hn Hrun Hfail request.
  destruct (translate_to_language_cases _ _ _ _ _ _ _ Hb Hn Hrun)
    as (evs & Ht & Hcases).
  rewrite (events_since_app _ _ _ Ht) in Hfail |- *.
  destruct Hcases as [(o1 & s & F1 & -> & ->)
    | [(o1 & e1 & o2 & s & F1 & F2 & -> & ->)
    | [(o1 & e1 & o2 & e2 & o3 & s & F1 & F2 & F3 & -> & ->)
    | (o1 & e1 & o2 & e2 & o3 & e3 & F1 & F2 & F3 & -> & ->)]]].
  - change (forallb failed [o1] = true) in Hfail. cbn [forallb] in Hfail.
    unfold failed in Hfail. by rewrite F1 in Hfail.
  - change (forallb failed [o1; o2] = true) in Hfail. cbn [forallb] in Hfail.
    unfold failed in Hfail. by rewrite F1, F2 in Hfail.
  - change (forallb failed [o1; o2; o3] = true) in Hfail.
    cbn [forallb] in Hfail. unfold failed in Hfail.
    by rewrite F1, F2, F3 in Hfail.
  - exists o1, o2, o3, e1, e2, e3. by repeat split.
Qed.

Lemma replace_quotes (s : list Z) :
  Py.replace 39 [] (Py.replace 34 [] s) =
  filter (fun char => char <> 34 /\ char <> 39) s.
Proof.
  unfold Py.replace. induction s as [|c s IH]; [reflexivity |].
  rewrite filter_cons. cbn [mbind list_bind].
  destruct (Z.eqb_spec c 34) as [->|H34].
  - rewrite decide_False by (intros []; done). exact IH.
  - cbn [app mbind list_bind]. destruct (Z.eqb_spec c 39) as [->|H39].
    + rewrite decide_False by (intros []; done). exact IH.
    + rewrite decide_True by done. cbn [app]. by f_equal.
Qed.

(** C3, as the code has it.  For a text that is not blank, a source code of
    the directory and at least one attempt allowed: when the first call
    returns a response whose first choice holds a text, the client makes
    this one call and returns that text with the surrounding whitespace
    trimmed, every double quote and every apostrophe removed wherever it
    stands, the whitespace trimmed again, and every character of
    [punctuation] removed. *)
Theorem translate_to_language_first_attempt text src tgt name m
    (w : World C) response c choice rest s :
  Py.strip text <> [] ->
  LANGUAGE_CODES !! src = Some name ->
  0 < m ->
  create (client w) (request_of (system_prompt_of name tgt) text)
    = (Ok response, c) ->
  choices response = choice :: rest ->
  content (message choice) = Some s ->
  translate_to_language create exn_text LANGUAGE_CODES text src tgt m w =
  (Ok (Some (filter (fun char => ~ char ∈ punctuation)
               (Py.strip (filter (fun char => char <> 34 /\ char <> 39)
                            (Py.strip s))))),
   set_client c
     (log (Create (request_of (system_prompt_of name tgt) text) (Ok response))
        w)).
Proof.
  intros Hb Hn Hm Hc Hch Hs.
  rewrite (translate_to_language_loop _ _ _ _ _ _ Hb Hn).
  rewrite seqZ_cons by done.
  rewrite (attempt_loop_cons _ _ _ _ _ _ _ _ Hc). cbv zeta.
  unfold first_text. rewrite Hch, Hs. unfold clean_result.
  by rewrite replace_quotes.
Qed.

End TranslationClient.

(** C1, as it is worded, fails for a source code that the directory does not
    hold.  The text is not blank and the service is down, so that no call
    can succeed; but the look-up of line 73 stands outside the [try]: the
    client makes no attempt at all, waits for nothing, and [KeyError]
    leaves it. *)
Lemma translate_to_language_key_error_before_attempts :
  let w := Sample.world ∅ [] 0%nat in
  let run := translate_to_language Sample.down Sample.exn_text Sample.codes
               (u "hello") (u "xx") (u "中文") 3 w in
  run.1 = Raise (KeyError (u "xx"))
  /\ calls (events_since w run.2) = []
  /\ waits (events_since w run.2) = []
  /\ forallb failed (calls (events_since w run.2)) = true
  /\ Sample.codes !! u "xx" = None
  /\ Py.strip (u "hello") <> []
  /\ run.1 <> Ok (Some (u "hello")).
Proof. vm_compute. repeat split; discriminate. Qed.

(** C3, as it is worded, fails on a completion with an apostrophe inside:
    the code removes it, although it encloses nothing. *)
Lemma translate_to_language_inner_apostrophe :
  (translate_to_language Sample.scripted Sample.exn_text Sample.codes
     (u "没关系") (u "zh") (u "英文") 3
     (Sample.world ∅ [] [Sample.completion (u "it's ok")])).1
  = Ok (Some (u "its ok"))
  /\ Spec.clean_result (u "it's ok") = u "it's ok"
  /\ u "its ok" <> Spec.clean_result (u "it's ok").
Proof. vm_compute. repeat split; discriminate. Qed.

(** ** The source reader *)

Section SourceReader.

Context {C : Type}.
Variable gbk_decode : list Z -> option (list Z).

Local Arguments u : simpl never.

(** The two copies of the loop compute the line policy. *)
Lemma try_loop_body_eq acc line :
  try_loop_body acc line = acc ++ from_option (fun x => [x]) [] (Spec.clean_line line).
Proof.
  unfold try_loop_body, Spec.clean_line, Spec.is_header.
  destruct (Py.eqb _ _); [by rewrite app_nil_r |].
  cbv zeta. destruct (Py.truthy _); [done | by rewrite app_nil_r].
Qed.

Lemma except_loop_body_eq acc line :
  except_loop_body acc line = try_loop_body acc line.
Proof. reflexivity. Qed.

Lemma try_loop_eq lines acc :
  foldl try_loop_body acc lines = acc ++ Spec.clean_lines lines.
Proof.
  revert acc. induction lines as [|line lines IH]; intros acc; simpl.
  - by rewrite app_nil_r.
  - rewrite IH, try_loop_body_eq, <- app_assoc. f_equal.
    unfold Spec.clean_lines. simpl. by destruct (Spec.clean_line line).
Qed.

Lemma except_loop_eq lines acc :
  foldl except_loop_body acc lines = acc ++ Spec.clean_lines lines.
Proof.
  rewrite <- try_loop_eq. revert acc.
  induction lines as [|line lines IH]; intros acc; simpl; [done |].
  by rewrite except_loop_body_eq, IH.
Qed.

Lemma read_source_file_eq path (w : World C) b :
  files w !! path = Some b ->
  read_source_file gbk_decode path w =
  match Utf8.decode b with
  | Some text =>
    let languages := Spec.clean_lines (split_lines [] text) in
    (Ok languages, extend ([Open path mode_r utf_8] ++ report languages) w)
  | None =>
    match gbk_decode b with
    | Some text =>
      let languages := Spec.clean_lines (split_lines [] text) in
      (Ok languages,
       extend ([Open path mode_r utf_8; Open path mode_r gbk]
               ++ report languages) w)
    | None =>
      (Raise UnicodeDecodeError,
       extend [Open path mode_r utf_8; Open path mode_r gbk] w)
    end
  end.
Proof.
  intros Hf.
  assert (Hfinish : forall languages (w1 : World C),
    (if negb (nonempty languages) then ret []
     else print (nl ++ u "总共读取到 " ++ Py.str_of_int (len languages)
                 ++ u " 个待翻译文本") >> print [] >> ret languages) w1
    = (Ok languages, extend (report languages) w1)).
  { intros [|x l] w1; [by rewrite extend_nil |]. cbn [nonempty negb report].
    erewrite bind_ok by apply print_run.
    erewrite bind_ok by apply print_run.
    by rewrite extend_extend. }
  unfold read_source_file, bind at 1, try_except.
  unfold bind at 1, open_r at 1. rewrite Hf.
  unfold bind at 1, readlines at 1, decode at 1.
  destruct (Utf8.decode b) as [text|].
  - unfold ret at 1 2. rewrite try_loop_eq. rewrite app_nil_l.
    by rewrite Hfinish, log_extend, extend_extend.
  - unfold raise at 1. cbn [is_unicode_decode_error].
    unfold bind at 1, open_r at 1. cbn [files log]. rewrite Hf.
    unfold bind at 1, readlines at 1, decode at 1.
    destruct (gbk_decode b) as [text|].
    + unfold ret at 1 2. rewrite except_loop_eq. rewrite app_nil_l.
      by rewrite Hfinish, !log_extend, !extend_extend.
    + unfold raise. by rewrite !log_extend, !extend_extend.
Qed.

(** C5.  The file is opened and decoded as utf-8 first.  When that
    succeeds nothing else is opened and the lines are cleaned by the line
    policy; when, and only when, it fails with a decode error the file is
    opened again as GBK and the lines of that text are cleaned by the same
    policy, with a result of the same kind (a list of cleaned lines); when
    GBK fails as well the decode error leaves the function. *)
Theorem read_source_file_fallback path (w : World C) b :
  files w !! path = Some b ->
  let run := read_source_file gbk_decode path w in
  match Utf8.decode b with
  | Some text =>
    run.1 = Ok (Spec.clean_lines (split_lines [] text))
    /\ opened (events_since w run.2) = [utf_8]
  | None =>
    opened (events_since w run.2) = [utf_8; gbk]
    /\ match gbk_decode b with
       | Some text => run.1 = Ok (Spec.clean_lines (split_lines [] text))
       | None => run.1 = Raise UnicodeDecodeError
       end
  end.
Proof.
  intros Hf run. subst run. rewrite (read_source_file_eq _ _ _ Hf).
  destruct (Utf8.decode b) as [text|]; [| destruct (gbk_decode b) as [text|]];
    cbv zeta; cbn [fst snd]; rewrite events_since_extend;
    (split; [|try split]); try reflexivity;
    unfold report; by destruct (Spec.clean_lines _).
Qed.

Lemma read_source_file_value path (w : World C) b text :
  files w !! path = Some b ->
  Spec.decoded gbk_decode b = Some text ->
  (read_source_file gbk_decode path w).1
  = Ok (Spec.clean_lines (split_lines [] text)).
Proof.
  intros Hf Hd. rewrite (read_source_file_eq _ _ _ Hf).
  unfold Spec.decoded in Hd.
  destruct (Utf8.decode b); [by injection Hd as -> |].
  by rewrite Hd.
Qed.

(** C4.  A file whose first line is the header and whose three other
    lines are, in any order, a line [c] that is some text [body] followed by
    a comma, a line [e] that is empty after trimming, and a line [n] with a
    text that has no comma at its end: the reader returns two lines, [body]
    and the trimmed [n], in the order in which [c] and [n] stand in the
    file. *)
Theorem read_source_file_header_and_three_lines path (w : World C) b text
    hdr c e n body l :
  files w !! path = Some b ->
  Spec.decoded gbk_decode b = Some text ->
  split_lines [] text = hdr :: l ->
  l ≡ₚ [c; e; n] ->
  Spec.is_header hdr = true ->
  Py.strip c = body ++ u "," -> body <> [] -> Spec.is_header c = false ->
  Py.strip e = [] ->
  Py.strip n <> [] -> Py.endswith (Py.strip n) (u ",") = false ->
  let result :=
    omap (fun line => if decide (line = c) then Some body
                      else if decide (line = n) then Some (Py.strip n)
                      else None) l in
  (read_source_file gbk_decode path w).1 = Ok result
  /\ result ≡ₚ [body; Py.strip n].
Proof.
  intros Hf Hd Hl Hp Hh Hc Hb Hch He Hn Hne result.
  assert (Hcn : n <> c).
  { intros ->. rewrite Hc in Hne. change (u ",") with [44] in Hne.
    by rewrite endswith_snoc in Hne. }
  assert (Hec : e <> c).
  { intros ->. rewrite Hc in He. by destruct body. }
  assert (Hen : e <> n) by (by intros ->).
  split.
  - rewrite (read_source_file_value _ _ _ _ Hf Hd), Hl. f_equal.
    unfold Spec.clean_lines. cbn [omap list_omap].
    rewrite (clean_line_header _ Hh). subst result.
    apply list_omap_ext, Forall2_same_length_lookup_2; [done |].
    intros i x y Hx Hy. rewrite Hx in Hy. injection Hy as <-.
    assert (Hin : x ∈ [c; e; n]).
    { rewrite <- Hp. by eapply list_elem_of_lookup_2. }
    apply elem_of_cons in Hin as [->|Hin]; [| apply elem_of_cons in Hin as [->|Hin]].
    + rewrite decide_True by done. by apply clean_line_comma.
    + rewrite !decide_False by done. by apply clean_line_blank.
    + apply list_elem_of_singleton in Hin as ->.
      rewrite decide_False, decide_True by done. by apply clean_line_plain.
  - subst result. rewrite Hp. cbn [omap list_omap].
    rewrite decide_True by done. rewrite (decide_False (P := e = c)) by done.
    rewrite (decide_False (P := e = n)) by done.
    rewrite (decide_False (P := n = c)) by done.
    by rewrite decide_True by done.
Qed.

(** C10, as the code has it.  A line that is the header after trimming and
    lowercasing is dropped wherever it stands, the lines read are those of
    the file without it.  The text of the header is nevertheless among the
    lines returned in one case, when a line of the file is that text
    followed by one more comma. *)
Theorem read_source_file_drops_header path (w : World C) b text :
  files w !! path = Some b ->
  Spec.decoded gbk_decode b = Some text ->
  (forall l1 h l2,
     split_lines [] text = l1 ++ h :: l2 -> Spec.is_header h = true ->
     (read_source_file gbk_decode path w).1 = Ok (Spec.clean_lines (l1 ++ l2)))
  /\ (forall languages,
       (read_source_file gbk_decode path w).1 = Ok languages ->
       u "source language," ∈ languages <->
       exists line, line ∈ split_lines [] text
                    /\ Py.strip line = u "source language,,").
Proof.
  intros Hf Hd. rewrite (read_source_file_value _ _ _ _ Hf Hd). split.
  - intros l1 h l2 -> Hh. f_equal. unfold Spec.clean_lines.
    rewrite !omap_app. cbn [omap list_omap]. by rewrite (clean_line_header _ Hh).
  - intros languages [= <-]. unfold Spec.clean_lines.
    rewrite list_elem_of_omap.
    split; intros (line & Hin & H); exists line; split; try done;
      by apply clean_line_gives_header.
Qed.

End SourceReader.

(** C10, as it is worded, fails: a line made of the header text and one more
    comma is not the header, and the comma removed from it leaves the header
    text, which is returned. *)
Lemma read_source_file_returns_header_text :
  (read_source_file (C := nat) Sample.gbk_decode (u "language.csv")
     (Sample.world {[ u "language.csv" := octets "source language,," ]} [] 0%nat)).1
  = Ok [u "source language,"].
Proof. by vm_compute. Qed.

(** ** The interactive selector *)

Section Selector.

Context {C : Type}.
Variable LANGUAGE_CODES : gmap (list Z) (list Z).
Variable REVERSE_LANGUAGE_CODES : gmap (list Z) (list Z).

Lemma after_rejected_nil prompt (w : World C) :
  after_rejected prompt [] (stdin w) w = w.
Proof. unfold after_rejected. simpl. rewrite extend_nil. by destruct w. Qed.

Lemma after_rejected_cons prompt line bad pending (w : World C) :
  after_rejected prompt bad pending
    (extend [printed rejection]
       (set_stdin (bad ++ pending) (extend [Input prompt] w)))
  = after_rejected prompt (line :: bad) pending w.
Proof.
  unfold after_rejected, set_stdin, extend. simpl. by rewrite <- !app_assoc.
Qed.

Lemma selector_loop_nil k (w : World C) :
  selector_loop LANGUAGE_CODES REVERSE_LANGUAGE_CODES k [] w
  = (Raise EOFError, extend [Input (prompt_of k)] w).
Proof. by destruct k. Qed.

Lemma selector_loop_cons k line rest (w : World C) :
  selector_loop LANGUAGE_CODES REVERSE_LANGUAGE_CODES k (line :: rest) w =
  let w1 := set_stdin rest (extend [Input (prompt_of k)] w) in
  match LANGUAGE_CODES !! Py.strip line with
  | Some name => (Ok (Py.strip line, name), w1)
  | None =>
    match REVERSE_LANGUAGE_CODES !! Py.strip line with
    | Some code => (Ok (code, Py.strip line), w1)
    | None =>
      selector_loop LANGUAGE_CODES REVERSE_LANGUAGE_CODES k rest
        (extend [printed rejection] w1)
    end
  end.
Proof.
  destruct k; cbn [selector_loop source_loop target_loop];
    unfold bind, input_line, print, print_end, emit;
    destruct (LANGUAGE_CODES !! _); try reflexivity;
    destruct (REVERSE_LANGUAGE_CODES !! _); reflexivity.
Qed.

Lemma selector_loop_skip k bad pending (w : World C) :
  Forall (rejected LANGUAGE_CODES REVERSE_LANGUAGE_CODES) bad ->
  stdin w = bad ++ pending ->
  selector_loop LANGUAGE_CODES REVERSE_LANGUAGE_CODES k (bad ++ pending) w =
  selector_loop LANGUAGE_CODES REVERSE_LANGUAGE_CODES k pending
    (after_rejected (prompt_of k) bad pending w).
Proof.
  revert w. induction bad as [|line bad IH]; intros w Hbad Hin.
  - simpl in Hin. subst pending. by rewrite after_rejected_nil.
  - apply Forall_cons in Hbad as [[Hc Hr] Hbad].
    rewrite <- (after_rejected_cons _ line). rewrite <- IH by done.
    cbn [app]. by rewrite selector_loop_cons, Hc, Hr.
Qed.

Lemma selector_eq k (w : World C) :
  selector LANGUAGE_CODES REVERSE_LANGUAGE_CODES k w =
  selector_loop LANGUAGE_CODES REVERSE_LANGUAGE_CODES k (stdin w)
    (extend (intro k) w).
Proof.
  destruct k; unfold selector, get_source_language, get_target_language;
    (erewrite bind_ok by apply print_run);
    (erewrite bind_ok by apply print_run);
    (erewrite bind_ok by apply show_common_languages_run);
    by rewrite !extend_extend.
Qed.

Lemma prompts_app t1 t2 : prompts (t1 ++ t2) = prompts t1 ++ prompts t2.
Proof. apply omap_app. Qed.

Lemma prompts_intro k : prompts (intro k) = [].
Proof. by destruct k. Qed.

Lemma prompts_rejected p (bad : list (list Z)) :
  prompts (bad ≫= fun _ => [Input p; printed rejection])
  = replicate (length bad) p.
Proof. induction bad as [|x bad IH]; simpl; [done | by rewrite <- IH]. Qed.

(** The prompts shown when [bad] was rejected and one more line asked for. *)
Lemma prompts_after_rejected k (bad : list (list Z)) (w w' : World C) :
  trace w' = trace w ++ intro k
             ++ (bad ≫= fun _ => [Input (prompt_of k); printed rejection])
             ++ [Input (prompt_of k)] ->
  prompts (events_since w w') = replicate (S (length bad)) (prompt_of k).
Proof.
  intros Ht. rewrite (events_since_app _ _ _ Ht).
  rewrite !prompts_app, prompts_intro, prompts_rejected. simpl.
  change [prompt_of k] with (replicate 1 (prompt_of k)).
  rewrite <- replicate_add.
  by replace (length bad + 1)%nat with (S (length bad)) by lia.
Qed.

(** C6, as the code has it.  The answer typed is trimmed first.  After any
    number of rejected answers, each of which is followed by the next
    prompt: a trimmed answer that is a code gives the code and its name; one
    that is not a code but is a name gives the code of the name and the
    name; nothing else ends the loop, and when all the input is rejected the
    selector has prompted once more than there were lines, to meet the end
    of the input ([EOFError]) and not to return. *)
Theorem selector_resolves k (w : World C) bad line rest :
  Forall (rejected LANGUAGE_CODES REVERSE_LANGUAGE_CODES) bad ->
  stdin w = bad ++ line :: rest ->
  let run := selector LANGUAGE_CODES REVERSE_LANGUAGE_CODES k w in
  (forall name,
     LANGUAGE_CODES !! Py.strip line = Some name ->
     run.1 = Ok (Py.strip line, name) /\ stdin run.2 = rest
     /\ prompts (events_since w run.2) = replicate (S (length bad)) (prompt_of k))
  /\ (LANGUAGE_CODES !! Py.strip line = None ->
      forall code,
      REVERSE_LANGUAGE_CODES !! Py.strip line = Some code ->
      run.1 = Ok (code, Py.strip line) /\ stdin run.2 = rest
      /\ prompts (events_since w run.2) = replicate (S (length bad)) (prompt_of k))
  /\ (Forall (rejected LANGUAGE_CODES REVERSE_LANGUAGE_CODES) (line :: rest) ->
      run.1 = Raise EOFError
      /\ prompts (events_since w run.2)
         = replicate (S (length (stdin w))) (prompt_of k)).
Proof.
  intros Hbad Hin run. subst run. rewrite selector_eq, Hin.
  assert (Ht : forall (l pending : list (list Z)) rest',
    trace (set_stdin rest' (extend [Input (prompt_of k)]
             (after_rejected (prompt_of k) l pending (extend (intro k) w))))
    = trace w ++ intro k
      ++ (l ≫= fun _ => [Input (prompt_of k); printed rejection])
      ++ [Input (prompt_of k)]).
  { intros. unfold after_rejected, set_stdin, extend. simpl.
    by rewrite <- !app_assoc. }
  split; [| split].
  - intros name Hn. rewrite selector_loop_skip by done.
    rewrite selector_loop_cons, Hn. cbv zeta. cbn [fst snd].
    split; [done |]. split; [done |].
    by apply prompts_after_rejected.
  - intros Hn code Hr. rewrite selector_loop_skip by done.
    rewrite selector_loop_cons, Hn, Hr. cbv zeta. cbn [fst snd].
    split; [done |]. split; [done |].
    by apply prompts_after_rejected.
  - intros Hall.
    assert (Hall' : Forall (rejected LANGUAGE_CODES REVERSE_LANGUAGE_CODES)
                      (bad ++ line :: rest)) by (by apply Forall_app).
    pose proof (selector_loop_skip k (bad ++ line :: rest) []
                  (extend (intro k) w) Hall') as Hs.
    rewrite app_nil_r in Hs. rewrite Hs by done.
    rewrite selector_loop_nil. cbn [fst snd]. split; [done |].
    rewrite <- Hin. apply prompts_after_rejected.
    rewrite Hin. apply (Ht _ [] (stdin (extend (intro k) w))).
Qed.

End Selector.

(** C6, as it is worded, fails on an answer with a space before the code:
    the answer is neither a code nor a name, and the selector returns. *)
Lemma get_target_language_trims_answer :
  Sample.codes !! u " en" = None /\ Sample.names !! u " en" = None
  /\ (get_target_language (C := nat) Sample.codes Sample.names
        (Sample.world ∅ [u " en"] 0%nat)).1 = Ok (u "en", u "英文").
Proof. by vm_compute. Qed.

(** ** The result writer *)

Lemma encode_app (a b : list Z) :
  Utf8.encode (a ++ b) =
  match Utf8.encode a, Utf8.encode b with
  | Some x, Some y => Some (x ++ y)
  | _, _ => None
  end.
Proof.
  induction a as [|c a IH]; simpl.
  - by destruct (Utf8.encode b).
  - rewrite IH. destruct (Utf8.encode_char c) as [x|]; [| done].
    destruct (Utf8.encode a) as [y|]; [| done].
    destruct (Utf8.encode b) as [z|]; [| done]. by rewrite app_assoc.
Qed.

Lemma encode_valid (s : list Z) :
  Utf8.valid s = true <-> is_Some (Utf8.encode s).
Proof.
  induction s as [|c s IH]; simpl.
  - split; [by eexists | done].
  - rewrite andb_true_iff, IH. unfold Utf8.encode_char.
    destruct (Utf8.is_scalar c); simpl.
    + split.
      * intros [_ [y Hy]]. rewrite Hy.
        destruct (c <? 128); [by eexists |].
        destruct (c <? 2048); [by eexists |].
        destruct (c <? 65536); by eexists.
      * intros [y Hy]. split; [done |].
        destruct (Utf8.encode s); [by eexists |].
        destruct (c <? 128); [done |].
        destruct (c <? 2048); [done |].
        destruct (c <? 65536); done.
    + split; [by intros [? _] | by intros [? ?]].
Qed.

Lemma valid_app (a b : list Z) :
  Utf8.valid (a ++ b) = Utf8.valid a && Utf8.valid b.
Proof. apply forallb_app. Qed.

Lemma valid_field (s : list Z) : Utf8.valid s = true -> Utf8.valid (Csv.field s) = true.
Proof.
  intros Hs. unfold Csv.field. destruct (Csv.needs_quoting s); [| done].
  rewrite !valid_app. apply andb_true_iff. split; [done |].
  apply andb_true_iff. split; [| done].
  unfold Py.replace. induction s as [|c s IH]; [done |].
  simpl in Hs. apply andb_true_iff in Hs as [Hc Hs].
  cbn [mbind list_bind]. rewrite valid_app, (IH Hs), andb_true_r.
  destruct (c =? Csv.quote); [done |]. simpl. by rewrite Hc.
Qed.

Lemma valid_data_row (src o : list Z) (t : option (list Z)) :
  Utf8.valid src = true -> Utf8.valid o = true ->
  Utf8.valid (Csv.cell_text t) = true ->
  Utf8.valid (data_row src o t) = true.
Proof.
  intros Hs Ho Ht. unfold data_row.
  rewrite !valid_app, !valid_field by done. reflexivity.
Qed.

Lemma row_three (a b : list Z) (c : option (list Z)) :
  Csv.row [Some a; Some b; c] = data_row b a c.
Proof.
  unfold Csv.row, data_row. cbn [fmap list_fmap Csv.join compose Csv.cell_text default].
  unfold Csv.comma. by rewrite <- !app_assoc.
Qed.

Lemma row_header :
  Csv.row [Some (u "Original Text"); Some (u "Source Language");
           Some (u "Translated Text")] = header_row.
Proof. by vm_compute. Qed.

Lemma field_plain (s : list Z) : Csv.needs_quoting s = false -> Csv.field s = s.
Proof. unfold Csv.field. by intros ->. Qed.

Section ResultWriter.

Context {C : Type}.

Lemma set_file_set_file path a b (w : World C) :
  set_file path a (set_file path b w) = set_file path a w.
Proof. unfold set_file. simpl. by rewrite insert_insert_eq. Qed.

Lemma writerow_run path cells (w : World C) b :
  Utf8.encode (Csv.row cells) = Some b ->
  writerow path cells w
  = (Ok tt, set_file path (default [] (files w !! path) ++ b) w).
Proof. unfold writerow. by intros ->. Qed.


Lemma mjoin_cons (x : list Z) l : mjoin (x :: l) = x ++ mjoin l.
Proof. reflexivity. Qed.

(** The rows after the header: one for each pair of [zip], in its order. *)
Lemma write_rows_run path src (pairs : list (list Z * option (list Z)))
    (w : World C) b0 bs :
  files w !! path = Some b0 ->
  Utf8.encode (mjoin ((fun p => data_row src p.1 p.2) <$> pairs)) = Some bs ->
  for_each pairs
    (fun '(orig, trans) => writerow path [Some orig; Some src; trans]) w
  = (Ok tt, set_file path (b0 ++ bs) w).
Proof.
  revert w b0 bs. induction pairs as [|[o t] pairs IH]; intros w b0 bs Hf He.
  - simpl in He. injection He as <-. rewrite app_nil_r. simpl.
    unfold ret, set_file. destruct w. simpl in *. by rewrite insert_id.
  - rewrite fmap_cons, mjoin_cons in He. cbn [fst snd] in He.
    rewrite encode_app in He.
    destruct (Utf8.encode (data_row src o t)) as [b1|] eqn:E1; [| done].
    destruct (Utf8.encode (mjoin _)) as [b2|] eqn:E2; [| done].
    injection He as <-. cbn [for_each].
    erewrite bind_ok by (apply writerow_run; by rewrite row_three).
    rewrite Hf. cbn [default].
    erewrite IH; [| by apply lookup_insert_eq | done].
    by rewrite set_file_set_file, app_assoc.
Qed.


Lemma zip_rows src (originals : list (list Z)) (translated : list (option (list Z))) :
  (fun p => data_row src p.1 p.2) <$> zip originals translated
  = zip_with (data_row src) originals translated.
Proof.
  revert translated. induction originals as [|o os IH]; intros [|t ts]; simpl;
    try done. by rewrite IH.
Qed.

Lemma write_translated_file_run path originals translated src (w : World C) b :
  Utf8.encode (output_text src originals translated) = Some b ->
  write_translated_file path originals translated src w
  = (Ok tt, set_file path b (extend [Open path mode_w utf_8] w)).
Proof.
  unfold output_text. rewrite encode_app. intros He.
  destruct (Utf8.encode header_row) as [b1|] eqn:E1; [| done].
  destruct (Utf8.encode (mjoin _)) as [b2|] eqn:E2; [| done].
  injection He as <-. unfold write_translated_file.
  erewrite bind_ok by reflexivity.
  erewrite bind_ok by (apply writerow_run; by rewrite row_header).
  erewrite write_rows_run;
    [| by apply lookup_insert_eq | by rewrite zip_rows].
  rewrite !set_file_set_file. cbn [files set_file log].
  by rewrite lookup_insert_eq.
Qed.


Lemma valid_rows src (originals : list (list Z)) (translated : list (option (list Z))) :
  Utf8.valid src = true ->
  forallb Utf8.valid originals = true ->
  forallb (fun t => Utf8.valid (Csv.cell_text t)) translated = true ->
  Utf8.valid (mjoin (zip_with (data_row src) originals translated)) = true.
Proof.
  intros Hs. revert translated.
  induction originals as [|o os IH]; intros [|t ts]; simpl; try done.
  intros [Ho Hos]%andb_true_iff [Ht Hts]%andb_true_iff.
  rewrite valid_app, valid_data_row by done. by apply IH.
Qed.

Lemma valid_output_text src originals translated :
  Utf8.valid src = true ->
  forallb Utf8.valid originals = true ->
  forallb (fun t => Utf8.valid (Csv.cell_text t)) translated = true ->
  exists b, Utf8.encode (output_text src originals translated) = Some b.
Proof.
  intros Hs Ho Ht. apply encode_valid. unfold output_text.
  rewrite valid_app, valid_rows by done. by vm_compute.
Qed.

Lemma valid_some (translations : list (list Z)) :
  forallb Utf8.valid translations = true ->
  forallb (fun t => Utf8.valid (Csv.cell_text t)) (Some <$> translations) = true.
Proof.
  induction translations as [|t ts IH]; [done |].
  rewrite fmap_cons. cbn [forallb].
  intros [Ht Hts]%andb_true_iff. apply andb_true_iff. split; [exact Ht |].
  by apply IH.
Qed.

(** C8.  For originals and translations of the same length, all of them and
    the name of the source language being text that can be encoded: the
    writer ends well and the file is the utf-8 encoding of the header row
    followed by one row for each pair, in order, which holds the original,
    the name of the source language and the translation, separated by
    commas (a field is left as it is when it has no comma, double quote,
    carriage return or line feed) and ended by CR LF. *)
Theorem write_translated_file_rows path originals translations src
    (w : World C) :
  length originals = length translations ->
  Utf8.valid src = true ->
  forallb Utf8.valid originals = true ->
  forallb Utf8.valid translations = true ->
  let run :=
    write_translated_file path originals (Some <$> translations) src w in
  let rows := zip_with (data_row src) originals (Some <$> translations) in
  run.1 = Ok tt
  /\ (exists b,
        Utf8.encode (header_row ++ mjoin rows) = Some b
        /\ files run.2 = <[path := b]> (files w))
  /\ length rows = length originals
  /\ (forall i o t,
        originals !! i = Some o -> translations !! i = Some t ->
        rows !! i = Some (data_row src o (Some t))
        /\ (Csv.needs_quoting o = false -> Csv.needs_quoting src = false ->
            Csv.needs_quoting t = false ->
            data_row src o (Some t)
            = o ++ [44] ++ src ++ [44] ++ t ++ [13; 10])).
Proof.
  intros Hlen Hs Ho Ht run rows.
  destruct (valid_output_text src originals (Some <$> translations) Hs Ho
              (valid_some _ Ht)) as [b Hb].
  subst run. rewrite (write_translated_file_run _ _ _ _ _ _ Hb). cbn [fst snd].
  split; [done |]. split; [by exists b |]. split.
  - subst rows. rewrite length_zip_with, length_fmap. lia.
  - intros i o t Hio Hit. split.
    + subst rows. rewrite lookup_zip_with, Hio. cbn [mbind option_bind].
      by rewrite list_lookup_fmap, Hit.
    + intros Hqo Hqs Hqt. unfold data_row. cbn [Csv.cell_text default].
      by rewrite !field_plain.
Qed.

(** C9.  For originals and translations of any lengths, of text that can be
    encoded: the writer ends well, and the file holds the header row and as
    many rows as the shorter of the two has elements, those of the first
    elements of both; what the longer one has more is not written. *)
Theorem write_translated_file_unequal path originals translations src
    (w : World C) :
  Utf8.valid src = true ->
  forallb Utf8.valid originals = true ->
  forallb Utf8.valid translations = true ->
  let run :=
    write_translated_file path originals (Some <$> translations) src w in
  let n := min (length originals) (length translations) in
  let rows :=
    zip_with (data_row src) (take n originals) (Some <$> take n translations) in
  run.1 = Ok tt
  /\ length rows = n
  /\ exists b,
       Utf8.encode (header_row ++ mjoin rows) = Some b
       /\ files run.2 = <[path := b]> (files w).
Proof.
  intros Hs Ho Ht run n rows.
  destruct (valid_output_text src originals (Some <$> translations) Hs Ho
              (valid_some _ Ht)) as [b Hb].
  subst run. rewrite (write_translated_file_run _ _ _ _ _ _ Hb). cbn [fst snd].
  assert (Hrows : rows = zip_with (data_row src) originals (Some <$> translations)).
  { subst rows n. clear. revert translations.
    induction originals as [|o os IH]; intros [|t ts]; simpl; try done.
    by rewrite IH. }
  split; [done |]. split.
  - subst rows. rewrite length_zip_with, length_fmap, !length_take. lia.
  - exists b. by rewrite Hrows.
Qed.

End ResultWriter.

(** ** A full run *)



Section FullRun.

Context {C : Type}.
Variable create : C -> Request -> res Response * C.
Variable gbk_decode : list Z -> option (list Z).
Variable exn_text : exn -> list Z.
Variable LANGUAGE_CODES : gmap (list Z) (list Z).
Variable REVERSE_LANGUAGE_CODES : gmap (list Z) (list Z).

Lemma read_source_file_inv path (w w1 : World C) records :
  read_source_file gbk_decode path w = (Ok records, w1) ->
  exists b text,
    files w !! path = Some b /\ Spec.decoded gbk_decode b = Some text
    /\ records = Spec.clean_lines (split_lines [] text).
Proof.
  destruct (files w !! path) as [b|] eqn:Hf.
  - rewrite (read_source_file_eq _ _ _ _ Hf). unfold Spec.decoded.
    destruct (Utf8.decode b) as [text|] eqn:Hd.
    + intros [= <- _]. exists b, text. by rewrite Hd.
    + destruct (gbk_decode b) as [text|] eqn:Hg; [| done].
      intros [= <- _]. exists b, text. by rewrite Hd.
  - unfold read_source_file, bind at 1, try_except, bind at 1, open_r.
    by rewrite Hf.
Qed.



End FullRun.

(** * More of the script *)

(** ** The translation client: any number of attempts *)

Lemma calls_app t1 t2 : calls (t1 ++ t2) = calls t1 ++ calls t2.
Proof. apply omap_app. Qed.

Lemma waits_app t1 t2 : waits (t1 ++ t2) = waits t1 ++ waits t2.
Proof. apply omap_app. Qed.

Lemma requests_app t1 t2 : requests (t1 ++ t2) = requests t1 ++ requests t2.
Proof. apply omap_app. Qed.

Lemma opened_app t1 t2 : opened (t1 ++ t2) = opened t1 ++ opened t2.
Proof. apply omap_app. Qed.

Lemma failed_raise o : failed o = true -> exists e, first_text o = Raise e.
Proof. unfold failed. destruct (first_text o); [done | by eexists]. Qed.

Lemma seqZ_S a k : seqZ a (Z.of_nat (S k)) = a :: seqZ (a + 1) (Z.of_nat k).
Proof.
  rewrite seqZ_cons by lia. f_equal. f_equal; lia.
Qed.

Lemma seqZ_middle k m :
  Z.of_nat k < m ->
  seqZ 0 m
  = seqZ 0 (Z.of_nat k)
    ++ Z.of_nat k :: seqZ (Z.of_nat k + 1) (m - Z.of_nat k - 1).
Proof.
  intros H. assert (E : m = Z.of_nat k + (m - Z.of_nat k)) by lia.
  rewrite E at 1. rewrite seqZ_app by lia. rewrite Z.add_0_l. f_equal.
  rewrite seqZ_cons by lia. repeat f_equal; lia.
Qed.

Section Attempts.

Context {C : Type}.
Variable create : C -> Request -> res Response * C.
Variable exn_text : exn -> list Z.
Variable LANGUAGE_CODES : gmap (list Z) (list Z).

Local Arguments u : simpl never.
Local Arguments retry_message : simpl never.
Local Arguments giveup_message : simpl never.

Lemma set_client_extend c evs (w : World C) :
  set_client c (extend evs w) = extend evs (set_client c w).
Proof. reflexivity. Qed.

Lemma events_since_client c evs (w : World C) :
  events_since w (set_client c (extend evs w)) = evs.
Proof.
  unfold events_since. cbn [trace set_client extend]. by rewrite drop_app_length.
Qed.

Lemma set_client_set_client c c' (w : World C) :
  set_client c (set_client c' w) = set_client c w.
Proof. reflexivity. Qed.

Lemma outcomes_snoc request k (c : C) :
  outcomes create request (S k) c =
  outcomes create request k c
  ++ [(create (after_calls create request k c) request).1].
Proof.
  revert c. induction k as [|k IH]; intros c; [reflexivity |].
  change (outcomes create request (S (S k)) c)
    with ((create c request).1
          :: outcomes create request (S k) (create c request).2).
  by rewrite IH.
Qed.

Lemma after_calls_snoc request k (c : C) :
  after_calls create request (S k) c =
  (create (after_calls create request k c) request).2.
Proof. revert c. induction k as [|k IH]; intros c; [reflexivity |]. apply IH. Qed.

(** The turns of the loop that fail before the last one: each is a call, the
    message of line 99 and the wait of line 100. *)
Lemma attempt_loop_failures text request m k : forall a (w : World C),
  a + Z.of_nat k <= m - 1 ->
  Forall (fun o => failed o = true) (outcomes create request k (client w)) ->
  exists evs,
    calls evs = outcomes create request k (client w)
    /\ requests evs = replicate k request
    /\ waits evs = (fun attempt => (attempt + 1) * 2) <$> seqZ a (Z.of_nat k)
    /\ forall rest,
       attempt_loop create exn_text text request m
         (seqZ a (Z.of_nat k) ++ rest) w
       = attempt_loop create exn_text text request m rest
           (set_client (after_calls create request k (client w)) (extend evs w)).
Proof.
  induction k as [|k IH]; intros a w Ha Hf.
  - exists []. repeat split. intros rest. rewrite extend_nil. by destruct w.
  - change (outcomes create request (S k) (client w))
      with ((create (client w) request).1
            :: outcomes create request k (create (client w) request).2) in Hf |- *.
    destruct (create (client w) request) as [o c] eqn:Hc. cbn [fst snd] in Hf |- *.
    apply Forall_cons in Hf as [Ho Hf].
    destruct (failed_raise _ Ho) as [e He].
    set (w1 := log (Sleep ((a + 1) * 2))
                 (log (Print (retry_message exn_text text e ((a + 1) * 2) ++ [10]))
                    (set_client c (log (Create request o) w)))).
    assert (Ha' : a + 1 + Z.of_nat k <= m - 1) by (clear - Ha; lia).
    destruct (IH (a + 1) w1 Ha' Hf) as (evs & Hcalls & Hreq & Hwaits & Hrun).
    exists ([Create request o;
             Print (retry_message exn_text text e ((a + 1) * 2) ++ [10]);
             Sleep ((a + 1) * 2)] ++ evs).
    split; [| split; [| split]].
    + rewrite calls_app, Hcalls. reflexivity.
    + rewrite requests_app, Hreq. reflexivity.
    + rewrite waits_app, Hwaits.
      rewrite seqZ_S, fmap_cons. reflexivity.
    + intros rest.
      rewrite seqZ_S, <- app_comm_cons.
      rewrite (attempt_loop_cons _ _ _ _ _ _ _ _ _ _ Hc). cbv zeta.
      rewrite He. replace (a <? m - 1) with true by (symmetry; apply Z.ltb_lt; lia).
      fold w1. rewrite Hrun. f_equal.
      subst w1. unfold set_client, extend, log. cbn [files stdin client trace].
      f_equal; [cbn [after_calls]; by rewrite Hc | by rewrite <- !app_assoc].
Qed.

(** Any run of the loop over the attempts [a], ..., [m - 1]: it ends
    without an exception, the events are calls with the one request, prints
    and sleeps, with at most one call for each attempt and no sleep of one
    second; and when there is an attempt at all a string is returned, the
    text given or an answer of the service, cleaned. *)
Lemma attempt_loop_run text request m k : forall a (w : World C),
  a + Z.of_nat k = m ->
  exists x c evs,
    attempt_loop create exn_text text request m (seqZ a (Z.of_nat k)) w
    = (Ok x, set_client c (extend evs w))
    /\ (length (calls evs) <= k)%nat
    /\ requests evs = replicate (length (calls evs)) request
    /\ prompts evs = [] /\ opened evs = []
    /\ Forall (fun n => n <> 1) (waits evs)
    /\ (forall t, x = Some t ->
        t = text
        \/ exists c0 s, first_text (create c0 request).1 = Ok s
                        /\ t = clean_result s)
    /\ (k <> 0%nat -> exists t, x = Some t).
Proof.
  induction k as [|k IH]; intros a w Ha.
  - exists None, (client w), []. rewrite extend_nil.
    split; [by destruct w |]. split; [done |]. do 3 (split; [done |]).
    split; [constructor |]. split; [intros t [=] | done].
  - rewrite seqZ_S.
    destruct (create (client w) request) as [o c] eqn:Hc.
    rewrite (attempt_loop_cons _ _ _ _ _ _ _ _ _ _ Hc). cbv zeta.
    destruct (first_text o) as [s|e] eqn:Ho.
    { exists (Some (clean_result s)), c, [Create request o].
      split; [reflexivity |]. split; [cbn; lia |]. do 3 (split; [done |]).
      split; [constructor |]. split; [| by eexists].
      intros t [= <-]. right. exists (client w), s. by rewrite Hc. }
    destruct (Z.ltb_spec a (m - 1)) as [Hlt|Hge].
    + set (w1 := log (Sleep ((a + 1) * 2))
                   (log (Print (retry_message exn_text text e ((a + 1) * 2) ++ [10]))
                      (set_client c (log (Create request o) w)))).
      assert (Ha' : a + 1 + Z.of_nat k = m) by (clear - Ha; lia).
      destruct (IH (a + 1) w1 Ha')
        as (x & c' & evs & Hrun & Hlen & Hreq & Hpr & Hop & Hw & Hx & Hsome).
      exists x, c',
        ([Create request o;
          Print (retry_message exn_text text e ((a + 1) * 2) ++ [10]);
          Sleep ((a + 1) * 2)] ++ evs).
      split; [| split; [| split; [| split; [| split; [| split; [| split]]]]]].
      * rewrite Hrun. f_equal. subst w1.
        unfold set_client, extend, log. cbn [files stdin client trace].
        f_equal. by rewrite <- !app_assoc.
      * rewrite calls_app. change (calls [_; _; _]) with [o].
        cbn [app length]. lia.
      * rewrite requests_app, calls_app, Hreq. reflexivity.
      * rewrite prompts_app, Hpr. reflexivity.
      * rewrite opened_app, Hop. reflexivity.
      * rewrite waits_app. change (waits [_; _; _]) with [(a + 1) * 2].
        cbn [app]. constructor; [clear; lia | exact Hw].
      * exact Hx.
      * intros _. apply Hsome. clear - Ha Hlt. lia.
    + exists (Some text), c,
        [Create request o; Print (giveup_message exn_text text e ++ [10])].
      split; [| split; [cbn; lia |]].
      { f_equal. unfold set_client, extend, log. cbn [files stdin client trace].
        f_equal. by rewrite <- !app_assoc. }
      do 3 (split; [done |]). split; [constructor |].
      split; [intros t [= <-]; by left | by eexists].
Qed.

(** A call of the client for a text that is not blank, with a code of the
    directory. *)
Lemma translate_to_language_run text src tgt name m (w : World C) :
  Py.strip text <> [] ->
  LANGUAGE_CODES !! src = Some name ->
  exists x c evs,
    translate_to_language create exn_text LANGUAGE_CODES text src tgt m w
    = (Ok x, set_client c (extend evs w))
    /\ (length (calls evs) <= Z.to_nat m)%nat
    /\ requests evs
       = replicate (length (calls evs))
           (request_of (system_prompt_of name tgt) text)
    /\ prompts evs = [] /\ opened evs = []
    /\ Forall (fun n => n <> 1) (waits evs)
    /\ (forall t, x = Some t ->
        t = text
        \/ exists c0 request s, first_text (create c0 request).1 = Ok s
                                /\ t = clean_result s)
    /\ (0 < m -> exists t, x = Some t).
Proof.
  intros Hb Hn. rewrite (translate_to_language_loop _ _ _ _ _ _ _ _ _ Hb Hn).
  destruct (Z.le_gt_cases m 0) as [Hm|Hm].
  - rewrite seqZ_nil by done. exists None, (client w), [].
    rewrite extend_nil. split; [by destruct w |].
    split; [cbn; lia |]. do 3 (split; [done |]). split; [constructor |].
    split; [intros t [=] |]. intros H. exfalso. lia.
  - destruct (attempt_loop_run text
                (request_of (system_prompt_of name tgt) text) m (Z.to_nat m) 0 w)
      as (x & c & evs & Hrun & Hlen & Hreq & Hpr & Hop & Hw & Hx & Hsome); [lia |].
    rewrite Z2Nat.id in Hrun by lia.
    exists x, c, evs. do 6 (split; [done |]). split.
    + intros t Ht. destruct (Hx t Ht) as [->|(c0 & s & Hs & ->)]; [by left |].
      right. by eexists _, _, _.
    + intros _. apply Hsome. lia.
Qed.

(** A text that is blank is returned at once (lines 69 and 70). *)
Lemma translate_to_language_skip text src tgt m (w : World C) :
  Py.strip text = [] ->
  translate_to_language create exn_text LANGUAGE_CODES text src tgt m w
  = (Ok (Some text), w).
Proof.
  intros H. unfold translate_to_language. rewrite H. by rewrite orb_true_r.
Qed.

(** Any call of the client: what it can have done, and how it can end. *)
Lemma translate_to_language_any text src tgt m (w : World C) :
  let run :=
    translate_to_language create exn_text LANGUAGE_CODES text src tgt m w in
  exists c evs,
    run.2 = set_client c (extend evs w)
    /\ prompts evs = [] /\ opened evs = []
    /\ Forall (fun n => n <> 1) (waits evs)
    /\ match run.1 with
       | Ok x =>
         (forall t, x = Some t ->
          t = text
          \/ exists c0 request s, first_text (create c0 request).1 = Ok s
                                  /\ t = clean_result s)
         /\ (0 < m -> exists t, x = Some t)
       | Raise e =>
         e = KeyError src /\ LANGUAGE_CODES !! src = None
         /\ Py.strip text <> [] /\ evs = []
       end.
Proof.
  intros run. subst run.
  assert (Hw : w = set_client (client w) (extend [] w))
    by (rewrite extend_nil; by destruct w).
  destruct (decide (Py.strip text = [])) as [Hb|Hb].
  { rewrite (translate_to_language_skip _ _ _ _ _ Hb).
    exists (client w), []. split; [exact Hw |]. do 2 (split; [done |]).
    split; [constructor |]. cbn [fst].
    split; [intros t [= <-]; by left | by eexists]. }
  destruct (LANGUAGE_CODES !! src) as [name|] eqn:Hn.
  - destruct (translate_to_language_run text src tgt name m w Hb Hn)
      as (x & c & evs & -> & _ & _ & Hpr & Hop & Hwt & Hx & Hsome).
    exists c, evs. by cbn [fst snd].
  - rewrite (translate_to_language_unknown_code _ _ _ _ _ _ _ _ Hb Hn).
    exists (client w), []. split; [exact Hw |]. do 2 (split; [done |]).
    split; [constructor |]. by cbn [fst].
Qed.

(** X2.  With no attempt allowed the client sends nothing and returns [None]:
    the loop of line 83 is not entered and the function ends without a
    [return]. *)
Theorem translate_to_language_no_attempt text src tgt name m (w : World C) :
  Py.strip text <> [] ->
  LANGUAGE_CODES !! src = Some name ->
  m <= 0 ->
  translate_to_language create exn_text LANGUAGE_CODES text src tgt m w
  = (Ok None, w).
Proof.
  intros Hb Hn Hm. rewrite (translate_to_language_loop _ _ _ _ _ _ _ _ _ Hb Hn).
  by rewrite seqZ_nil.
Qed.

(** X1.  The only exception that leaves the client is the [KeyError] of line 73,
    for a text that is not blank and a source code that is not in the
    directory; it is raised before anything is sent or printed.  No failure
    of the service leaves the client, whatever the number of attempts. *)
Theorem translate_to_language_raises text src tgt m (w w' : World C) e :
  translate_to_language create exn_text LANGUAGE_CODES text src tgt m w
  = (Raise e, w')
  <-> Py.strip text <> [] /\ LANGUAGE_CODES !! src = None
      /\ e = KeyError src /\ w' = w.
Proof.
  split.
  - intros Hrun. destruct (decide (Py.strip text = [])) as [Hb|Hb].
    { by rewrite (translate_to_language_skip _ _ _ _ _ Hb) in Hrun. }
    destruct (LANGUAGE_CODES !! src) as [name|] eqn:Hn.
    + destruct (translate_to_language_run text src tgt name m w Hb Hn)
        as (x & c & evs & Heq & _). by rewrite Heq in Hrun.
    + rewrite (translate_to_language_unknown_code _ _ _ _ _ _ _ _ Hb Hn) in Hrun.
      by injection Hrun as <- <-.
  - intros (Hb & Hn & -> & ->).
    by apply translate_to_language_unknown_code.
Qed.

(** X6.  The client leaves the files and the input as they are, asks nothing of
    the operator and opens no file: it only adds calls, prints and sleeps to
    what has been done. *)
Theorem translate_to_language_frame text src tgt m (w : World C) :
  let run :=
    translate_to_language create exn_text LANGUAGE_CODES text src tgt m w in
  files run.2 = files w /\ stdin run.2 = stdin w
  /\ trace w `prefix_of` trace run.2
  /\ prompts (events_since w run.2) = []
  /\ opened (events_since w run.2) = [].
Proof.
  intros run. subst run.
  assert (Hsame : files w = files w /\ stdin w = stdin w
               /\ trace w `prefix_of` trace w
               /\ prompts (events_since w w) = []
               /\ opened (events_since w w) = []).
  { repeat split; try done.
    - rewrite <- (extend_nil w) at 2. by rewrite events_since_extend.
    - rewrite <- (extend_nil w) at 2. by rewrite events_since_extend. }
  destruct (decide (Py.strip text = [])) as [Hb|Hb].
  { rewrite (translate_to_language_skip _ _ _ _ _ Hb). exact Hsame. }
  destruct (LANGUAGE_CODES !! src) as [name|] eqn:Hn.
  - destruct (translate_to_language_run text src tgt name m w Hb Hn)
      as (x & c & evs & -> & _ & _ & Hpr & Hop & _ & _ & _).
    cbn [snd]. rewrite events_since_client.
    repeat split; try done. by apply prefix_app_r.
  - rewrite (translate_to_language_unknown_code _ _ _ _ _ _ _ _ Hb Hn).
    exact Hsame.
Qed.

(** X5.  For a text that is not blank and a code of the directory: the client
    makes at most [max_retries] calls, every call sends the same request,
    made of the model, the instruction and the text as it was given; and
    when at least one attempt is allowed it returns a string. *)
Theorem translate_to_language_calls text src tgt name m (w : World C) :
  Py.strip text <> [] ->
  LANGUAGE_CODES !! src = Some name ->
  let run :=
    translate_to_language create exn_text LANGUAGE_CODES text src tgt m w in
  let request := request_of (system_prompt_of name tgt) text in
  (length (calls (events_since w run.2)) <= Z.to_nat m)%nat
  /\ requests (events_since w run.2)
     = replicate (length (calls (events_since w run.2))) request
  /\ messages request
     = [ {| msg_role := u "system"; msg_content := system_prompt_of name tgt |};
         {| msg_role := u "user"; msg_content := text |} ]
  /\ (0 < m -> exists t, run.1 = Ok (Some t)).
Proof.
  intros Hb Hn run request. subst run request.
  destruct (translate_to_language_run text src tgt name m w Hb Hn)
    as (x & c & evs & -> & Hlen & Hreq & _ & _ & _ & _ & Hsome).
  cbn [fst snd]. rewrite events_since_client.
  repeat split; try done.
  intros Hm. destruct (Hsome Hm) as [t ->]. by exists t.
Qed.

(** X3.  When the service fails at each of the [max_retries] attempts, one or
    more: the client has made [max_retries] calls, has waited 2, 4, ...
    seconds after each failure but the last, and returns the text it was
    given. *)
Theorem translate_to_language_gives_up text src tgt name m (w : World C) :
  Py.strip text <> [] ->
  LANGUAGE_CODES !! src = Some name ->
  0 < m ->
  let request := request_of (system_prompt_of name tgt) text in
  Forall (fun o => failed o = true)
    (outcomes create request (Z.to_nat m) (client w)) ->
  let run :=
    translate_to_language create exn_text LANGUAGE_CODES text src tgt m w in
  run.1 = Ok (Some text)
  /\ calls (events_since w run.2)
     = outcomes create request (Z.to_nat m) (client w)
  /\ waits (events_since w run.2) = backoff (Z.to_nat m - 1)
  /\ client run.2 = after_calls create request (Z.to_nat m) (client w).
Proof.
  intros Hb Hn Hm request Hf run. subst run.
  rewrite (translate_to_language_loop _ _ _ _ _ _ _ _ _ Hb Hn). fold request.
  destruct (Z.to_nat m) as [|k] eqn:Hk; [lia |].
  assert (Hmk : m = Z.of_nat k + 1) by lia.
  rewrite outcomes_snoc in Hf |- *. apply Forall_app in Hf as [Hf Hlast].
  rewrite Forall_singleton in Hlast.
  replace (seqZ 0 m) with (seqZ 0 (Z.of_nat k) ++ [Z.of_nat k]).
  2:{ rewrite Hmk, seqZ_app by lia. by rewrite Z.add_0_l. }
  destruct (attempt_loop_failures text request m k 0 w)
    as (evs & Hcalls & _ & Hwaits & Hrun); [lia | done |].
  rewrite Hrun.
  set (wk := set_client _ (extend evs w)) in *.
  destruct (create (client wk) request) as [o c] eqn:Hc.
  rewrite (attempt_loop_cons _ _ _ _ _ _ _ _ _ _ Hc). cbv zeta.
  assert (Hck : create (after_calls create request k (client w)) request = (o, c))
    by exact Hc.
  rewrite Hck in Hlast |- *. cbn [fst snd] in Hlast |- *.
  destruct (failed_raise _ Hlast) as [e ->].
  replace (Z.of_nat k <? m - 1) with false by (symmetry; apply Z.ltb_ge; lia).
  cbn [fst snd].
  assert (Ht : trace (log (Print (giveup_message exn_text text e ++ [10]))
                        (set_client c (log (Create request o) wk)))
               = trace w ++ evs ++ [Create request o;
                                    Print (giveup_message exn_text text e ++ [10])]).
  { subst wk. cbn [trace log set_client extend]. by rewrite <- !app_assoc. }
  rewrite (events_since_app _ _ _ Ht).
  rewrite calls_app, waits_app, Hcalls, Hwaits.
  split; [done |]. split; [done |]. split.
  - unfold backoff. replace (S k - 1)%nat with k by lia.
    by rewrite app_nil_r.
  - cbn [client log set_client]. by rewrite after_calls_snoc, Hck.
Qed.

(** X4.  When the service fails [k] times and then answers, with [k] less than
    [max_retries]: the client has made [k + 1] calls, has waited 2, ..., 2k
    seconds after the failures, and returns the answer cleaned; it does not
    use the attempts that are left. *)
Theorem translate_to_language_succeeds_after text src tgt name m k
    (w : World C) s :
  Py.strip text <> [] ->
  LANGUAGE_CODES !! src = Some name ->
  Z.of_nat k < m ->
  let request := request_of (system_prompt_of name tgt) text in
  Forall (fun o => failed o = true) (outcomes create request k (client w)) ->
  first_text (create (after_calls create request k (client w)) request).1 = Ok s ->
  let run :=
    translate_to_language create exn_text LANGUAGE_CODES text src tgt m w in
  run.1 = Ok (Some (clean_result s))
  /\ calls (events_since w run.2) = outcomes create request (S k) (client w)
  /\ waits (events_since w run.2) = backoff k.
Proof.
  intros Hb Hn Hm request Hf Hs run. subst run.
  rewrite (translate_to_language_loop _ _ _ _ _ _ _ _ _ Hb Hn). fold request.
  replace (seqZ 0 m)
    with (seqZ 0 (Z.of_nat k) ++ Z.of_nat k :: seqZ (Z.of_nat k + 1) (m - Z.of_nat k - 1)).
  2:{ symmetry. by apply seqZ_middle. }
  destruct (attempt_loop_failures text request m k 0 w)
    as (evs & Hcalls & _ & Hwaits & Hrun); [lia | done |].
  rewrite Hrun.
  set (wk := set_client _ (extend evs w)) in *.
  destruct (create (client wk) request) as [o c] eqn:Hc.
  rewrite (attempt_loop_cons _ _ _ _ _ _ _ _ _ _ Hc). cbv zeta.
  assert (Hck : create (after_calls create request k (client w)) request = (o, c))
    by exact Hc.
  rewrite outcomes_snoc. rewrite Hck in Hs |- *. cbn [fst snd] in Hs |- *.
  rewrite Hs. cbn [fst snd].
  assert (Ht : trace (set_client c (log (Create request o) wk))
               = trace w ++ evs ++ [Create request o]).
  { subst wk. cbn [trace log set_client extend]. by rewrite <- !app_assoc. }
  rewrite (events_since_app _ _ _ Ht).
  rewrite calls_app, waits_app, Hcalls, Hwaits.
  split; [done |]. split; [done |]. unfold backoff. by rewrite app_nil_r.
Qed.

End Attempts.

(** ** Trimming, and what the cleaning of an answer leaves *)

Lemma lstrip_decompose (s : list Z) :
  exists a, s = a ++ Py.lstrip s /\ Forall (fun c => Py.isspace c = true) a.
Proof.
  induction s as [|c s (a & Hs & Ha)]; [by exists [] |]. simpl.
  destruct (Py.isspace c) eqn:Hc.
  - exists (c :: a). split; [by rewrite Hs at 1 | by constructor].
  - by exists [].
Qed.

Lemma rstrip_decompose (s : list Z) :
  exists b, s = Py.rstrip s ++ b /\ Forall (fun c => Py.isspace c = true) b.
Proof.
  unfold Py.rstrip. destruct (lstrip_decompose (reverse s)) as (a & Hs & Ha).
  exists (reverse a). split; [| by rewrite Forall_reverse].
  rewrite <- reverse_app, <- Hs. by rewrite reverse_involutive.
Qed.

Lemma strip_decompose (s : list Z) :
  exists a b, s = a ++ Py.strip s ++ b
    /\ Forall (fun c => Py.isspace c = true) a
    /\ Forall (fun c => Py.isspace c = true) b.
Proof.
  unfold Py.strip. destruct (lstrip_decompose s) as (a & Hs & Ha).
  destruct (rstrip_decompose (Py.lstrip s)) as (b & Ht & Hb).
  exists a, b. split; [| done]. by rewrite <- Ht.
Qed.

Lemma strip_sublist (s : list Z) : Py.strip s `sublist_of` s.
Proof.
  destruct (strip_decompose s) as (a & b & Hs & _). rewrite Hs at 2.
  by apply sublist_inserts_l, sublist_inserts_r.
Qed.

Lemma lstrip_fixed (c : Z) (s : list Z) :
  Py.isspace c = false -> Py.lstrip (c :: s) = c :: s.
Proof. simpl. by intros ->. Qed.

Lemma rstrip_snoc_space (s : list Z) c :
  Py.isspace c = true -> Py.rstrip (s ++ [c]) = Py.rstrip s.
Proof.
  intros Hc. unfold Py.rstrip. rewrite reverse_app. simpl. by rewrite Hc.
Qed.

Lemma lstrip_snoc_space (s : list Z) c :
  Py.isspace c = true ->
  Py.lstrip (s ++ [c]) = match Py.lstrip s with [] => [] | t => t ++ [c] end.
Proof.
  intros Hc. induction s as [|d s IH]; simpl; [by rewrite Hc |].
  destruct (Py.isspace d); [exact IH | done].
Qed.

Lemma strip_snoc_space (s : list Z) c :
  Py.isspace c = true -> Py.strip (s ++ [c]) = Py.strip s.
Proof.
  intros Hc. unfold Py.strip. rewrite (lstrip_snoc_space _ _ Hc).
  destruct (Py.lstrip s) as [|d t]; [done |].
  by rewrite (rstrip_snoc_space _ _ Hc).
Qed.

Section Cleaning.

Local Arguments u : simpl never.

Lemma clean_result_sublist (s : list Z) : clean_result s `sublist_of` s.
Proof.
  unfold clean_result. rewrite replace_quotes.
  etrans; [apply sublist_filter |]. etrans; [apply strip_sublist |].
  etrans; [apply sublist_filter |]. apply strip_sublist.
Qed.

(** X7.  The cleaning of an answer never adds or moves a character: what is
    returned is the answer with characters left out; and no double quote,
    no apostrophe and no character of [punctuation] is left in it. *)
Theorem clean_result_removes (s : list Z) :
  clean_result s `sublist_of` s
  /\ Forall (fun c => c <> 34 /\ c <> 39 /\ c ∉ punctuation) (clean_result s).
Proof.
  split; [apply clean_result_sublist |].
  unfold clean_result. rewrite replace_quotes.
  set (P := fun char : Z => char <> 34 /\ char <> 39).
  set (Q := fun char : Z => ~ char ∈ punctuation).
  apply Forall_forall. intros c Hc.
  apply list_elem_of_filter in Hc as [Hq Hc].
  pose proof (elem_of_sublist _ _ _ Hc (strip_sublist _)) as Hin.
  apply list_elem_of_filter in Hin as [[H34 H39] _]. done.
Qed.

End Cleaning.

(** ** Counting the pauses, and computations that raise *)

Lemma pauses_app t1 t2 : pauses (t1 ++ t2) = (pauses t1 + pauses t2)%nat.
Proof. unfold pauses. by rewrite waits_app, filter_app, length_app. Qed.

Lemma pauses_none t : Forall (fun n => n <> 1) (waits t) -> pauses t = 0%nat.
Proof.
  unfold pauses. induction 1 as [|x l Hx _ IH]; [done |].
  by rewrite filter_cons, decide_False.
Qed.

Lemma pause_every_fifth i :
  i / 5 - (i - 1) / 5 = if i mod 5 =? 0 then 1 else 0.
Proof.
  destruct (Z.eqb_spec (i mod 5) 0); Z.to_euclidean_division_equations; lia.
Qed.

Lemma bind_raise_inv {C A B} (m : M C A) (k : A -> M C B) (w w' : World C) e :
  bind m k w = (Raise e, w') ->
  m w = (Raise e, w')
  \/ exists a w1, m w = (Ok a, w1) /\ k a w1 = (Raise e, w').
Proof.
  unfold bind. destruct (m w) as [[a|e0] w1]; intros H.
  - right. by exists a, w1.
  - left. by injection H as -> ->.
Qed.

Lemma forallb_Forall {A} (f : A -> bool) (l : list A) :
  forallb f l = true <-> Forall (fun x => f x = true) l.
Proof.
  induction l as [|x l IH]; simpl.
  - split; [constructor | done].
  - rewrite andb_true_iff, IH. split.
    + intros [? ?]. by constructor.
    + intros H. by inversion H.
Qed.

Lemma valid_sublist (s t : list Z) :
  s `sublist_of` t -> Utf8.valid t = true -> Utf8.valid s = true.
Proof.
  unfold Utf8.valid. rewrite !forallb_Forall, !Forall_forall.
  intros Hsub Ht c Hc. apply Ht. by eapply elem_of_sublist.
Qed.

(** ** The source reader: what it raises, and the records it returns *)

(** The lines [readlines] gives: a body without a line break, followed by
    one LF or, for the last line only, by nothing. *)
Lemma split_lines_bodies (n : nat) : forall (text cur : list Z),
  (length text <= n)%nat ->
  Forall (fun c => line_break c = false) cur ->
  Forall (fun line => exists body,
            Forall (fun c => line_break c = false) body
            /\ (line = body ++ [10] \/ line = body))
    (split_lines cur text).
Proof.
  induction n as [|n IH]; intros text cur Hlen Hcur.
  - destruct text; [| simpl in Hlen; lia]. simpl.
    destruct cur; [constructor |].
    constructor; [| constructor]. eexists. split; [exact Hcur | by right].
  - destruct text as [|c rest]; simpl.
    { destruct cur; [constructor |].
      constructor; [| constructor]. eexists. split; [exact Hcur | by right]. }
    simpl in Hlen.
    assert (Hline : exists body : list Z,
              Forall (fun c => line_break c = false) body
              /\ (cur ++ [10] = body ++ [10] \/ cur ++ [10] = body))
      by (exists cur; split; [exact Hcur | by left]).
    destruct (Z.eqb_spec c 10) as [->|H10].
    { constructor; [exact Hline |]. apply IH; [lia | constructor]. }
    destruct (Z.eqb_spec c 13) as [->|H13].
    { destruct rest as [|d rest'].
      - constructor; [exact Hline |]. apply IH; [simpl; lia | constructor].
      - destruct (d =? 10).
        + constructor; [exact Hline |]. apply IH; [simpl in *; lia | constructor].
        + constructor; [exact Hline |]. apply IH; [simpl in *; lia | constructor]. }
    apply IH; [lia |]. apply Forall_app. split; [exact Hcur |].
    constructor; [| constructor]. unfold line_break.
    apply orb_false_iff. split; by apply Z.eqb_neq.
Qed.

(** What holds of every character of a text and of LF holds of every
    character of its lines. *)
Lemma split_lines_Forall (P : Z -> Prop) (n : nat) : forall (text cur : list Z),
  (length text <= n)%nat ->
  P 10 -> Forall P cur -> Forall P text ->
  Forall (Forall P) (split_lines cur text).
Proof.
  induction n as [|n IH]; intros text cur Hlen H10 Hcur Htext.
  - destruct text; [| simpl in Hlen; lia]. simpl.
    destruct cur; [apply Forall_nil_2 | apply Forall_singleton; exact Hcur].
  - destruct text as [|c rest]; simpl.
    { destruct cur; [apply Forall_nil_2 | apply Forall_singleton; exact Hcur]. }
    simpl in Hlen. apply Forall_cons in Htext as [Hc Hrest].
    assert (Hline : Forall P (cur ++ [10]))
      by (apply Forall_app; split; [done | by apply Forall_singleton]).
    destruct (c =? 10).
    { constructor; [exact Hline |]. apply IH; [lia | done | constructor | done]. }
    destruct (c =? 13).
    { destruct rest as [|d rest'].
      - constructor; [exact Hline |]. apply IH; [simpl; lia | done | constructor | done].
      - apply Forall_cons in Hrest as [Hd Hrest'].
        destruct (d =? 10).
        + constructor; [exact Hline |].
          apply IH; [simpl in *; lia | done | constructor | done].
        + constructor; [exact Hline |].
          apply IH; [simpl in *; lia | done | constructor | by constructor]. }
    apply IH; [lia | done | | done].
    apply Forall_app. split; [done | by apply Forall_singleton].
Qed.

(** A cleaned line is not empty, does not begin with whitespace, and is
    made of characters of the line. *)
Lemma clean_line_shape (line r : list Z) :
  Spec.clean_line line = Some r ->
  r <> [] /\ Py.lstrip r = r /\ r `sublist_of` Py.strip line.
Proof.
  unfold Spec.clean_line. destruct (Spec.is_header line); [done |]. cbv zeta.
  destruct (Py.strip line) as [|x t] eqn:Hs.
  { by destruct (Py.endswith [] (u ",")). }
  pose proof (strip_head _ _ _ Hs) as Hx.
  destruct (Py.endswith _ _).
  - unfold Py.drop_last. cbn [length]. rewrite Nat.sub_1_r. cbn [Nat.pred].
    destruct t as [|y t]; [done |]. cbn [length take].
    intros [= <-]. split; [done |]. split; [by apply lstrip_fixed |].
    constructor. apply (sublist_take (y :: t)).
  - intros [= <-]. split; [done |]. split; [by apply lstrip_fixed | done].
Qed.

(** The records of a text that can be encoded can be encoded. *)
Lemma clean_lines_valid (text : list Z) :
  Utf8.valid text = true ->
  forallb Utf8.valid (Spec.clean_lines (split_lines [] text)) = true.
Proof.
  intros Hv. apply forallb_Forall, Forall_forall. intros r Hr.
  unfold Spec.clean_lines in Hr.
  apply list_elem_of_omap in Hr as (line & Hline & Hr).
  destruct (clean_line_shape _ _ Hr) as (_ & _ & Hsub).
  pose proof (split_lines_Forall (fun c => Utf8.is_scalar c = true)
                (length text) text [] (le_n _) eq_refl (Forall_nil_2 _)) as Hall.
  unfold Utf8.valid in Hv. rewrite forallb_Forall in Hv. specialize (Hall Hv).
  rewrite Forall_forall in Hall. specialize (Hall _ Hline).
  apply (valid_sublist r line).
  - etrans; [exact Hsub | apply strip_sublist].
  - by apply forallb_Forall.
Qed.

Section Reader.

Context {C : Type}.
Variable gbk_decode : list Z -> option (list Z).

Local Arguments u : simpl never.

Lemma read_source_file_missing path (w : World C) :
  files w !! path = None ->
  read_source_file gbk_decode path w
  = (Raise (FileNotFoundError path), extend [Open path mode_r utf_8] w).
Proof.
  intros Hf. unfold read_source_file, bind at 1, try_except, bind at 1, open_r.
  by rewrite Hf.
Qed.

(** The reader on a file that can be decoded. *)
Lemma read_source_file_ok path (w : World C) b text :
  files w !! path = Some b ->
  Spec.decoded gbk_decode b = Some text ->
  exists ops,
    read_source_file gbk_decode path w
    = (Ok (Spec.clean_lines (split_lines [] text)),
       extend (ops ++ report (Spec.clean_lines (split_lines [] text))) w)
    /\ prompts ops = [] /\ calls ops = [] /\ waits ops = [].
Proof.
  intros Hf Hd. rewrite (read_source_file_eq _ _ _ _ Hf).
  unfold Spec.decoded in Hd. destruct (Utf8.decode b) as [t|].
  - injection Hd as ->. by exists [Open path mode_r utf_8].
  - rewrite Hd. by exists [Open path mode_r utf_8; Open path mode_r gbk].
Qed.

Lemma read_source_file_raise_inv path (w w' : World C) e :
  read_source_file gbk_decode path w = (Raise e, w') ->
  e = FileNotFoundError path \/ e = UnicodeDecodeError.
Proof.
  destruct (files w !! path) as [b|] eqn:Hf.
  - rewrite (read_source_file_eq _ _ _ _ Hf).
    destruct (Utf8.decode b); [done |]. destruct (gbk_decode b); [done |].
    intros [= <- _]. by right.
  - rewrite (read_source_file_missing _ _ Hf). intros [= <- _]. by left.
Qed.

(** X8.  The reader raises in two cases only.  When there is no file at the
    path, [FileNotFoundError] leaves it after the one attempt to open the
    file, the fallback is not tried.  When the octets are neither utf-8 nor
    GBK, [UnicodeDecodeError] leaves it after the two attempts.  Nothing is
    printed in either case. *)
Theorem read_source_file_raises path (w w' : World C) e :
  read_source_file gbk_decode path w = (Raise e, w')
  <-> (files w !! path = None /\ e = FileNotFoundError path
       /\ w' = extend [Open path mode_r utf_8] w)
      \/ (exists b, files w !! path = Some b
            /\ Utf8.decode b = None /\ gbk_decode b = None
            /\ e = UnicodeDecodeError
            /\ w' = extend [Open path mode_r utf_8; Open path mode_r gbk] w).
Proof.
  destruct (files w !! path) as [b|] eqn:Hf.
  - rewrite (read_source_file_eq _ _ _ _ Hf). split.
    + intros Hrun. right. exists b.
      destruct (Utf8.decode b) as [text|]; [done |].
      destruct (gbk_decode b) as [text|]; [done |].
      by injection Hrun as <- <-.
    + intros [(? & _) | (b' & [= <-] & -> & -> & -> & ->)]; done.
  - rewrite (read_source_file_missing _ _ Hf). split.
    + intros [= <- <-]. by left.
    + intros [(_ & -> & ->) | (b' & ? & _)]; done.
Qed.

(** X9.  Every record the reader returns is a text that is not empty, does not
    begin with whitespace and holds no line break; and the reader leaves
    the files, the input and the service as they are. *)
Theorem read_source_file_records path (w w' : World C) records :
  read_source_file gbk_decode path w = (Ok records, w') ->
  Forall (fun r => r <> [] /\ Py.lstrip r = r
                   /\ Forall (fun c => line_break c = false) r) records
  /\ files w' = files w /\ stdin w' = stdin w /\ client w' = client w.
Proof.
  intros Hrun.
  destruct (read_source_file_inv _ _ _ _ _ Hrun) as (b & text & Hf & Hd & ->).
  split.
  - apply Forall_forall. intros r Hr. unfold Spec.clean_lines in Hr.
    apply list_elem_of_omap in Hr as (line & Hline & Hr).
    destruct (clean_line_shape _ _ Hr) as (Hne & Hl & Hsub).
    split; [done |]. split; [done |].
    pose proof (split_lines_bodies (length text) text [] (le_n _)
                  (Forall_nil_2 _)) as Hall.
    rewrite Forall_forall in Hall.
    destruct (Hall _ Hline) as (body & Hbody & Hcase).
    assert (Hstrip : Py.strip line `sublist_of` body).
    { destruct Hcase as [-> | ->]; [| apply strip_sublist].
      rewrite strip_snoc_space by done. apply strip_sublist. }
    apply Forall_forall. intros c Hc. rewrite Forall_forall in Hbody.
    apply Hbody. eapply elem_of_sublist; [exact Hc |]. by etrans.
  - rewrite (read_source_file_eq _ _ _ _ Hf) in Hrun.
    destruct (Utf8.decode b); [by injection Hrun as _ <- |].
    destruct (gbk_decode b); [by injection Hrun as _ <- | done].
Qed.

End Reader.

(** ** The result writer: reading the file back, and a row that cannot be
    written *)

Section Writer.

Context {C : Type}.

Local Arguments u : simpl never.

Lemma for_each_app {A} (l1 l2 : list A) (body : A -> M C unit) (w : World C) :
  for_each (l1 ++ l2) body w
  = bind (for_each l1 body) (fun _ => for_each l2 body) w.
Proof.
  revert w. induction l1 as [|x l1 IH]; intros w; [reflexivity |].
  cbn [app for_each]. unfold bind.
  destruct (body x w) as [[[]|e] w1]; [| reflexivity].
  rewrite IH. reflexivity.
Qed.

Lemma encode_invalid (s : list Z) : Utf8.valid s = false -> Utf8.encode s = None.
Proof.
  intros Hv. destruct (Utf8.encode s) as [b|] eqn:He; [| done].
  assert (Utf8.valid s = true) by (apply encode_valid; by eexists). congruence.
Qed.

Lemma zip_middle {A B} (l : list A) (k : list B) i x y :
  l !! i = Some x -> k !! i = Some y ->
  zip l k = zip (take i l) (take i k) ++ (x, y) :: zip (drop (S i) l) (drop (S i) k).
Proof.
  intros Hl Hk.
  rewrite <- (take_drop_middle l i x Hl) at 1.
  rewrite <- (take_drop_middle k i y Hk) at 1.
  etrans; [apply (zip_with_app pair) | reflexivity].
  rewrite !length_take.
  apply lookup_lt_Some in Hl. apply lookup_lt_Some in Hk. lia.
Qed.

Lemma write_rows_raise_inv path src (pairs : list (list Z * option (list Z))) :
  forall (w w' : World C) e,
  for_each pairs
    (fun '(orig, trans) => writerow path [Some orig; Some src; trans]) w
  = (Raise e, w') ->
  e = UnicodeEncodeError.
Proof.
  induction pairs as [|[o t] pairs IH]; intros w w' e Hr; [done |].
  cbn [for_each] in Hr. apply bind_raise_inv in Hr as [Hr | ([] & w1 & _ & Hr)].
  - unfold writerow in Hr. destruct (Utf8.encode _); [done |].
    by injection Hr as <- _.
  - by eapply IH.
Qed.

Lemma write_translated_file_raise_inv path originals translated src
    (w w' : World C) e :
  write_translated_file path originals translated src w = (Raise e, w') ->
  e = UnicodeEncodeError.
Proof.
  unfold write_translated_file. intros Hr.
  apply bind_raise_inv in Hr as [Hr | ([] & w1 & _ & Hr)]; [done |].
  apply bind_raise_inv in Hr as [Hr | ([] & w2 & _ & Hr)].
  - unfold writerow in Hr. destruct (Utf8.encode _); [done |].
    by injection Hr as <- _.
  - by eapply write_rows_raise_inv.
Qed.

(** X10.  When the text of the file can be encoded the writer ends well; decoding
    the file it has written gives back the header row and the rows of the
    pairs, a translation that is [None] being an empty cell; what the file
    held before is gone, and the other files are as they were. *)
Theorem write_translated_file_read_back path originals translated src
    (w : World C) :
  Utf8.valid src = true ->
  forallb Utf8.valid originals = true ->
  forallb (fun t => Utf8.valid (Csv.cell_text t)) translated = true ->
  let run := write_translated_file path originals translated src w in
  run.1 = Ok tt
  /\ files run.2 !! path ≫= Utf8.decode
     = Some (output_text src originals translated)
  /\ (forall p, p <> path -> files run.2 !! p = files w !! p).
Proof.
  intros Hs Ho Ht run.
  destruct (valid_output_text src originals translated Hs Ho Ht) as [b Hb].
  subst run. rewrite (write_translated_file_run _ _ _ _ _ _ Hb).
  cbn [fst snd files set_file extend]. split; [done |]. split.
  - rewrite lookup_insert_eq. cbn [mbind option_bind].
    by apply Utf8Facts.decode_encode.
  - intros p Hp. by rewrite lookup_insert_ne.
Qed.

(** X11.  When the row of the pair at index [k] holds a character that cannot be
    encoded, the rows before it being fine: [UnicodeEncodeError] leaves the
    writer, and the file is left with the header row and the [k] rows
    before that pair; nothing of the row and of the rows after it is
    written. *)
Theorem write_translated_file_stops path originals translated src k o t
    (w : World C) :
  originals !! k = Some o ->
  translated !! k = Some t ->
  Utf8.valid (output_text src (take k originals) (take k translated)) = true ->
  Utf8.valid (data_row src o t) = false ->
  let run := write_translated_file path originals translated src w in
  run.1 = Raise UnicodeEncodeError
  /\ exists b,
       Utf8.encode (output_text src (take k originals) (take k translated))
       = Some b
       /\ files run.2 = <[path := b]> (files w).
Proof.
  intros Ho Ht Hgood Hbad run.
  apply encode_valid in Hgood as [b Hb]. pose proof Hb as Hb'.
  unfold output_text in Hb'. rewrite encode_app in Hb'.
  destruct (Utf8.encode header_row) as [b1|] eqn:E1; [| done].
  destruct (Utf8.encode (mjoin _)) as [b2|] eqn:E2; [| done].
  injection Hb' as <-. rewrite <- zip_rows in E2.
  assert (Hrun : write_translated_file path originals translated src w
                 = (Raise UnicodeEncodeError,
                    set_file path (b1 ++ b2) (log (Open path mode_w utf_8) w))).
  { unfold write_translated_file.
    erewrite bind_ok by reflexivity.
    erewrite bind_ok by (apply writerow_run; by rewrite row_header).
    rewrite (zip_middle _ _ _ _ _ Ho Ht), for_each_app.
    erewrite bind_ok
      by (eapply write_rows_run; [by apply lookup_insert_eq | exact E2]).
    cbn [for_each]. unfold bind, writerow.
    rewrite row_three, (encode_invalid _ Hbad).
    rewrite !set_file_set_file. cbn [files set_file log].
    by rewrite lookup_insert_eq. }
  subst run. rewrite Hrun. cbn [fst snd files set_file log].
  split; [done |]. by exists (b1 ++ b2).
Qed.

End Writer.

(** ** The selectors: every way they can end *)

Section Selectors.

Context {C : Type}.
Variable LANGUAGE_CODES : gmap (list Z) (list Z).
Variable REVERSE_LANGUAGE_CODES : gmap (list Z) (list Z).

Local Arguments u : simpl never.

(** How the loop of a selector ends on the lines [pending]. *)
Lemma selector_loop_cases k pending : forall (w : World C),
  let run :=
    selector_loop LANGUAGE_CODES REVERSE_LANGUAGE_CODES k pending w in
  files run.2 = files w /\ client run.2 = client w
  /\ trace w `prefix_of` trace run.2
  /\ match run.1 with
     | Ok (code, name) =>
       exists bad line rest,
         pending = bad ++ line :: rest
         /\ Forall (rejected LANGUAGE_CODES REVERSE_LANGUAGE_CODES) bad
         /\ stdin run.2 = rest
         /\ ((code = Py.strip line /\ LANGUAGE_CODES !! code = Some name)
             \/ (name = Py.strip line /\ LANGUAGE_CODES !! name = None
                 /\ REVERSE_LANGUAGE_CODES !! name = Some code))
     | Raise e =>
       e = EOFError
       /\ Forall (rejected LANGUAGE_CODES REVERSE_LANGUAGE_CODES) pending
       /\ stdin run.2 = match pending with [] => stdin w | _ => [] end
     end.
Proof.
  induction pending as [|line rest IH]; intros w run; subst run.
  - rewrite selector_loop_nil. cbn [fst snd files client extend trace].
    repeat split; try done. by apply prefix_app_r.
  - rewrite selector_loop_cons. cbv zeta.
    set (w1 := set_stdin rest (extend [Input (prompt_of k)] w)).
    assert (Hp1 : trace w `prefix_of` trace w1) by (by apply prefix_app_r).
    destruct (LANGUAGE_CODES !! Py.strip line) as [name|] eqn:Hc.
    { cbn [fst snd]. do 3 (split; [done |]).
      exists [], line, rest. repeat split; try done. by left. }
    destruct (REVERSE_LANGUAGE_CODES !! Py.strip line) as [code|] eqn:Hr.
    { cbn [fst snd]. do 3 (split; [done |]).
      exists [], line, rest. repeat split; try done. by right. }
    specialize (IH (extend [printed rejection] w1)). cbv zeta in IH.
    destruct IH as (Hf & Hcl & Hp & Hcase).
    split; [exact Hf |]. split; [exact Hcl |]. split.
    { etrans; [exact Hp1 |]. etrans; [| exact Hp]. by apply prefix_app_r. }
    destruct (selector_loop _ _ k rest _) as [[[code name]|e] w'].
    + cbn [fst snd] in Hcase |- *.
      destruct Hcase as (bad & l & rest' & -> & Hbad & Hin & Hres).
      exists (line :: bad), l, rest'. repeat split; try done.
      constructor; [by split | done].
    + cbn [fst snd] in Hcase |- *. destruct Hcase as (-> & Hall & Hin).
      split; [done |]. split; [constructor; [by split | done] |].
      rewrite Hin. by destruct rest.
Qed.


Lemma get_source_language_eq (w : World C) :
  get_source_language LANGUAGE_CODES REVERSE_LANGUAGE_CODES w
  = selector LANGUAGE_CODES REVERSE_LANGUAGE_CODES source w.
Proof.
  rewrite selector_eq. unfold get_source_language.
  erewrite bind_ok by apply print_run.
  erewrite bind_ok by apply print_run.
  erewrite bind_ok by apply show_common_languages_run.
  by rewrite !extend_extend.
Qed.

Lemma get_target_language_eq (w : World C) :
  get_target_language LANGUAGE_CODES REVERSE_LANGUAGE_CODES w
  = selector LANGUAGE_CODES REVERSE_LANGUAGE_CODES target w.
Proof.
  rewrite selector_eq. unfold get_target_language.
  erewrite bind_ok by apply print_run.
  erewrite bind_ok by apply print_run.
  erewrite bind_ok by apply show_common_languages_run.
  by rewrite !extend_extend.
Qed.

Lemma selector_raise_inv k (w w' : World C) e :
  selector LANGUAGE_CODES REVERSE_LANGUAGE_CODES k w = (Raise e, w') ->
  e = EOFError.
Proof.
  intros Hrun. rewrite selector_eq in Hrun.
  destruct (selector_loop_cases k (stdin w) (extend (intro k) w))
    as (_ & _ & _ & Hcase).
  rewrite Hrun in Hcase. by destruct Hcase as [-> _].
Qed.

Lemma selector_ok_inv k (w w' : World C) code name :
  selector LANGUAGE_CODES REVERSE_LANGUAGE_CODES k w = (Ok (code, name), w') ->
  LANGUAGE_CODES !! code = Some name
  \/ REVERSE_LANGUAGE_CODES !! name = Some code.
Proof.
  intros Hrun. rewrite selector_eq in Hrun.
  destruct (selector_loop_cases k (stdin w) (extend (intro k) w))
    as (_ & _ & _ & Hcase).
  rewrite Hrun in Hcase. cbn [fst] in Hcase.
  destruct Hcase as (bad & line & rest & _ & _ & _ & [[_ H] | (_ & _ & H)]);
    [by left | by right].
Qed.

(** An answer that is a code, typed first, is taken at once. *)
Lemma selector_accepts k (w : World C) line rest name :
  stdin w = line :: rest ->
  LANGUAGE_CODES !! Py.strip line = Some name ->
  selector LANGUAGE_CODES REVERSE_LANGUAGE_CODES k w
  = (Ok (Py.strip line, name),
     set_stdin rest (extend (intro k ++ [Input (prompt_of k)]) w)).
Proof.
  intros Hin Hc. rewrite selector_eq, Hin, selector_loop_cons, Hc. cbv zeta.
  by rewrite extend_extend.
Qed.

(** The two loops are the same loop but for the prompt. *)
Lemma selector_loops_agree pending : forall (w1 w2 : World C),
  stdin w1 = stdin w2 ->
  length (prompts (trace w1)) = length (prompts (trace w2)) ->
  let s := selector_loop LANGUAGE_CODES REVERSE_LANGUAGE_CODES source pending w1 in
  let t := selector_loop LANGUAGE_CODES REVERSE_LANGUAGE_CODES target pending w2 in
  s.1 = t.1 /\ stdin s.2 = stdin t.2
  /\ length (prompts (trace s.2)) = length (prompts (trace t.2)).
Proof.
  induction pending as [|line rest IH]; intros w1 w2 Hin Hlen s t; subst s t.
  - rewrite !selector_loop_nil. cbn [fst snd stdin extend trace].
    rewrite !prompts_app, !length_app, Hlen. done.
  - rewrite !selector_loop_cons. cbv zeta.
    assert (Hlen' : forall k (w : World C),
              length (prompts (trace (extend [Input (prompt_of k)] w)))
              = S (length (prompts (trace w)))).
    { intros k w. cbn [trace extend]. rewrite prompts_app, length_app.
      change (prompts [Input (prompt_of k)]) with [prompt_of k].
      cbn [length]. lia. }
    destruct (LANGUAGE_CODES !! Py.strip line).
    { cbn [fst snd stdin set_stdin]. split; [done |]. split; [done |].
      change (trace (set_stdin rest ?w)) with (trace w).
      by rewrite !Hlen', Hlen. }
    destruct (REVERSE_LANGUAGE_CODES !! Py.strip line).
    { cbn [fst snd stdin set_stdin]. split; [done |]. split; [done |].
      change (trace (set_stdin rest ?w)) with (trace w).
      by rewrite !Hlen', Hlen. }
    apply IH; [done |].
    cbn [trace extend set_stdin]. rewrite !prompts_app, !length_app.
    change (prompts [Input ?p]) with [p].
    change (prompts [printed rejection]) with (@nil (list Z)).
    cbn [length]. lia.
Qed.

(** X13.  The selector of the source language and that of the target language
    take the same answers from the input and return the same pair, or both
    meet the end of the input, after the same number of prompts: they
    differ in what they print only. *)
Theorem selectors_agree (w : World C) :
  let s := get_source_language LANGUAGE_CODES REVERSE_LANGUAGE_CODES w in
  let t := get_target_language LANGUAGE_CODES REVERSE_LANGUAGE_CODES w in
  s.1 = t.1 /\ stdin s.2 = stdin t.2
  /\ length (prompts (trace s.2)) = length (prompts (trace t.2)).
Proof.
  intros s t. subst s t.
  rewrite get_source_language_eq, get_target_language_eq, !selector_eq. apply selector_loops_agree; [done |].
  cbn [trace extend]. by rewrite !prompts_app, !prompts_intro.
Qed.

(** X12.  However a selector ends, it has left the files and the service as they
    were, and one of three things has happened.  It returns a code and its
    name in the directory, the code being an answer typed, trimmed.  Or it
    returns a name and its code in the reverse directory, the name being an
    answer typed, trimmed, that is not a code.  Or every line of the input
    was rejected and [EOFError] leaves it.  The answers before the one
    taken were all rejected, and the lines after it are left in the
    input. *)
Theorem selector_outcome k (w : World C) :
  let run := selector LANGUAGE_CODES REVERSE_LANGUAGE_CODES k w in
  files run.2 = files w /\ client run.2 = client w
  /\ match run.1 with
     | Ok (code, name) =>
       exists bad line rest,
         stdin w = bad ++ line :: rest
         /\ Forall (rejected LANGUAGE_CODES REVERSE_LANGUAGE_CODES) bad
         /\ stdin run.2 = rest
         /\ ((code = Py.strip line /\ LANGUAGE_CODES !! code = Some name)
             \/ (name = Py.strip line /\ LANGUAGE_CODES !! name = None
                 /\ REVERSE_LANGUAGE_CODES !! name = Some code))
     | Raise e =>
       e = EOFError
       /\ Forall (rejected LANGUAGE_CODES REVERSE_LANGUAGE_CODES) (stdin w)
       /\ stdin run.2 = []
     end.
Proof.
  intros run. subst run. rewrite selector_eq.
  destruct (selector_loop_cases k (stdin w) (extend (intro k) w))
    as (Hf & Hc & _ & Hcase).
  split; [exact Hf |]. split; [exact Hc |].
  destruct (selector_loop _ _ k _ _) as [[[code name]|e] w']; [exact Hcase |].
  cbn [fst snd] in Hcase |- *. destruct Hcase as (-> & Hall & Hin).
  split; [done |]. split; [done |]. rewrite Hin.
  cbn [stdin extend]. by destruct (stdin w).
Qed.

(** X14.  When the reverse directory holds only pairs of the directory, the pair
    a selector returns is an entry of the directory: the code can be looked
    up in it and gives the name. *)
Theorem selector_returns_entry k (w w' : World C) code name :
  inverse_of LANGUAGE_CODES REVERSE_LANGUAGE_CODES ->
  selector LANGUAGE_CODES REVERSE_LANGUAGE_CODES k w = (Ok (code, name), w') ->
  LANGUAGE_CODES !! code = Some name.
Proof.
  intros Hinv Hrun. rewrite selector_eq in Hrun.
  destruct (selector_loop_cases k (stdin w) (extend (intro k) w))
    as (_ & _ & _ & Hcase).
  rewrite Hrun in Hcase. cbn [fst] in Hcase.
  destruct Hcase as (bad & line & rest & _ & _ & _ & [[_ H] | (_ & _ & H)]);
    [exact H |].
  exact (map_Forall_lookup_1 _ _ _ _ Hinv H).
Qed.

End Selectors.

(** ** The run as a whole: errors and edges *)

Section Run.

Context {C : Type}.
Variable create : C -> Request -> res Response * C.
Variable gbk_decode : list Z -> option (list Z).
Variable exn_text : exn -> list Z.
Variable LANGUAGE_CODES : gmap (list Z) (list Z).
Variable REVERSE_LANGUAGE_CODES : gmap (list Z) (list Z).

Local Arguments u : simpl never.

Lemma input_run prompt (w : World C) :
  input prompt w
  = match stdin w with
    | [] => (Raise EOFError, extend [Input prompt] w)
    | line :: rest => (Ok line, set_stdin rest (extend [Input prompt] w))
    end.
Proof. unfold input. by destruct (stdin w). Qed.

(** The handler of lines 205 to 208, after the body has raised. *)
Lemma main_handler (w w1 : World C) e0 :
  main_body create gbk_decode exn_text LANGUAGE_CODES REVERSE_LANGUAGE_CODES w
  = (Raise e0, w1) ->
  main create gbk_decode exn_text LANGUAGE_CODES REVERSE_LANGUAGE_CODES w
  = let w2 := extend [printed (u "发生错误: " ++ exn_text e0);
                      Input (nl ++ u "按任意键退出...")] w1 in
    match stdin w1 with
    | [] => (Raise EOFError, w2)
    | _ :: rest => (Ok tt, set_stdin rest w2)
    end.
Proof.
  intros Hb. unfold main, try_except. rewrite Hb. cbn [is_exception].
  erewrite bind_ok by apply print_run.
  unfold bind. rewrite input_run. cbn [stdin extend]. cbv zeta.
  destruct (stdin w1); by rewrite extend_extend.
Qed.

(** X15.  An exception leaves [main] in one case only: the body has raised, its
    exception has been printed, and the input is at its end when the
    handler waits for a key; what leaves [main] is then the [EOFError] of
    that [input]. *)
Theorem main_raises (w w' : World C) e :
  main create gbk_decode exn_text LANGUAGE_CODES REVERSE_LANGUAGE_CODES w
  = (Raise e, w')
  <-> exists e0 w1,
        main_body create gbk_decode exn_text LANGUAGE_CODES
          REVERSE_LANGUAGE_CODES w = (Raise e0, w1)
        /\ stdin w1 = []
        /\ e = EOFError
        /\ w' = extend [printed (u "发生错误: " ++ exn_text e0);
                        Input (nl ++ u "按任意键退出...")] w1.
Proof.
  split.
  - intros Hrun.
    destruct (main_body create gbk_decode exn_text LANGUAGE_CODES
                REVERSE_LANGUAGE_CODES w) as [[[]|e0] w1] eqn:Hb.
    + unfold main, try_except in Hrun. by rewrite Hb in Hrun.
    + rewrite (main_handler _ _ _ Hb) in Hrun. cbv zeta in Hrun.
      exists e0, w1. destruct (stdin w1); [| done].
      by injection Hrun as <- <-.
  - intros (e0 & w1 & Hb & Hin & -> & ->).
    rewrite (main_handler _ _ _ Hb). cbv zeta. by rewrite Hin.
Qed.

(** X16.  Without a file [language.csv], and with a line in the input: [main]
    tries to open the file once, prints the error with the text of the
    exception, waits for the key and ends well; it asks for no language,
    calls no service and writes no file. *)
Theorem main_source_file_missing (w : World C) key rest :
  files w !! u "language.csv" = None ->
  stdin w = key :: rest ->
  main create gbk_decode exn_text LANGUAGE_CODES REVERSE_LANGUAGE_CODES w
  = (Ok tt,
     set_stdin rest
       (extend [ Open (u "language.csv") mode_r utf_8;
                 printed (u "发生错误: "
                          ++ exn_text (FileNotFoundError (u "language.csv")));
                 Input (nl ++ u "按任意键退出...") ] w)).
Proof.
  intros Hf Hin.
  assert (Hb : main_body create gbk_decode exn_text LANGUAGE_CODES
                 REVERSE_LANGUAGE_CODES w
               = (Raise (FileNotFoundError (u "language.csv")),
                  extend [Open (u "language.csv") mode_r utf_8] w)).
  { unfold main_body. erewrite bind_raise; [done |].
    by apply read_source_file_missing. }
  rewrite (main_handler _ _ _ Hb). cbv zeta. cbn [stdin extend]. rewrite Hin.
  by rewrite extend_extend.
Qed.

(** X17.  With a file [language.csv] that can be decoded and gives no record:
    [main] prints that the file is empty and ends well at once; it asks
    nothing, not even the key, calls no service, and leaves the files and
    the input as they are. *)
Theorem main_nothing_to_translate (w : World C) b text :
  files w !! u "language.csv" = Some b ->
  Spec.decoded gbk_decode b = Some text ->
  Spec.clean_lines (split_lines [] text) = [] ->
  let run :=
    main create gbk_decode exn_text LANGUAGE_CODES REVERSE_LANGUAGE_CODES w in
  run.1 = Ok tt
  /\ files run.2 = files w /\ stdin run.2 = stdin w /\ client run.2 = client w
  /\ prompts (events_since w run.2) = []
  /\ calls (events_since w run.2) = []
  /\ last (trace run.2) = Some (printed (u "错误：源文件为空或未找到有效的文本")).
Proof.
  intros Hf Hd He run.
  destruct (read_source_file_ok gbk_decode _ w _ _ Hf Hd)
    as (ops & Hread & Hpr & Hca & _).
  rewrite He in Hread. cbn [report] in Hread. rewrite app_nil_r in Hread.
  assert (Hb : main_body create gbk_decode exn_text LANGUAGE_CODES
                 REVERSE_LANGUAGE_CODES w
               = (Ok tt,
                  extend (ops ++ [printed (u "错误：源文件为空或未找到有效的文本")]) w)).
  { unfold main_body. erewrite bind_ok by exact Hread.
    cbn [nonempty negb]. by rewrite print_run, extend_extend. }
  subst run. unfold main, try_except. rewrite Hb. cbn [fst snd].
  do 4 (split; [done |]). rewrite events_since_extend.
  rewrite prompts_app, calls_app, Hpr, Hca.
  split; [done |]. split; [done |].
  cbn [trace extend]. by rewrite app_assoc, last_snoc.
Qed.

(** The loop of [main] on any texts: it opens nothing and asks nothing;
    it ends with one translation for each text, which is the text itself
    or an answer of the service, cleaned, and with one pause after each
    index that is a multiple of 5; or it is left by the [KeyError] of a
    source code that is not in the directory. *)
Lemma main_loop_run n sc tl texts : forall i acc (w : World C),
  let run := main_loop create exn_text LANGUAGE_CODES n sc tl i texts acc w in
  exists c evs,
    run.2 = set_client c (extend evs w)
    /\ prompts evs = [] /\ opened evs = []
    /\ match run.1 with
       | Ok out =>
         exists ts,
           out = acc ++ (Some <$> ts)
           /\ Forall2 (fun text t =>
                         t = text
                         \/ exists c0 request s,
                              first_text (create c0 request).1 = Ok s
                              /\ t = clean_result s) texts ts
           /\ Z.of_nat (pauses evs) = (i + len texts - 1) / 5 - (i - 1) / 5
       | Raise e => e = KeyError sc /\ LANGUAGE_CODES !! sc = None
       end.
Proof.
  induction texts as [|text texts IH]; intros i acc w run; subst run.
  - cbn [main_loop]. exists (client w), []. rewrite extend_nil.
    split; [by destruct w |]. do 2 (split; [done |]). cbn [fst ret].
    exists []. split; [by rewrite app_nil_r |]. split; [constructor |].
    unfold len. cbn [length]. change (pauses []) with 0%nat.
    replace (i + Z.of_nat 0 - 1) with (i - 1) by lia. lia.
  - destruct (main_loop create exn_text LANGUAGE_CODES n sc tl i
                (text :: texts) acc w) as [r w'] eqn:Hrun.
    cbn [fst snd]. cbn [main_loop] in Hrun.
    rewrite (bind_ok _ _ _ _ _ (print_run _ _)) in Hrun.
    rewrite (bind_ok _ _ _ _ _ (print_run _ _)) in Hrun.
    rewrite extend_extend in Hrun.
    match type of Hrun with context [extend ?l w] => set (pre := l) in Hrun end.
    assert (Hpre : prompts pre = [] /\ opened pre = [] /\ pauses pre = 0%nat)
      by (subst pre; by repeat split).
    destruct Hpre as (Hpre1 & Hpre2 & Hpre3).
    destruct (translate_to_language_any create exn_text LANGUAGE_CODES
                text sc tl 3 (extend pre w))
      as (c & evs & Hw & Hpr & Hop & Hwt & Hcase).
    unfold bind at 1 in Hrun.
    destruct (translate_to_language create exn_text LANGUAGE_CODES
                text sc tl 3 (extend pre w)) as [[x|e] w3];
      cbn [fst snd] in Hw, Hcase; subst w3.
    2:{ destruct Hcase as (-> & Hn & _ & _). injection Hrun as <- <-.
        exists c, (pre ++ evs).
        split; [by rewrite extend_extend |].
        rewrite prompts_app, opened_app, Hpr, Hop, Hpre1, Hpre2.
        by repeat split. }
    destruct Hcase as [Hx Hsome]. destruct Hsome as [t ->]; [lia |].
    specialize (Hx t eq_refl).
    rewrite (bind_ok _ _ _ _ _ (print_run _ _)) in Hrun.
    match type of Hrun with context [extend [printed ?s] _] => set (line := s) in Hrun end.
    set (w4 := extend [printed line] (set_client c (extend evs (extend pre w))))
      in Hrun.
    assert (Hpause : exists pe,
              (if i mod 5 =? 0 then sleep 1 else ret tt) w4 = (Ok tt, extend pe w4)
              /\ Z.of_nat (pauses pe) = i / 5 - (i - 1) / 5
              /\ prompts pe = [] /\ opened pe = []).
    { rewrite pause_every_fifth. destruct (i mod 5 =? 0).
      - exists [Sleep 1]. by rewrite sleep_run.
      - exists []. by rewrite extend_nil. }
    destruct Hpause as (pe & Hp & Hcount & Hppr & Hpop).
    rewrite (bind_ok _ _ _ _ _ Hp) in Hrun.
    specialize (IH (i + 1) (acc ++ [Some t]) (extend pe w4)). cbv zeta in IH.
    rewrite Hrun in IH. cbn [fst snd] in IH.
    destruct IH as (c' & evs' & Hw' & Hpr' & Hop' & Hcase').
    exists c', (pre ++ evs ++ [printed line] ++ pe ++ evs').
    split; [| split; [| split]].
    + rewrite Hw'. subst w4. unfold set_client, extend.
      cbn [files stdin client trace]. f_equal. by rewrite <- !app_assoc.
    + rewrite !prompts_app, Hpr, Hppr, Hpr', Hpre1. reflexivity.
    + rewrite !opened_app, Hop, Hpop, Hop', Hpre2. reflexivity.
    + destruct r as [out|e]; [| exact Hcase'].
      destruct Hcase' as (ts & -> & Hall & Hn).
      exists (t :: ts). split; [by rewrite <- app_assoc |].
      split; [by constructor |].
      rewrite !pauses_app, (pauses_none evs Hwt), Hpre3.
      change (pauses [printed line]) with 0%nat.
      cbn [Nat.add]. rewrite Nat2Z.inj_add, Hcount, Hn.
      unfold len. cbn [length]. rewrite Nat2Z.inj_succ.
      replace (i + 1 + Z.of_nat (length texts) - 1)
        with (i + Z.succ (Z.of_nat (length texts)) - 1) by lia.
      replace (i + 1 - 1) with i by lia. lia.
Qed.

(** X18.  Line 195: in a loop that goes to its end from the index 1, as [main]
    starts it, there is one translation for each text and one pause of one
    second for each five texts: after the 5th, the 10th, ...; the waits
    between the attempts of the client are never pauses of one second. *)
Theorem main_loop_pauses n sc tl texts (w w' : World C) out :
  main_loop create exn_text LANGUAGE_CODES n sc tl 1 texts [] w = (Ok out, w') ->
  Z.of_nat (pauses (events_since w w')) = len texts / 5
  /\ length out = length texts.
Proof.
  intros Hrun.
  destruct (main_loop_run n sc tl texts 1 [] w) as (c & evs & Hw & _ & _ & Hcase).
  cbv zeta in Hw, Hcase. rewrite Hrun in Hw, Hcase. cbn [fst snd] in Hw, Hcase.
  destruct Hcase as (ts & -> & Hall & Hn). subst w'.
  rewrite events_since_client, Hn. split.
  - replace (1 + len texts - 1) with (len texts) by lia.
    replace (1 - 1) with 0 by lia. change (0 / 5) with 0. lia.
  - rewrite app_nil_l, length_fmap. symmetry. by eapply Forall2_length.
Qed.

(** X19.  The exceptions that can reach the handler of [main]: the file is
    missing or cannot be decoded; the input ends at a prompt; a text cannot
    be encoded for the result file; or the reverse directory gave, for the
    source language, a code that the directory does not hold.  A failure of
    the service is never among them: the client has absorbed it. *)
Theorem main_body_raises (w w' : World C) e :
  main_body create gbk_decode exn_text LANGUAGE_CODES REVERSE_LANGUAGE_CODES w
  = (Raise e, w') ->
  e = FileNotFoundError (u "language.csv")
  \/ e = UnicodeDecodeError
  \/ e = EOFError
  \/ e = UnicodeEncodeError
  \/ (exists name code,
        e = KeyError code /\ REVERSE_LANGUAGE_CODES !! name = Some code
        /\ LANGUAGE_CODES !! code = None).
Proof.
  intros Hrun. unfold main_body in Hrun.
  apply bind_raise_inv in Hrun as [Hr | (records & w1 & _ & Hrun)].
  { apply read_source_file_raise_inv in Hr as [-> | ->]; [by left | right; by left]. }
  cbv beta in Hrun.
  destruct (negb (nonempty records)); [discriminate Hrun |].
  rewrite (bind_ok _ _ _ _ _ (print_run _ _)) in Hrun.
  rewrite (bind_ok _ _ _ _ _ (print_run _ _)) in Hrun.
  apply bind_raise_inv in Hrun as [Hs | ([sc sn] & w2 & Hs & Hrun)];
    rewrite get_source_language_eq in Hs.
  { apply selector_raise_inv in Hs as ->. right; right; by left. }
  apply selector_ok_inv in Hs. cbv beta iota in Hrun.
  apply bind_raise_inv in Hrun as [Ht | ([tc tn] & w3 & _ & Hrun)].
  { rewrite get_target_language_eq in Ht.
    apply selector_raise_inv in Ht as ->. right; right; by left. }
  cbv beta iota in Hrun.
  rewrite (bind_ok _ _ _ _ _ (print_run _ _)) in Hrun.
  apply bind_raise_inv in Hrun as [Hl | (out & w4 & _ & Hrun)].
  { destruct (main_loop_run (len records) sc tn records 1 []
                (extend [printed (nl ++ u "开始将" ++ sn ++ u "翻译为" ++ tn
                                  ++ u "...")] w3))
      as (c & evs & _ & _ & _ & Hcase).
    cbv zeta in Hcase. rewrite Hl in Hcase. cbn [fst] in Hcase.
    destruct Hcase as [-> Hn]. destruct Hs as [Hs | Hs]; [congruence |].
    do 4 right. by exists sn, sc. }
  cbv beta zeta in Hrun.
  apply bind_raise_inv in Hrun as [Hw | ([] & w5 & _ & Hrun)].
  { apply write_translated_file_raise_inv in Hw as ->. do 3 right. by left. }
  rewrite (bind_ok _ _ _ _ _ (print_run _ _)) in Hrun.
  apply bind_raise_inv in Hrun as [Hi | (key & w6 & _ & Hrun)]; [| done].
  cbv beta in Hi.
  rewrite input_run in Hi. destruct (stdin _); [| done].
  injection Hi as <- _. right; right; by left.
Qed.

(** X20.  A run that goes well.  The file [language.csv] can be decoded to a
    text of Unicode scalar values with at least one record; the operator
    types a code of the directory for the source language, a code for the
    target language, and one more line; the name of the source language can
    be encoded, and so can every answer of the service.  Then [main] ends
    without an exception, has read these three lines and no more, and has
    written, whatever the service did, the result file named after the two
    codes: decoded, it is the header row and one row for each record, in
    order; the other files are as they were. *)
Theorem main_completes (w : World C) b text a1 a2 key rest sname tname :
  files w !! u "language.csv" = Some b ->
  Spec.decoded gbk_decode b = Some text ->
  Utf8.valid text = true ->
  Spec.clean_lines (split_lines [] text) <> [] ->
  stdin w = a1 :: a2 :: key :: rest ->
  LANGUAGE_CODES !! Py.strip a1 = Some sname ->
  LANGUAGE_CODES !! Py.strip a2 = Some tname ->
  Utf8.valid sname = true ->
  (forall c request s,
     first_text (create c request).1 = Ok s -> Utf8.valid s = true) ->
  let records := Spec.clean_lines (split_lines [] text) in
  let output_file :=
    u "translated_" ++ Py.strip a1 ++ u "_to_" ++ Py.strip a2 ++ u ".csv" in
  exists w' translated,
    main create gbk_decode exn_text LANGUAGE_CODES REVERSE_LANGUAGE_CODES w
    = (Ok tt, w')
    /\ stdin w' = rest
    /\ length translated = length records
    /\ files w' !! output_file ≫= Utf8.decode
       = Some (output_text sname records (Some <$> translated))
    /\ (forall p, p <> output_file -> files w' !! p = files w !! p).
Proof.
  intros Hf Hd Hv Hne Hin Hc1 Hc2 Hvs Hservice records output_file.
  subst output_file. subst records.
  remember (Spec.clean_lines (split_lines [] text)) as records eqn:Er.
  assert (Hnon : negb (nonempty records) = false)
    by (destruct records; [done | reflexivity]).
  destruct (main_body create gbk_decode exn_text LANGUAGE_CODES
              REVERSE_LANGUAGE_CODES w) as [r w'] eqn:Hrun.
  assert (Hmain : main create gbk_decode exn_text LANGUAGE_CODES
                    REVERSE_LANGUAGE_CODES w
                  = match r with
                    | Ok a => (Ok a, w')
                    | Raise e =>
                      (print (u "发生错误: " ++ exn_text e) >>
                       input (nl ++ u "按任意键退出...") >> ret tt) w'
                    end).
  { unfold main, try_except. rewrite Hrun. by destruct r. }
  rewrite Hmain. clear Hmain.
  pose proof (clean_lines_valid text Hv) as Hvr. rewrite <- Er in Hvr.
  unfold main_body in Hrun.
  destruct (read_source_file_ok gbk_decode (u "language.csv") w b text Hf Hd)
    as (ops & Hread & _). rewrite <- Er in Hread.
  rewrite (bind_ok _ _ _ _ _ Hread) in Hrun. cbv beta in Hrun.
  rewrite Hnon in Hrun.
  rewrite (bind_ok _ _ _ _ _ (print_run _ _)) in Hrun.
  rewrite (bind_ok _ _ _ _ _ (print_run _ _)) in Hrun.
  erewrite bind_ok in Hrun
    by (rewrite get_source_language_eq; apply selector_accepts;
        [exact Hin | exact Hc1]).
  cbv beta iota in Hrun.
  erewrite bind_ok in Hrun
    by (rewrite get_target_language_eq; apply selector_accepts;
        [reflexivity | exact Hc2]).
  cbv beta iota in Hrun.
  rewrite (bind_ok _ _ _ _ _ (print_run _ _)) in Hrun.
  match type of Hrun with
  | context [bind (main_loop _ _ _ _ _ _ _ _ _) _ ?W] => set (w3 := W) in Hrun
  end.
  assert (Hin3 : stdin w3 = key :: rest) by reflexivity.
  assert (Hf3 : files w3 = files w) by reflexivity.
  clearbody w3.
  destruct (main_loop_run (len records) (Py.strip a1) tname records 1 [] w3)
    as (c & evs & Hw & _ & _ & Hcase).
  cbv zeta in Hw, Hcase.
  destruct (main_loop create exn_text LANGUAGE_CODES (len records)
              (Py.strip a1) tname 1 records [] w3) as [[out|e] w4] eqn:Hloop;
    cbn [fst snd] in Hw, Hcase; [| destruct Hcase; congruence].
  destruct Hcase as (ts & -> & Hall & _). subst w4.
  rewrite (bind_ok _ _ _ _ _ Hloop) in Hrun. cbv beta zeta in Hrun.
  rewrite app_nil_l in Hrun.
  assert (Hvt : forallb Utf8.valid ts = true).
  { apply forallb_Forall. rewrite forallb_Forall in Hvr.
    clear - Hall Hvr Hservice. induction Hall as [|x t xs ts' Hxt _ IH];
      [constructor |].
    apply Forall_cons in Hvr as [Hx Hxs]. constructor; [| by apply IH].
    destruct Hxt as [-> | (c0 & request & s & Hs & ->)]; [done |].
    apply (valid_sublist _ s); [apply clean_result_sublist |].
    by eapply Hservice. }
  destruct (valid_output_text sname records (Some <$> ts) Hvs Hvr
              (valid_some _ Hvt)) as [b' Hb'].
  rewrite (bind_ok _ _ _ _ _ (write_translated_file_run _ _ _ _ _ _ Hb')) in Hrun.
  rewrite (bind_ok _ _ _ _ _ (print_run _ _)) in Hrun.
  unfold bind at 1 in Hrun. rewrite input_run in Hrun.
  cbn [stdin extend set_file set_client] in Hrun. rewrite Hin3 in Hrun.
  unfold ret in Hrun. injection Hrun as <- <-.
  eexists _, ts. split; [reflexivity |].
  cbn [stdin files set_stdin extend set_file set_client]. rewrite Hf3.
  split; [done |]. split; [symmetry; by eapply Forall2_length |]. split.
  - rewrite lookup_insert_eq. cbn [mbind option_bind].
    by apply Utf8Facts.decode_encode.
  - intros p Hp. by rewrite lookup_insert_ne.
Qed.

End Run.

(** * The theorems at work on concrete runs *)

(** C1 on a service that is down. *)
Lemma translate_to_language_all_attempts_fail_witness :
  let w := Sample.world ∅ [] 0%nat in
  let run := translate_to_language Sample.down Sample.exn_text Sample.codes
               (u "hello") (u "en") (u "中文") 3 w in
  Py.strip (u "hello") <> []
  /\ Sample.codes !! u "en" = Some (u "英文")
  /\ forallb failed (calls (events_since w run.2)) = true
  /\ run.1 = Ok (Some (u "hello"))
  /\ length (calls (events_since w run.2)) = 3%nat
  /\ waits (events_since w run.2) = [2; 4].
Proof.
  intros w run.
  assert (H1 : Py.strip (u "hello") <> []) by (vm_compute; discriminate).
  assert (H2 : Sample.codes !! u "en" = Some (u "英文"))
    by (vm_compute; reflexivity).
  assert (H3 : forallb failed (calls (events_since w run.2)) = true)
    by (vm_compute; reflexivity).
  destruct (translate_to_language_all_attempts_fail Sample.down Sample.exn_text
              Sample.codes (u "hello") (u "en") (u "中文") (u "英文") w run.2 run.1
              H1 H2 (surjective_pairing _) H3)
    as (o1 & o2 & o3 & e1 & e2 & e3 & _ & _ & _ & Hr & _ & Hl & Hw).
  repeat split; assumption.
Defined.

(** C2 on a text of a space, an ideographic space and a tab. *)
Lemma translate_to_language_blank_witness :
  let w := Sample.world ∅ [] 0%nat in
  Forall (fun c => Py.isspace c = true) [32; 0x3000; 9]
  /\ translate_to_language Sample.down Sample.exn_text Sample.codes
       [32; 0x3000; 9] (u "en") (u "中文") 3 w
     = (Ok (Some [32; 0x3000; 9]), w).
Proof.
  intros w.
  assert (H : Forall (fun c => Py.isspace c = true) [32; 0x3000; 9])
    by (repeat constructor).
  split; [exact H |].
  exact (translate_to_language_blank Sample.down Sample.exn_text Sample.codes
           [32; 0x3000; 9] (u "en") (u "中文") 3 w H).
Defined.

(** C3 on a completion in quotes, with a mark at its end. *)
Lemma translate_to_language_first_attempt_witness :
  let w := Sample.world ∅ [] [Sample.completion (u " 'Hello!' ")] in
  let request := request_of (system_prompt_of (u "中文") (u "英文")) (u "你好") in
  Py.strip (u "你好") <> []
  /\ Sample.codes !! u "zh" = Some (u "中文")
  /\ 0 < 3
  /\ Sample.scripted (client w) request
     = (Sample.completion (u " 'Hello!' "), [])
  /\ (translate_to_language Sample.scripted Sample.exn_text Sample.codes
        (u "你好") (u "zh") (u "英文") 3 w).1
     = Ok (Some (u "Hello")).
Proof.
  intros w request.
  assert (H1 : Py.strip (u "你好") <> []) by (vm_compute; discriminate).
  assert (H2 : Sample.codes !! u "zh" = Some (u "中文"))
    by (vm_compute; reflexivity).
  assert (H3 : 0 < 3) by lia.
  assert (H4 : Sample.scripted (client w) request
               = (Sample.completion (u " 'Hello!' "), [])) by reflexivity.
  repeat (split; [assumption |]).
  rewrite (translate_to_language_first_attempt Sample.scripted Sample.exn_text
             Sample.codes (u "你好") (u "zh") (u "英文") (u "中文") 3 w _ _ _ _
             (u " 'Hello!' ") H1 H2 H3 H4 eq_refl eq_refl).
  vm_compute. reflexivity.
Defined.

(** C4 on a file of a header and three lines. *)
Lemma read_source_file_header_and_three_lines_witness :
  let hdr := u "source language," ++ [10] in
  let c := u "abc," ++ [10] in
  let e := [32; 10] in
  let n := u "def" ++ [10] in
  let text := hdr ++ c ++ e ++ n in
  let w := Sample.world (C := nat)
             {[ u "language.csv" := octets "source language," ++ [10]
                  ++ octets "abc," ++ [10; 32; 10] ++ octets "def" ++ [10] ]}
             [] 0%nat in
  split_lines [] text = [hdr; c; e; n]
  /\ Spec.is_header hdr = true
  /\ Py.strip c = u "abc" ++ u ","
  /\ Py.strip e = []
  /\ Py.strip n = u "def"
  /\ (read_source_file Sample.gbk_decode (u "language.csv") w).1
     = Ok [u "abc"; u "def"].
Proof.
  intros hdr c e n text w.
  assert (H1 : split_lines [] text = hdr :: [c; e; n]) by (vm_compute; reflexivity).
  assert (H2 : Spec.is_header hdr = true) by (vm_compute; reflexivity).
  assert (H3 : Py.strip c = u "abc" ++ u ",") by (vm_compute; reflexivity).
  assert (H4 : Py.strip e = []) by (vm_compute; reflexivity).
  assert (H5 : Py.strip n = u "def") by (vm_compute; reflexivity).
  repeat (split; [assumption |]).
  assert (Hf : files w !! u "language.csv"
               = Some (octets "source language," ++ [10] ++ octets "abc,"
                       ++ [10; 32; 10] ++ octets "def" ++ [10]))
    by (vm_compute; reflexivity).
  assert (Hd : Spec.decoded Sample.gbk_decode
                 (octets "source language," ++ [10] ++ octets "abc,"
                  ++ [10; 32; 10] ++ octets "def" ++ [10]) = Some text)
    by (vm_compute; reflexivity).
  assert (Hb : u "abc" <> []) by (vm_compute; discriminate).
  assert (Hc : Spec.is_header c = false) by (vm_compute; reflexivity).
  assert (Hn : Py.strip n <> []) by (vm_compute; discriminate).
  assert (He : Py.endswith (Py.strip n) (u ",") = false)
    by (vm_compute; reflexivity).
  destruct (read_source_file_header_and_three_lines Sample.gbk_decode
              (u "language.csv") w _ text hdr c e n (u "abc") [c; e; n]
              Hf Hd H1 (reflexivity _) H2 H3 Hb Hc H4 Hn He) as [Hr _].
  rewrite Hr. vm_compute. reflexivity.
Defined.

(** C5 on a file that is GBK and not utf-8. *)
Lemma read_source_file_fallback_witness :
  let b := [0xC4; 0xE3; 0xBA; 0xC3; 10] in
  let w := Sample.world (C := nat) {[ u "language.csv" := b ]} [] 0%nat in
  let run := read_source_file Sample.gbk_decode (u "language.csv") w in
  files w !! u "language.csv" = Some b
  /\ Utf8.decode b = None
  /\ opened (events_since w run.2) = [utf_8; gbk]
  /\ run.1 = Ok [u "你好"].
Proof.
  intros b w run.
  assert (Hf : files w !! u "language.csv" = Some b) by (vm_compute; reflexivity).
  assert (Hd : Utf8.decode b = None) by (vm_compute; reflexivity).
  repeat (split; [assumption |]).
  pose proof (read_source_file_fallback Sample.gbk_decode (u "language.csv")
                w b Hf) as H.
  cbv zeta in H. rewrite Hd in H. destruct H as [Ho Hr].
  split; [exact Ho |].
  change (Sample.gbk_decode b) with (Some (u "你好" ++ [10])) in Hr.
  etrans; [exact Hr |]. vm_compute. reflexivity.
Defined.

(** C10 on a file with the header between two lines. *)
Lemma read_source_file_drops_header_witness :
  let b := octets "a" ++ [10] ++ octets "Source Language," ++ [10]
           ++ octets "b" ++ [10] in
  let text := u "a" ++ [10] ++ u "Source Language," ++ [10] ++ u "b" ++ [10] in
  let w := Sample.world (C := nat) {[ u "language.csv" := b ]} [] 0%nat in
  files w !! u "language.csv" = Some b
  /\ Spec.decoded Sample.gbk_decode b = Some text
  /\ split_lines [] text
     = [u "a" ++ [10]] ++ (u "Source Language," ++ [10]) :: [u "b" ++ [10]]
  /\ Spec.is_header (u "Source Language," ++ [10]) = true
  /\ (read_source_file Sample.gbk_decode (u "language.csv") w).1
     = Ok [u "a"; u "b"].
Proof.
  intros b text w.
  assert (Hf : files w !! u "language.csv" = Some b) by (vm_compute; reflexivity).
  assert (Hd : Spec.decoded Sample.gbk_decode b = Some text)
    by (vm_compute; reflexivity).
  assert (Hl : split_lines [] text
     = [u "a" ++ [10]] ++ (u "Source Language," ++ [10]) :: [u "b" ++ [10]])
    by (vm_compute; reflexivity).
  assert (Hh : Spec.is_header (u "Source Language," ++ [10]) = true)
    by (vm_compute; reflexivity).
  repeat (split; [assumption |]).
  rewrite (proj1 (read_source_file_drops_header Sample.gbk_decode
                    (u "language.csv") w b text Hf Hd) _ _ _ Hl Hh).
  vm_compute. reflexivity.
Defined.

(** C6 on a rejected answer followed by a name with spaces around it. *)
Lemma selector_resolves_witness :
  let w := Sample.world (C := nat) ∅ [u "xx"; u " 英文 "; u "zh"] 0%nat in
  let run := selector Sample.codes Sample.names source w in
  Forall (rejected Sample.codes Sample.names) [u "xx"]
  /\ stdin w = [u "xx"] ++ u " 英文 " :: [u "zh"]
  /\ Sample.codes !! Py.strip (u " 英文 ") = None
  /\ Sample.names !! Py.strip (u " 英文 ") = Some (u "en")
  /\ run.1 = Ok (u "en", u "英文")
  /\ stdin run.2 = [u "zh"]
  /\ prompts (events_since w run.2) = [prompt_of source; prompt_of source].
Proof.
  intros w run.
  assert (H1 : Forall (rejected Sample.codes Sample.names) [u "xx"]).
  { constructor; [| constructor]. split; vm_compute; reflexivity. }
  assert (H2 : stdin w = [u "xx"] ++ u " 英文 " :: [u "zh"]) by reflexivity.
  assert (H3 : Sample.codes !! Py.strip (u " 英文 ") = None)
    by (vm_compute; reflexivity).
  assert (H4 : Sample.names !! Py.strip (u " 英文 ") = Some (u "en"))
    by (vm_compute; reflexivity).
  repeat (split; [assumption |]).
  destruct (proj1 (proj2 (selector_resolves Sample.codes Sample.names source w
                            [u "xx"] (u " 英文 ") [u "zh"] H1 H2)) H3 _ H4)
    as (Hr & Hs & Hp).
  split; [| split; assumption].
  etrans; [exact Hr |]. vm_compute. reflexivity.
Defined.

(** C8 on the example of the specification. *)
Lemma write_translated_file_rows_witness :
  let originals := [u "hello"; u "world"] in
  let translations := [u "你好"; u "世界"] in
  let w := Sample.world (C := nat) ∅ [] 0%nat in
  let run := write_translated_file (u "out.csv") originals
               (Some <$> translations) (u "英文") w in
  length originals = length translations
  /\ Utf8.valid (u "英文") = true
  /\ forallb Utf8.valid originals = true
  /\ forallb Utf8.valid translations = true
  /\ run.1 = Ok tt
  /\ zip_with (data_row (u "英文")) originals (Some <$> translations)
     = [u "hello,英文,你好" ++ [13; 10]; u "world,英文,世界" ++ [13; 10]]
  /\ exists b,
       Utf8.encode (u "Original Text,Source Language,Translated Text"
                    ++ [13; 10] ++ u "hello,英文,你好" ++ [13; 10]
                    ++ u "world,英文,世界" ++ [13; 10]) = Some b
       /\ files run.2 = <[u "out.csv" := b]> (files w).
Proof.
  intros originals translations w run.
  assert (H1 : length originals = length translations) by reflexivity.
  assert (H2 : Utf8.valid (u "英文") = true) by (vm_compute; reflexivity).
  assert (H3 : forallb Utf8.valid originals = true) by (vm_compute; reflexivity).
  assert (H4 : forallb Utf8.valid translations = true)
    by (vm_compute; reflexivity).
  repeat (split; [assumption |]).
  destruct (write_translated_file_rows (u "out.csv") originals translations
              (u "英文") w H1 H2 H3 H4) as (Hr & (b & Hb & Hf) & _ & _).
  split; [exact Hr |]. split; [vm_compute; reflexivity |].
  exists b. split; [| exact Hf].
  etrans; [| exact Hb]. vm_compute. reflexivity.
Defined.

(** C9 on three originals and two translations. *)
Lemma write_translated_file_unequal_witness :
  let originals := [u "hello"; u "world"; u "more"] in
  let translations := [u "你好"; u "世界"] in
  let w := Sample.world (C := nat) ∅ [] 0%nat in
  let run := write_translated_file (u "out.csv") originals
               (Some <$> translations) (u "英文") w in
  Utf8.valid (u "英文") = true
  /\ forallb Utf8.valid originals = true
  /\ forallb Utf8.valid translations = true
  /\ run.1 = Ok tt
  /\ exists b,
       Utf8.encode (u "Original Text,Source Language,Translated Text"
                    ++ [13; 10] ++ u "hello,英文,你好" ++ [13; 10]
                    ++ u "world,英文,世界" ++ [13; 10]) = Some b
       /\ files run.2 = <[u "out.csv" := b]> (files w).
Proof.
  intros originals translations w run.
  assert (H2 : Utf8.valid (u "英文") = true) by (vm_compute; reflexivity).
  assert (H3 : forallb Utf8.valid originals = true) by (vm_compute; reflexivity).
  assert (H4 : forallb Utf8.valid translations = true)
    by (vm_compute; reflexivity).
  repeat (split; [assumption |]).
  destruct (write_translated_file_unequal (u "out.csv") originals translations
              (u "英文") w H2 H3 H4) as (Hr & _ & (b & Hb & Hf)).
  split; [exact Hr |]. exists b. split; [| exact Hf].
  etrans; [| exact Hb]. vm_compute. reflexivity.
Defined.


(** * The further theorems at work on concrete runs *)

(** No attempt allowed: nothing is sent, [None] is returned. *)
Lemma translate_to_language_no_attempt_witness :
  let w := Sample.world ∅ [] 0%nat in
  Py.strip (u "hello") <> []
  /\ Sample.codes !! u "en" = Some (u "英文")
  /\ 0 <= 0
  /\ translate_to_language Sample.down Sample.exn_text Sample.codes
       (u "hello") (u "en") (u "中文") 0 w
     = (Ok None, w).
Proof.
  intros w.
  assert (H1 : Py.strip (u "hello") <> []) by (vm_compute; discriminate).
  assert (H2 : Sample.codes !! u "en" = Some (u "英文"))
    by (vm_compute; reflexivity).
  assert (H3 : 0 <= 0) by lia.
  exact (conj H1 (conj H2 (conj H3
           (translate_to_language_no_attempt Sample.down Sample.exn_text
              Sample.codes (u "hello") (u "en") (u "中文") (u "英文") 0 w
              H1 H2 H3)))).
Defined.

(** A code that the directory does not hold: [KeyError], nothing done. *)
Lemma translate_to_language_raises_witness :
  let w := Sample.world ∅ [] 0%nat in
  Py.strip (u "hello") <> []
  /\ Sample.codes !! u "xx" = None
  /\ translate_to_language Sample.down Sample.exn_text Sample.codes
       (u "hello") (u "xx") (u "中文") 3 w
     = (Raise (KeyError (u "xx")), w).
Proof.
  intros w.
  assert (H1 : Py.strip (u "hello") <> []) by (vm_compute; discriminate).
  assert (H2 : Sample.codes !! u "xx" = None) by (vm_compute; reflexivity).
  exact (conj H1 (conj H2
           (proj2 (translate_to_language_raises Sample.down Sample.exn_text
                     Sample.codes (u "hello") (u "xx") (u "中文") 3 w w
                     (KeyError (u "xx")))
              (conj H1 (conj H2 (conj eq_refl eq_refl)))))).
Defined.

(** Two attempts on a service that is down: two calls with the one
    request, and the text is returned. *)
Lemma translate_to_language_calls_witness :
  let w := Sample.world ∅ [] 0%nat in
  let run := translate_to_language Sample.down Sample.exn_text Sample.codes
               (u "hello") (u "en") (u "中文") 2 w in
  let request := request_of (system_prompt_of (u "英文") (u "中文")) (u "hello") in
  Py.strip (u "hello") <> []
  /\ Sample.codes !! u "en" = Some (u "英文")
  /\ (length (calls (events_since w run.2)) <= 2)%nat
  /\ requests (events_since w run.2)
     = replicate (length (calls (events_since w run.2))) request
  /\ requests (events_since w run.2) = [request; request].
Proof.
  intros w run request.
  assert (H1 : Py.strip (u "hello") <> []) by (vm_compute; discriminate).
  assert (H2 : Sample.codes !! u "en" = Some (u "英文"))
    by (vm_compute; reflexivity).
  destruct (translate_to_language_calls Sample.down Sample.exn_text
              Sample.codes (u "hello") (u "en") (u "中文") (u "英文") 2 w H1 H2)
    as (Hlen & Hreq & _ & _).
  refine (conj H1 (conj H2 (conj Hlen (conj Hreq _)))).
  fold run in Hreq. rewrite Hreq. vm_compute. reflexivity.
Defined.

(** Five attempts on a service that is down: five calls, waits of 2, 4, 6
    and 8 seconds, and the text is returned. *)
Lemma translate_to_language_gives_up_witness :
  let w := Sample.world ∅ [] 0%nat in
  let run := translate_to_language Sample.down Sample.exn_text Sample.codes
               (u "hello") (u "en") (u "中文") 5 w in
  let request := request_of (system_prompt_of (u "英文") (u "中文")) (u "hello") in
  Py.strip (u "hello") <> []
  /\ Sample.codes !! u "en" = Some (u "英文")
  /\ 0 < 5
  /\ Forall (fun o => failed o = true) (outcomes Sample.down request 5 0%nat)
  /\ run.1 = Ok (Some (u "hello"))
  /\ length (calls (events_since w run.2)) = 5%nat
  /\ waits (events_since w run.2) = [2; 4; 6; 8]
  /\ client run.2 = 5%nat.
Proof.
  intros w run request.
  assert (H1 : Py.strip (u "hello") <> []) by (vm_compute; discriminate).
  assert (H2 : Sample.codes !! u "en" = Some (u "英文"))
    by (vm_compute; reflexivity).
  assert (H3 : 0 < 5) by lia.
  assert (H4 : Forall (fun o => failed o = true)
                 (outcomes Sample.down request 5 0%nat))
    by (repeat constructor).
  destruct (translate_to_language_gives_up Sample.down Sample.exn_text
              Sample.codes (u "hello") (u "en") (u "中文") (u "英文") 5 w
              H1 H2 H3 H4)
    as (Hr & Hc & Hw & Hcl).
  fold run in Hr, Hc, Hw, Hcl.
  refine (conj H1 (conj H2 (conj H3 (conj H4 (conj Hr (conj _ (conj _ _))))))).
  - rewrite Hc. reflexivity.
  - rewrite Hw. reflexivity.
  - rewrite Hcl. reflexivity.
Defined.

(** Two failures, then an answer in quotes with a mark at its end: three
    calls, waits of 2 and 4 seconds, and the answer cleaned. *)
Lemma translate_to_language_succeeds_after_witness :
  let script := [ Raise (APIError (u "timeout")); Ok {| choices := [] |};
                  Sample.completion (u " 'Hello!' ") ] in
  let w := Sample.world ∅ [] script in
  let run := translate_to_language Sample.scripted Sample.exn_text Sample.codes
               (u "你好") (u "zh") (u "英文") 3 w in
  let request := request_of (system_prompt_of (u "中文") (u "英文")) (u "你好") in
  Py.strip (u "你好") <> []
  /\ Sample.codes !! u "zh" = Some (u "中文")
  /\ Z.of_nat 2 < 3
  /\ Forall (fun o => failed o = true) (outcomes Sample.scripted request 2 script)
  /\ first_text (Sample.scripted
                   (after_calls Sample.scripted request 2 script) request).1
     = Ok (u " 'Hello!' ")
  /\ run.1 = Ok (Some (u "Hello"))
  /\ length (calls (events_since w run.2)) = 3%nat
  /\ waits (events_since w run.2) = [2; 4].
Proof.
  intros script w run request.
  assert (H1 : Py.strip (u "你好") <> []) by (vm_compute; discriminate).
  assert (H2 : Sample.codes !! u "zh" = Some (u "中文"))
    by (vm_compute; reflexivity).
  assert (H3 : Z.of_nat 2 < 3) by lia.
  assert (H4 : Forall (fun o => failed o = true)
                 (outcomes Sample.scripted request 2 script))
    by (repeat constructor).
  assert (H5 : first_text (Sample.scripted
                             (after_calls Sample.scripted request 2 script)
                             request).1
               = Ok (u " 'Hello!' ")) by reflexivity.
  destruct (translate_to_language_succeeds_after Sample.scripted Sample.exn_text
              Sample.codes (u "你好") (u "zh") (u "英文") (u "中文") 3 2 w
              (u " 'Hello!' ") H1 H2 H3 H4 H5)
    as (Hr & Hc & Hw).
  fold run in Hr, Hc, Hw.
  refine (conj H1 (conj H2 (conj H3 (conj H4 (conj H5 (conj _ (conj _ _))))))).
  - rewrite Hr. vm_compute. reflexivity.
  - rewrite Hc. reflexivity.
  - rewrite Hw. reflexivity.
Defined.

(** Octets that are neither utf-8 nor GBK as the sample decodes it: the
    decode error leaves the reader after the two attempts. *)
Lemma read_source_file_raises_witness :
  let w := Sample.world (C := nat) {[ u "language.csv" := [0xFF; 0xFE] ]} [] 0%nat in
  files w !! u "language.csv" = Some [0xFF; 0xFE]
  /\ Utf8.decode [0xFF; 0xFE] = None
  /\ Sample.gbk_decode [0xFF; 0xFE] = None
  /\ read_source_file Sample.gbk_decode (u "language.csv") w
     = (Raise UnicodeDecodeError,
        extend [ Open (u "language.csv") mode_r utf_8;
                 Open (u "language.csv") mode_r gbk ] w).
Proof.
  intros w.
  assert (H1 : files w !! u "language.csv" = Some [0xFF; 0xFE])
    by (vm_compute; reflexivity).
  assert (H2 : Utf8.decode [0xFF; 0xFE] = None) by reflexivity.
  assert (H3 : Sample.gbk_decode [0xFF; 0xFE] = None) by reflexivity.
  refine (conj H1 (conj H2 (conj H3 _))).
  apply (proj2 (read_source_file_raises Sample.gbk_decode (u "language.csv")
                  w _ UnicodeDecodeError)).
  right. exists [0xFF; 0xFE]. exact (conj H1 (conj H2 (conj H3 (conj eq_refl eq_refl)))).
Defined.

(** A file with CR LF line ends, a line with spaces around its text and a
    comma at its end, and an empty line. *)
Lemma read_source_file_records_witness :
  let b := octets "hello," ++ [13; 10] ++ octets "  big world ,  " ++ [13; 10; 13; 10]
           ++ octets "bye" in
  let w := Sample.world (C := nat) {[ u "language.csv" := b ]} [] 0%nat in
  let run := read_source_file Sample.gbk_decode (u "language.csv") w in
  let records := [u "hello"; u "big world "; u "bye"] in
  run = (Ok records, run.2)
  /\ Forall (fun r => r <> [] /\ Py.lstrip r = r
                      /\ Forall (fun c => line_break c = false) r) records
  /\ files run.2 = files w /\ stdin run.2 = stdin w /\ client run.2 = client w.
Proof.
  intros b w run records.
  assert (H1 : run = (Ok records, run.2)) by (vm_compute; reflexivity).
  exact (conj H1 (read_source_file_records Sample.gbk_decode (u "language.csv")
                    w run.2 records H1)).
Defined.

(** A record with a comma, and a translation that is [None]: the file read
    back has the record in quotes and an empty cell. *)
Lemma write_translated_file_read_back_witness :
  let w := Sample.world (C := nat) {[ u "out.csv" := octets "old" ]} [] 0%nat in
  let run := write_translated_file (u "out.csv") [u "hello"; u "a,b"]
               [Some (u "你好"); None] (u "英文") w in
  Utf8.valid (u "英文") = true
  /\ forallb Utf8.valid [u "hello"; u "a,b"] = true
  /\ forallb (fun t => Utf8.valid (Csv.cell_text t)) [Some (u "你好"); None] = true
  /\ run.1 = Ok tt
  /\ files run.2 !! u "out.csv" ≫= Utf8.decode
     = Some (u "Original Text,Source Language,Translated Text" ++ [13; 10]
             ++ u "hello,英文,你好" ++ [13; 10]
             ++ [34] ++ u "a,b" ++ [34] ++ u ",英文," ++ [13; 10]).
Proof.
  intros w run.
  assert (H1 : Utf8.valid (u "英文") = true) by (vm_compute; reflexivity).
  assert (H2 : forallb Utf8.valid [u "hello"; u "a,b"] = true)
    by (vm_compute; reflexivity).
  assert (H3 : forallb (fun t => Utf8.valid (Csv.cell_text t))
                 [Some (u "你好"); None] = true) by (vm_compute; reflexivity).
  destruct (write_translated_file_read_back (u "out.csv") [u "hello"; u "a,b"]
              [Some (u "你好"); None] (u "英文") w H1 H2 H3) as (Hr & Hd & _).
  fold run in Hr, Hd.
  refine (conj H1 (conj H2 (conj H3 (conj Hr _)))).
  rewrite Hd. vm_compute. reflexivity.
Defined.

(** A second translation with a lone surrogate: the file is left with the
    header row and the first row. *)
Lemma write_translated_file_stops_witness :
  let w := Sample.world (C := nat) ∅ [] 0%nat in
  let originals := [u "hello"; u "world"; u "bye"] in
  let translated := [Some (u "你好"); Some [0xD800]; Some (u "再见")] in
  let run := write_translated_file (u "out.csv") originals translated (u "英文") w in
  originals !! 1%nat = Some (u "world")
  /\ translated !! 1%nat = Some (Some [0xD800])
  /\ Utf8.valid (output_text (u "英文") (take 1 originals) (take 1 translated)) = true
  /\ Utf8.valid (data_row (u "英文") (u "world") (Some [0xD800])) = false
  /\ run.1 = Raise UnicodeEncodeError
  /\ files run.2 !! u "out.csv" ≫= Utf8.decode
     = Some (u "Original Text,Source Language,Translated Text" ++ [13; 10]
             ++ u "hello,英文,你好" ++ [13; 10]).
Proof.
  intros w originals translated run.
  assert (H1 : originals !! 1%nat = Some (u "world")) by reflexivity.
  assert (H2 : translated !! 1%nat = Some (Some [0xD800])) by reflexivity.
  assert (H3 : Utf8.valid (output_text (u "英文") (take 1 originals)
                             (take 1 translated)) = true)
    by (vm_compute; reflexivity).
  assert (H4 : Utf8.valid (data_row (u "英文") (u "world") (Some [0xD800])) = false)
    by (vm_compute; reflexivity).
  destruct (write_translated_file_stops (u "out.csv") originals translated
              (u "英文") 1 (u "world") (Some [0xD800]) w H1 H2 H3 H4)
    as (Hr & b & Hb & Hf).
  fold run in Hr, Hf.
  refine (conj H1 (conj H2 (conj H3 (conj H4 (conj Hr _))))).
  rewrite Hf, lookup_insert_eq. cbn [mbind option_bind].
  rewrite (Utf8Facts.decode_encode _ _ Hb). vm_compute. reflexivity.
Defined.

(** The sample reverse directory holds only pairs of the sample directory;
    a name typed is resolved to an entry of the directory. *)
Lemma selector_returns_entry_witness :
  let w := Sample.world (C := nat) ∅ [u "法文"; u " 中文 "; u "en"] 0%nat in
  let run := selector Sample.codes Sample.names target w in
  inverse_of Sample.codes Sample.names
  /\ run = (Ok (u "zh", u "中文"), run.2)
  /\ Sample.codes !! u "zh" = Some (u "中文").
Proof.
  intros w run.
  assert (H1 : inverse_of Sample.codes Sample.names).
  { apply (bool_decide_unpack _). vm_compute. exact I. }
  assert (H2 : run = (Ok (u "zh", u "中文"), run.2)) by (vm_compute; reflexivity).
  exact (conj H1 (conj H2
           (selector_returns_entry Sample.codes Sample.names target w run.2
              (u "zh") (u "中文") H1 H2))).
Defined.

(** No file and nothing typed: the body raises, the handler prints, and the
    [EOFError] of its [input] leaves [main]. *)
Lemma main_raises_witness :
  let w := Sample.world ∅ [] 0%nat in
  let run := main Sample.down Sample.gbk_decode Sample.exn_text
               Sample.codes Sample.names w in
  run = (Raise EOFError, run.2)
  /\ exists e0 w1,
       main_body Sample.down Sample.gbk_decode Sample.exn_text
         Sample.codes Sample.names w = (Raise e0, w1)
       /\ stdin w1 = []
       /\ EOFError = EOFError
       /\ run.2 = extend [printed (u "发生错误: " ++ Sample.exn_text e0);
                          Input (nl ++ u "按任意键退出...")] w1.
Proof.
  intros w run.
  assert (H1 : run = (Raise EOFError, run.2)) by (vm_compute; reflexivity).
  exact (conj H1
           (proj1 (main_raises Sample.down Sample.gbk_decode Sample.exn_text
                     Sample.codes Sample.names w run.2 EOFError) H1)).
Defined.

(** No file, and a key typed. *)
Lemma main_source_file_missing_witness :
  let w := Sample.world ∅ [u "q"; u "later"] 0%nat in
  files w !! u "language.csv" = None
  /\ stdin w = [u "q"; u "later"]
  /\ main Sample.down Sample.gbk_decode Sample.exn_text
       Sample.codes Sample.names w
     = (Ok tt,
        set_stdin [u "later"]
          (extend [ Open (u "language.csv") mode_r utf_8;
                    printed (u "发生错误: "
                             ++ Sample.exn_text
                                  (FileNotFoundError (u "language.csv")));
                    Input (nl ++ u "按任意键退出...") ] w)).
Proof.
  intros w.
  assert (H1 : files w !! u "language.csv" = None) by reflexivity.
  assert (H2 : stdin w = [u "q"; u "later"]) by reflexivity.
  exact (conj H1 (conj H2
           (main_source_file_missing Sample.down Sample.gbk_decode
              Sample.exn_text Sample.codes Sample.names w (u "q") [u "later"]
              H1 H2))).
Defined.

(** A file with the header line and a line of spaces. *)
Lemma main_nothing_to_translate_witness :
  let b := octets "Source Language," ++ [10; 32; 32; 10] in
  let text := u "Source Language," ++ [10; 32; 32; 10] in
  let w := Sample.world {[ u "language.csv" := b ]} [u "en"] 0%nat in
  let run := main Sample.down Sample.gbk_decode Sample.exn_text
               Sample.codes Sample.names w in
  files w !! u "language.csv" = Some b
  /\ Spec.decoded Sample.gbk_decode b = Some text
  /\ Spec.clean_lines (split_lines [] text) = []
  /\ run.1 = Ok tt
  /\ stdin run.2 = [u "en"]
  /\ prompts (events_since w run.2) = []
  /\ calls (events_since w run.2) = []
  /\ last (trace run.2) = Some (printed (u "错误：源文件为空或未找到有效的文本")).
Proof.
  intros b text w run.
  assert (H1 : files w !! u "language.csv" = Some b) by (vm_compute; reflexivity).
  assert (H2 : Spec.decoded Sample.gbk_decode b = Some text)
    by (vm_compute; reflexivity).
  assert (H3 : Spec.clean_lines (split_lines [] text) = [])
    by (vm_compute; reflexivity).
  destruct (main_nothing_to_translate Sample.down Sample.gbk_decode
              Sample.exn_text Sample.codes Sample.names w b text H1 H2 H3)
    as (Hr & _ & Hin & _ & Hp & Hc & Hl).
  exact (conj H1 (conj H2 (conj H3 (conj Hr (conj Hin (conj Hp (conj Hc Hl))))))).
Defined.

(** Eleven texts on a service that is down: eleven translations, and two
    pauses of one second among the sleeps. *)
Lemma main_loop_pauses_witness :
  let w := Sample.world ∅ [] 0%nat in
  let texts := replicate 11 (u "hello") in
  let run := main_loop Sample.down Sample.exn_text Sample.codes 11
               (u "en") (u "中文") 1 texts [] w in
  run = (Ok (Some <$> texts), run.2)
  /\ Z.of_nat (pauses (events_since w run.2)) = 2
  /\ length (waits (events_since w run.2)) = 24%nat.
Proof.
  intros w texts run.
  assert (H1 : run = (Ok (Some <$> texts), run.2)) by (vm_compute; reflexivity).
  destruct (main_loop_pauses Sample.down Sample.exn_text Sample.codes 11
              (u "en") (u "中文") texts w run.2 (Some <$> texts) H1)
    as (Hp & _).
  refine (conj H1 (conj Hp _)). vm_compute. reflexivity.
Defined.

(** A file with a record, and nothing typed: the end of the input at the
    first prompt reaches the handler. *)
Lemma main_body_raises_witness :
  let w := Sample.world {[ u "language.csv" := octets "hello" ]} [] 0%nat in
  let run := main_body Sample.down Sample.gbk_decode Sample.exn_text
               Sample.codes Sample.names w in
  run = (Raise EOFError, run.2)
  /\ (EOFError = FileNotFoundError (u "language.csv")
      \/ EOFError = UnicodeDecodeError
      \/ EOFError = EOFError
      \/ EOFError = UnicodeEncodeError
      \/ (exists name code,
            EOFError = KeyError code /\ Sample.names !! name = Some code
            /\ Sample.codes !! code = None)).
Proof.
  intros w run.
  assert (H1 : run = (Raise EOFError, run.2)) by (vm_compute; reflexivity).
  exact (conj H1
           (main_body_raises Sample.down Sample.gbk_decode Sample.exn_text
              Sample.codes Sample.names w run.2 EOFError H1)).
Defined.

(** Two records, a code for each language and a key, on a service that
    answers every call with the same text. *)
Lemma main_completes_witness :
  let b := octets "hello," ++ [10] ++ octets "world" in
  let text := u "hello," ++ [10] ++ u "world" in
  let w := Sample.world {[ u "language.csv" := b ]}
             [u "en"; u " zh "; u ""; u "left"] 0%nat in
  let create := Demo.answering (u "'你好。'") in
  files w !! u "language.csv" = Some b
  /\ Spec.decoded Sample.gbk_decode b = Some text
  /\ Utf8.valid text = true
  /\ Spec.clean_lines (split_lines [] text) <> []
  /\ stdin w = [u "en"; u " zh "; u ""; u "left"]
  /\ Sample.codes !! Py.strip (u "en") = Some (u "英文")
  /\ Sample.codes !! Py.strip (u " zh ") = Some (u "中文")
  /\ Utf8.valid (u "英文") = true
  /\ (forall c request s,
        first_text (create c request).1 = Ok s -> Utf8.valid s = true)
  /\ exists w' translated,
       main create Sample.gbk_decode Sample.exn_text Sample.codes Sample.names w
       = (Ok tt, w')
       /\ stdin w' = [u "left"]
       /\ length translated
          = length (Spec.clean_lines (split_lines [] text))
       /\ files w' !! (u "translated_" ++ Py.strip (u "en") ++ u "_to_"
                       ++ Py.strip (u " zh ") ++ u ".csv") ≫= Utf8.decode
          = Some (output_text (u "英文")
                    (Spec.clean_lines (split_lines [] text))
                    (Some <$> translated))
       /\ (forall p,
             p <> u "translated_" ++ Py.strip (u "en") ++ u "_to_"
                  ++ Py.strip (u " zh ") ++ u ".csv" ->
             files w' !! p = files w !! p).
Proof.
  intros b text w create.
  assert (H1 : files w !! u "language.csv" = Some b) by (vm_compute; reflexivity).
  assert (H2 : Spec.decoded Sample.gbk_decode b = Some text)
    by (vm_compute; reflexivity).
  assert (H3 : Utf8.valid text = true) by (vm_compute; reflexivity).
  assert (H4 : Spec.clean_lines (split_lines [] text) <> [])
    by (vm_compute; discriminate).
  assert (H5 : stdin w = [u "en"; u " zh "; u ""; u "left"]) by reflexivity.
  assert (H6 : Sample.codes !! Py.strip (u "en") = Some (u "英文"))
    by (vm_compute; reflexivity).
  assert (H7 : Sample.codes !! Py.strip (u " zh ") = Some (u "中文"))
    by (vm_compute; reflexivity).
  assert (H8 : Utf8.valid (u "英文") = true) by (vm_compute; reflexivity).
  assert (H9 : forall c request s,
            first_text (create c request).1 = Ok s -> Utf8.valid s = true).
  { intros c request s Hs. injection Hs as <-. vm_compute. reflexivity. }
  exact (conj H1 (conj H2 (conj H3 (conj H4 (conj H5 (conj H6 (conj H7 (conj H8
           (conj H9
              (main_completes create Sample.gbk_decode Sample.exn_text
                 Sample.codes Sample.names w b text (u "en") (u " zh ") (u "")
                 [u "left"] (u "英文") (u "中文")
                 H1 H2 H3 H4 H5 H6 H7 H8 H9)))))))))).
Defined.
